(** * The AI provider gateway of [api/ai_providers.py]

    A shallow embedding of the provider classes, of [AIService] and of
    [AITeam.collaborate], with the properties the specification states about
    them.  Python strings are sequences of code points, JSON documents are
    trees, the network is an oracle threaded through a state, and a function
    whose body holds a [yield] is a generator function: calling it builds a
    generator object and runs nothing.  The auditor of
    [api/config_analyzer.py], which the Fallback provider calls, and the
    endpoints of [api/views.py] that use the gateway are embedded too. *)

From Stdlib Require Import ZArith QArith Lia.
From Stdlib Require Import Strings.String Strings.Byte.
From stdpp Require Import base option list gmap pretty.

Set Default Proof Using "Type".
Set Warnings "-register-all".
Local Open Scope Z_scope.
Local Open Scope list_scope.

(** ** Python strings *)

Module PyStr.

(** A [str] is a sequence of Unicode code points; [len] counts them. *)
Definition pystr := list N.

(** A [bytes] value, as [requests] hands out the lines of a response. *)
Definition bytes := list byte.

Definition cont (b : N) : bool := ((128 <=? b) && (b <=? 191))%N.

Definition low6 (b : N) : N := (b - 128)%N.

(** [bytes.decode('utf-8')], strict: overlong forms, surrogates and code
    points above U+10FFFF are refused.  [None] is [UnicodeDecodeError]. *)
Fixpoint utf8_decode_N (bs : list N) : option pystr :=
  match bs with
  | [] => Some []
  | b0 :: r0 =>
    if (b0 <? 128)%N then cons b0 <$> utf8_decode_N r0
    else if ((194 <=? b0) && (b0 <=? 223))%N then
      match r0 with
      | b1 :: r1 =>
        if cont b1
        then cons ((b0 - 192) * 64 + low6 b1)%N <$> utf8_decode_N r1
        else None
      | _ => None
      end
    else if ((224 <=? b0) && (b0 <=? 239))%N then
      match r0 with
      | b1 :: b2 :: r2 =>
        if cont b1 && cont b2
           && negb ((b0 =? 224)%N && (b1 <? 160)%N)
           && negb ((b0 =? 237)%N && (160 <=? b1)%N)
        then cons ((b0 - 224) * 4096 + low6 b1 * 64 + low6 b2)%N
               <$> utf8_decode_N r2
        else None
      | _ => None
      end
    else if ((240 <=? b0) && (b0 <=? 244))%N then
      match r0 with
      | b1 :: b2 :: b3 :: r3 =>
        if cont b1 && cont b2 && cont b3
           && negb ((b0 =? 240)%N && (b1 <? 144)%N)
           && negb ((b0 =? 244)%N && (144 <=? b1)%N)
        then cons ((b0 - 240) * 262144 + low6 b1 * 4096
                   + low6 b2 * 64 + low6 b3)%N
               <$> utf8_decode_N r3
        else None
      | _ => None
      end
    else None
  end.

Definition utf8_decode (bs : bytes) : option pystr :=
  utf8_decode_N (Byte.to_N <$> bs).

(** A literal of the source, written here as the UTF-8 text of the file. *)
Definition py (s : string) : pystr :=
  default [] (utf8_decode (list_byte_of_string s)).

Definition str_eqb (a b : pystr) : bool := bool_decide (a = b).

(** [hay.startswith(needle)] *)
Fixpoint startswith (needle hay : pystr) : bool :=
  match needle, hay with
  | [], _ => true
  | _ :: _, [] => false
  | c :: needle', d :: hay' => (c =? d)%N && startswith needle' hay'
  end.

(** [needle in hay] *)
Fixpoint contains (needle hay : pystr) : bool :=
  startswith needle hay ||
  match hay with
  | [] => false
  | _ :: hay' => contains needle hay'
  end.

(** [hay.find(needle)], [None] for -1. *)
Fixpoint find (needle hay : pystr) : option nat :=
  if startswith needle hay then Some 0%nat
  else match hay with
       | [] => None
       | _ :: hay' => S <$> find needle hay'
       end.

(** [str.isspace] on one character, which is also what [\s] matches in a
    [str] pattern and what [strip] removes. *)
Definition isspace (c : N) : bool :=
  (((9 <=? c) && (c <=? 13)) || ((28 <=? c) && (c <=? 32))
   || (c =? 133) || (c =? 160) || (c =? 5760)
   || ((8192 <=? c) && (c <=? 8202))
   || (c =? 8232) || (c =? 8233) || (c =? 8239) || (c =? 8287)
   || (c =? 12288))%N.

Fixpoint lstrip (s : pystr) : pystr :=
  match s with
  | c :: s' => if isspace c then lstrip s' else s
  | [] => []
  end.

Definition rstrip (s : pystr) : pystr := reverse (lstrip (reverse s)).

Definition strip (s : pystr) : pystr := rstrip (lstrip s).

(** [s[i:j]] for [0 <= i <= j]. *)
Definition slice {A} (i j : nat) (s : list A) : list A :=
  take (j - i) (drop i s).

End PyStr.
Export PyStr.

(** ** JSON documents *)

Module Json.

(** What [json.loads] and [response.json()] build, and what [json.dumps]
    takes.  A dict is kept as its items in insertion order, keys distinct. *)
Inductive json :=
| JNull
| JBool (b : bool)
| JInt (n : Z)
| JFloat (q : Q)
| JStr (s : pystr)
| JArr (items : list json)
| JObj (fields : list (pystr * json)).

Fixpoint dict_get (k : pystr) (fields : list (pystr * json)) : option json :=
  match fields with
  | [] => None
  | (k', v) :: rest => if str_eqb k k' then Some v else dict_get k rest
  end.

(** [bool(x)] *)
Definition truthy (j : json) : bool :=
  match j with
  | JNull => false
  | JBool b => b
  | JInt n => negb (n =? 0)
  | JFloat q => negb (Qeq_bool q 0)
  | JStr s => negb (bool_decide (s = []))
  | JArr l => negb (bool_decide (length l = 0%nat))
  | JObj f => negb (bool_decide (length f = 0%nat))
  end.

(** [x == s] for a [str] [s] *)
Definition eq_str (s : pystr) (x : json) : bool :=
  match x with
  | JStr t => str_eqb s t
  | _ => false
  end.

End Json.
Export Json.

(** ** Providers, the service, generator objects *)

(** The six classes that talk to a backend.  The body of each one's
    [generate_completion] holds a [yield] (lines 114, 208, 685, 847, 1013
    and 1164 of [ai_providers.py]). *)
Inductive backend :=
| OllamaProvider (api_url : pystr)
| OpenAIProvider (api_key : option pystr)
| AnthropicProvider (api_key : option pystr)
| GeminiProvider (api_key : option pystr)
| AzureOpenAIProvider (api_key endpoint : option pystr) (api_version : pystr)
| HuggingFaceProvider (api_key : option pystr).

(** An instance of [AIProvider].  [FallbackProvider.generate_completion]
    holds no [yield]: it is the one plain function of the seven. *)
Inductive provider :=
| Backend (b : backend)
| FallbackProvider.

(** [not self.api_key]: [None] and the empty string are both falsy. *)
Definition key_present (k : option pystr) : bool :=
  match k with
  | Some (_ :: _) => true
  | _ => false
  end.

(** The module-level settings [AIService.__init__] reads ([getattr] on
    [settings], with the environment as the default). *)
Record settings := {
  OLLAMA_USE_FALLBACK : bool;
  DEFAULT_AI_PROVIDER : pystr;
  OLLAMA_API_URL : pystr;
  OPENAI_API_KEY : option pystr;
  ANTHROPIC_API_KEY : option pystr;
  GEMINI_API_KEY : option pystr;
  AZURE_OPENAI_API_KEY : option pystr;
  AZURE_OPENAI_ENDPOINT : option pystr;
  AZURE_OPENAI_API_VERSION : pystr;
  HUGGINGFACE_API_KEY : option pystr
}.

(** [AIService]: [self.providers] is a dict, kept as its items in insertion
    order, which is the order [keys()] iterates in. *)
Record AIService := {
  use_fallback : bool;
  default_provider : pystr;
  providers : list (pystr * provider)
}.

(** A generator object: the suspended call of a generator function, that is
    the function and the arguments of its frame.  Nothing of the body has
    run when the object is made. *)
Inductive gen_code :=
| GenBackend (b : backend) (model : json) (prompt : pystr)
    (temperature : Q) (stream : bool)
| GenStreamFallback (response : pystr)
| GenService (self : AIService) (model : json) (prompt : pystr)
    (provider : option pystr) (temperature : Q) (stream : bool).

(** The values the functions of this module return. *)
Inductive pyval :=
| VJson (j : json)
| VGen (g : gen_code).

Definition VStr (s : pystr) : pyval := VJson (JStr s).
Definition VNone : pyval := VJson JNull.

Definition is_str (v : pyval) : bool :=
  match v with
  | VJson (JStr _) => true
  | _ => false
  end.

(** ** Exceptions *)

Inductive pyop :=
| OpSubscript | OpContains | OpLen | OpIter | OpConcat | OpSlice | OpMax
| OpRemove.

Inductive exn :=
| KeyError (key : json)
| IndexError (container : json)
| TypeError (op : pyop) (operand : pyval)
| AttributeError (attr : pystr) (operand : json)
| ValueError (msg : pystr)
| BuiltinValueError (op : pyop)
| JSONDecodeError (doc : pystr)
| UnicodeDecodeError
| RequestException (detail : pystr).

Inductive outcome (A : Type) :=
| Ret (a : A)
| Raise (e : exn).
Arguments Ret {A} a.
Arguments Raise {A} e.

(** ** Operations of the interpreter on JSON values *)

Module PyOps.

(** [j[k]] with a [str] key *)
Definition getitem_key (j : json) (k : pystr) : outcome json :=
  match j with
  | JObj f =>
    match dict_get k f with
    | Some v => Ret v
    | None => Raise (KeyError (JStr k))
    end
  | _ => Raise (TypeError OpSubscript (VJson j))
  end.

(** [j[i]] with an [int] index, [i >= 0].  The keys of a decoded dict are
    strings, so an [int] is never one of them. *)
Definition getitem_idx (j : json) (i : nat) : outcome json :=
  match j with
  | JArr l =>
    match l !! i with
    | Some v => Ret v
    | None => Raise (IndexError j)
    end
  | JStr s =>
    match s !! i with
    | Some c => Ret (JStr [c])
    | None => Raise (IndexError j)
    end
  | JObj _ => Raise (KeyError (JInt (Z.of_nat i)))
  | _ => Raise (TypeError OpSubscript (VJson j))
  end.

(** [k in j] with a [str] on the left *)
Definition contains_key (k : pystr) (j : json) : outcome bool :=
  match j with
  | JObj f => Ret (bool_decide (is_Some (dict_get k f)))
  | JArr l => Ret (existsb (eq_str k) l)
  | JStr s => Ret (contains k s)
  | _ => Raise (TypeError OpContains (VJson j))
  end.

(** [len(j)] *)
Definition py_len (j : json) : outcome nat :=
  match j with
  | JStr s => Ret (length s)
  | JArr l => Ret (length l)
  | JObj f => Ret (length f)
  | _ => Raise (TypeError OpLen (VJson j))
  end.

(** [j.get(k, d)]: only a dict has the method. *)
Definition method_get (j : json) (k : pystr) (d : json) : outcome json :=
  match j with
  | JObj f => Ret (default d (dict_get k f))
  | _ => Raise (AttributeError (py "get") j)
  end.

(** [content += x] with [content] a [str] *)
Definition concat_str (x : json) : outcome pystr :=
  match x with
  | JStr s => Ret s
  | _ => Raise (TypeError OpConcat (VJson x))
  end.

(** [for x in j]: a dict iterates its keys, a [str] its characters. *)
Definition py_iter (j : json) : outcome (list json) :=
  match j with
  | JArr l => Ret l
  | JObj f => Ret ((fun kv => JStr (fst kv)) <$> f)
  | JStr s => Ret ((fun c => JStr [c]) <$> s)
  | _ => Raise (TypeError OpIter (VJson j))
  end.

(** [s.split('/')[-1]] on a [str]: what follows the last slash. *)
Definition after_last_slash (s : pystr) : pystr :=
  fold_left (fun acc c => if (c =? 47)%N then [] else acc ++ [c]) s [].

(** [range(0, n, step)] for [step > 0] *)
Definition range_step (n step : nat) : list nat :=
  (fun k => (k * step)%nat) <$> seq 0 ((n + step - 1) / step).

(** [[s[i:i + size] for i in range(0, len(s), size)]] on a sequence *)
Definition chunks_of {A} (size : nat) (s : list A) : list (list A) :=
  (fun i => slice i (i + size) s) <$> range_step (length s) size.

(** [max(5, len(s) // 10)] *)
Definition chunk_size (n : nat) : nat := Nat.max 5 (n / 10).

End PyOps.
Export PyOps.

(** ** The canned answers of [FallbackProvider] *)

Module Canned.

Definition dq : pystr := [34]%N.

(** The text returned at line 402. *)
Definition unix_response : pystr :=
  py "# UNIX/Linux системы - основные команды

- `ls` - просмотр содержимого директории
- `cd` - смена директории
- `pwd` - показать текущую директорию
- `mkdir` - создание директории
- `rm` - удаление файлов
- `cp` - копирование файлов
- `mv` - перемещение/переименование файлов
- `cat` - вывод содержимого файла
- `grep` - поиск текста в файлах
- `find` - поиск файлов
- `chmod` - изменение прав доступа
- `chown` - изменение владельца файла
- `sudo` - выполнение команд с привилегиями администратора
- `apt/yum/dnf` - управление пакетами

Для получения справки по команде используйте: `man имя_команды`".

(** The text returned at line 426. *)
Definition tor_response : pystr :=
  py "# Настройка Tor (луковичный протокол) VPN

Tor (The Onion Router) - это программное обеспечение для анонимной коммуникации. Вот как настроить "
  ++ dq
  ++ py "луковичный"
  ++ dq
  ++ py " VPN:

## 1. Установка Tor
```bash
# Debian/Ubuntu
sudo apt update
sudo apt install tor

# Fedora
sudo dnf install tor

# Arch Linux
sudo pacman -S tor
```

## 2. Настройка Tor как SOCKS-прокси
Отредактируйте файл `/etc/tor/torrc`:
```bash
sudo nano /etc/tor/torrc
```

Добавьте или раскомментируйте строки:
```
SOCKSPort 9050
ControlPort 9051
```

## 3. Запуск сервиса Tor
```bash
sudo systemctl start tor
sudo systemctl enable tor
```

## 4. Настройка системы для использования Tor
### Проверка:
```bash
curl --socks5 127.0.0.1:9050 https://check.torproject.org/api/ip
```

### Для прозрачного перенаправления всего трафика:
Установите пакет `torsocks`:
```bash
sudo apt install torsocks  # Debian/Ubuntu
```

Использование:
```bash
torsocks имя_программы
# или
torify имя_программы
```

## 5. Дополнительно (луковые сервисы)
Для создания скрытого сервиса, добавьте в `/etc/tor/torrc`:
```
HiddenServiceDir /var/lib/tor/hidden_service/
HiddenServicePort 80 127.0.0.1:8080
```

Перезапустите Tor, и адрес .onion будет доступен в файле:
```bash
sudo cat /var/lib/tor/hidden_service/hostname
```".

(** The text returned at line 492. *)
Definition network_response : pystr :=
  py "# Основные сетевые команды в UNIX/Linux

- `ip a` или `ifconfig` - показать сетевые интерфейсы
- `ip r` или `route` - показать таблицу маршрутизации
- `ping адрес` - проверка доступности хоста
- `traceroute адрес` - трассировка маршрута
- `netstat -tuln` - открытые порты/соединения
- `ss -tuln` - открытые порты (современный аналог netstat)
- `nmap` - сканирование портов и сервисов
- `dig` или `nslookup` - запросы DNS
- `curl` или `wget` - запросы HTTP
- `iptables` - настройка файрвола (legacy)
- `nftables` или `firewalld` - современные файрволы
- `tcpdump` - перехват и анализ сетевого трафика
- `ssh пользователь@хост` - безопасное подключение к удаленному хосту".

(** The text returned at line 511. *)
Definition kubernetes_response : pystr :=
  py "# Установка и запуск Kubernetes

## Первичная настройка на Ubuntu/Debian
```bash
# Обновление системы
sudo apt update && sudo apt upgrade -y

# Установка Docker
sudo apt install -y docker.io
sudo systemctl enable docker
sudo systemctl start docker

# Установка kubectl
curl -LO "
  ++ dq
  ++ py "https://dl.k8s.io/release/$(curl -L -s https://dl.k8s.io/release/stable.txt)/bin/linux/amd64/kubectl"
  ++ dq
  ++ py "
sudo install -o root -g root -m 0755 kubectl /usr/local/bin/kubectl

# Установка minikube для тестового кластера
curl -LO https://storage.googleapis.com/minikube/releases/latest/minikube-linux-amd64
sudo install minikube-linux-amd64 /usr/local/bin/minikube

# Запуск кластера
minikube start
```

## Настройка полноценного кластера с kubeadm
```bash
# Отключение swap
sudo swapoff -a
sudo sed -i '/ swap / s/^\(.*\)$/#"
  ++ [1]%N
  ++ py "/g' /etc/fstab

# Установка kubeadm, kubelet и kubectl
sudo apt-get update && sudo apt-get install -y apt-transport-https curl
curl -s https://packages.cloud.google.com/apt/doc/apt-key.gpg | sudo apt-key add -
cat <<EOF | sudo tee /etc/apt/sources.list.d/kubernetes.list
deb https://apt.kubernetes.io/ kubernetes-xenial main
EOF
sudo apt-get update
sudo apt-get install -y kubelet kubeadm kubectl
sudo apt-mark hold kubelet kubeadm kubectl

# Инициализация мастер-узла
sudo kubeadm init --pod-network-cidr=10.244.0.0/16

# Настройка kubectl для текущего пользователя
mkdir -p $HOME/.kube
sudo cp -i /etc/kubernetes/admin.conf $HOME/.kube/config
sudo chown $(id -u):$(id -g) $HOME/.kube/config

# Установка сетевого плагина (Flannel)
kubectl apply -f https://raw.githubusercontent.com/coreos/flannel/master/Documentation/kube-flannel.yml
```

## Проверка работы кластера
```bash
kubectl get nodes
kubectl get pods --all-namespaces
```".

(** The text returned at line 571. *)
Definition general_response : pystr :=
  py "# DevOps Справочник

Здравствуйте! Я могу предоставить информацию по следующим темам:

## Linux/Unix системы
- Установка и настройка пакетов
- Управление пользователями и правами доступа
- Управление процессами и сервисами
- Файловые системы и диски

## Сети и VPN
- Настройка сетевых интерфейсов
- Маршрутизация и файрволы
- VPN (OpenVPN, WireGuard)
- Tor ("
  ++ dq
  ++ py "луковичный"
  ++ dq
  ++ py " протокол)

## Контейнеризация
- Docker
- Docker Compose
- Основы управления контейнерами

## Оркестрация
- Kubernetes (установка, настройка, управление)
- Helm
- Базовые манифесты и деплои

## CI/CD
- Настройка пайплайнов
- Github Actions
- Jenkins
- GitLab CI

Задайте конкретный вопрос по одной из этих тем, и я предоставлю более детальную информацию.".

(** The catalogue of [FallbackProvider.list_models]. *)
Definition fallback_models : json :=
  JArr [
    JObj [(py "name", JStr (py "fallback-unix"));
          (py "description",
           JStr (py "Модель для ответов на вопросы о UNIX-системах"))];
    JObj [(py "name", JStr (py "fallback-network"));
          (py "description",
           JStr (py "Модель для ответов на вопросы о сетях и VPN"))];
    JObj [(py "name", JStr (py "fallback-kubernetes"));
          (py "description",
           JStr (py "Модель для ответов на вопросы о Kubernetes"))];
    JObj [(py "name", JStr (py "fallback-analyzer"));
          (py "description",
           JStr (py "Модель для анализа конфигурационных файлов"))]
  ].

(** The reply of the sibling path in [ollama.generate_completion] (lines 326,
    432 and 557 of [ollama.py]) when a prompt asks for a configuration check
    and holds no fenced block. *)
Definition ollama_fence_message : pystr :=
  py "Не удалось найти конфигурационный файл в вашем сообщении. Пожалуйста, заключите конфигурацию в тройные обратные кавычки (```конфигурация```).".

End Canned.
Export Canned.

(** ** The world outside the process *)

(** One HTTP exchange through [requests].  The URL, the headers, the
    timeout and the shape of the payload are fixed by the provider and the
    method, so a request is named by the provider that sends it and by what
    it asks for.  (The payload of [OllamaProvider] also carries the system
    prompt [devops_prompt] picks for the prompt; nothing reads it back.)
    [ReqProbe b] is the request of [b.check_connection()]: a GET of a
    listing for every backend but [AnthropicProvider], which has no such
    endpoint and POSTs a fixed "hello" message of at most ten tokens to
    [/messages]; [ReqModels b] is the request of [b.list_models()], and
    [ReqGenerate b ...] that of [b.generate_completion(...)]. *)
Inductive request :=
| ReqProbe (b : backend)
| ReqModels (b : backend)
| ReqGenerate (b : backend) (model : json) (prompt : pystr)
    (temperature : Q) (stream : bool).

Record response := {
  status_code : Z;
  (** [response.json()] *)
  body_json : outcome json;
  (** the lines [response.iter_lines()] hands out, *)
  body_lines : list bytes;
  (** and the exception it raises after the last of them, if the transfer
      breaks off. *)
  body_lines_end : option exn
}.

(** [requests.get] and [requests.post] return a response or raise. *)
Inductive reply :=
| Failed (e : exn)
| Answered (r : response).

(** What the module takes from outside: the network and the standard
    library. *)
Class Runtime := {
  world : Type;
  http : request -> world -> reply * world;
  (** [json.loads] on a [str] and on a [bytes] *)
  json_loads : pystr -> outcome json;
  json_loads_bytes : bytes -> outcome json;
  (** [str.lower] *)
  str_lower : pystr -> pystr;
  (** [str(e)] *)
  str_exn : exn -> pystr;
  (** [str(v)] for a value that is neither a [str] nor an [int] *)
  str_value : pyval -> pystr
}.

Global Instance outcome_ret : MRet outcome := fun A a => Ret a.
Global Instance outcome_bind : MBind outcome :=
  fun A B k m => match m with Ret a => k a | Raise e => Raise e end.
Global Instance outcome_fmap : FMap outcome :=
  fun A B f m => match m with Ret a => Ret (f a) | Raise e => Raise e end.

(** ** Events of a stream *)

Module Event.

(** Every [yield] of the module is [json.dumps] of a dict; an event is kept
    as that dict. *)
Definition error_event (msg : pystr) : json :=
  JObj [(py "error", JStr msg)].

(** [{"done": True, "response": "", "model": model}] *)
Definition done_event (model : json) : json :=
  JObj [(py "done", JBool true); (py "response", JStr []);
        (py "model", model)].

(** [{"response": chunk, "done": False, "model": model}] *)
Definition delta_event (chunk : pystr) (model : json) : json :=
  JObj [(py "response", JStr chunk); (py "done", JBool false);
        (py "model", model)].

(** The [done] field of an event is [true]. *)
Definition ev_done (e : json) : bool :=
  match e with
  | JObj f =>
    match dict_get (py "done") f with
    | Some (JBool true) => true
    | _ => false
    end
  | _ => false
  end.

(** The event carries an [error] field. *)
Definition ev_error (e : json) : bool :=
  match e with
  | JObj f => bool_decide (is_Some (dict_get (py "error") f))
  | _ => false
  end.

End Event.
Export Event.

(** What running one line of a stream does to the loop around it. *)
Inductive control := Continue | Break.

(** The events one pass of a loop body yields, and how the pass ends. *)
Definition L (A : Type) : Type := list json * outcome A.

Global Instance L_ret : MRet L := fun A a => ([], Ret a).
Global Instance L_bind : MBind L :=
  fun A B k m =>
    match m with
    | (ev, Ret a) => let '(ev', r) := k a in (ev ++ ev', r)
    | (ev, Raise e) => (ev, Raise e)
    end.

Definition pure {A} (o : outcome A) : L A := ([], o).
Definition emit (e : json) : L unit := ([e], Ret tt).

(** How a [for line in response.iter_lines()] loop ends. *)
Inductive loop_end :=
| Exhausted
| Broke
| Thrown (e : exn).

(** The loop over the lines, [if line:] included. *)
Fixpoint iter_lines_loop (handle : bytes -> L control) (ls : list bytes)
  : list json * loop_end :=
  match ls with
  | [] => ([], Exhausted)
  | [] :: ls' => iter_lines_loop handle ls'
  | l :: ls' =>
    match handle l with
    | (ev, Ret Continue) =>
      let '(ev', e) := iter_lines_loop handle ls' in (ev ++ ev', e)
    | (ev, Ret Break) => (ev, Broke)
    | (ev, Raise e) => (ev, Thrown e)
    end
  end.

(** The newline. *)
Definition nl : pystr := [10]%N.

(** ** The auditor of [api/config_analyzer.py] *)

Module config_analyzer.

(** [s.count(c)] for a one-character [c] *)
Definition count_char (c : N) (s : pystr) : nat :=
  length (filter (fun d => d = c) s).

(** [s.split(c)] for a one-character [c]: the pieces between the
    separators, empty ones included. *)
Fixpoint split_on (sep : N) (s : pystr) : list pystr :=
  match s with
  | [] => [[]]
  | c :: s' =>
    if (c =? sep)%N then [] :: split_on sep s'
    else match split_on sep s' with
         | piece :: pieces => (c :: piece) :: pieces
         | [] => [[c]]
         end
  end.

(** [s.split()]: the runs of characters that are no white space. *)
Fixpoint split_ws_from (word : pystr) (s : pystr) : list pystr :=
  match s with
  | [] => if word is [] then [] else [word]
  | c :: s' =>
    if isspace c then
      if word is [] then split_ws_from [] s'
      else word :: split_ws_from [] s'
    else split_ws_from (word ++ [c]) s'
  end.

Definition split_ws (s : pystr) : list pystr := split_ws_from [] s.

(** [s.endswith(suffix)] *)
Definition endswith (suffix s : pystr) : bool :=
  startswith (reverse suffix) (reverse s).

(** [s.replace(old, '')] for a non-empty [old]: the occurrences are taken
    from the left and do not overlap; [skip] counts the characters of the
    occurrence under way. *)
Fixpoint remove_from (old : pystr) (skip : nat) (s : pystr) : pystr :=
  match s with
  | [] => []
  | c :: s' =>
    match skip with
    | S k => remove_from old k s'
    | O =>
      if startswith old s then remove_from old (length old - 1) s'
      else c :: remove_from old 0 s'
    end
  end.

Definition remove_all (old s : pystr) : pystr := remove_from old 0 s.

Fixpoint lstrip_gt (s : pystr) : pystr :=
  match s with
  | c :: s' => if (c =? 62)%N then lstrip_gt s' else s
  | [] => []
  end.

(** [s.rstrip('>')] *)
Definition rstrip_gt (s : pystr) : pystr := reverse (lstrip_gt (reverse s)).

(** [sep.join(xs)] *)
Fixpoint join (sep : pystr) (xs : list pystr) : pystr :=
  match xs with
  | [] => []
  | [x] => x
  | x :: xs' => x ++ sep ++ join sep xs'
  end.

(** [f"{n}"] for an [int] that counts something *)
Definition str_int (n : nat) : pystr := py (pretty n).

(** [xs[0]] on a list of strings *)
Definition first_item (xs : list pystr) : outcome pystr :=
  match xs with
  | x :: _ => Ret x
  | [] => Raise (IndexError (JArr []))
  end.

(** *** [analyze_nginx_config] *)

(** Lines 20 to 23. *)
Definition brace_problems (config_text : pystr) : list pystr :=
  let open_braces := count_char 123 config_text in
  let close_braces := count_char 125 config_text in
  if (open_braces =? close_braces)%nat then []
  else [py "Несоответствие количества открывающих (" ++ str_int open_braces
        ++ py ") и закрывающих (" ++ str_int close_braces ++ py ") скобок"].

(** The loop of lines 27 to 37. *)
Definition semicolon_problems (lines : list pystr) : list pystr :=
  concat (imap (fun i line =>
    let line := strip line in
    if bool_decide (line = []) || startswith (py "#") line
       || str_eqb line (py "}") || startswith (py "}") line
    then []
    else if contains (py "{") line then []
    else if endswith (py ";") line then []
    else [py "Строка " ++ str_int (i + 1)
          ++ py ": Отсутствует точка с запятой в конце: '" ++ line
          ++ py "'"]) lines).

(** Lines 49 to 52, the part of the [try] that can raise. *)
Definition listen_port (port_part : pystr) : outcome pystr :=
  if contains (py ":") port_part then
    match split_on 58 port_part !! 1%nat with
    | Some host_port => first_item (split_ws host_port)
    | None => Raise (IndexError (JArr []))
    end
  else first_item (split_ws port_part).

(** The loop of lines 41 to 58; [except Exception: pass] drops a line
    whose port cannot be taken. *)
Fixpoint listen_problems (listen_ports : list pystr) (lines : list pystr)
  : list pystr :=
  match lines with
  | [] => []
  | line :: rest =>
    let line := strip line in
    if startswith (py "listen") line then
      match split_ws line with
      | _ :: second :: _ =>
        match listen_port (remove_all (py ";") second) with
        | Ret port =>
          if bool_decide (port ∈ listen_ports) then
            (py "Дублирование порта в директиве listen: " ++ port)
            :: listen_problems listen_ports rest
          else listen_problems (listen_ports ++ [port]) rest
        | Raise _ => listen_problems listen_ports rest
        end
      | _ => listen_problems listen_ports rest
      end
    else listen_problems listen_ports rest
  end.

(** The loops of lines 76 to 80 and 135 to 140: [seen] holds the keys of
    the dict; a name met again is a problem, a new one is recorded.  The
    result is the problems and the keys at the end. *)
Fixpoint register_names (label : pystr) (seen : list pystr)
    (names : list pystr) : list pystr * list pystr :=
  match names with
  | [] => ([], seen)
  | name :: rest =>
    if bool_decide (name ∈ seen) then
      let '(problems, seen') := register_names label seen rest in
      ((label ++ name) :: problems, seen')
    else register_names label (seen ++ [name]) rest
  end.

(** The loop of lines 64 to 80. *)
Fixpoint server_name_problems (server_names : list pystr)
    (in_server_block : bool) (current_server_names : list pystr)
    (lines : list pystr) : list pystr :=
  match lines with
  | [] => []
  | line :: rest =>
    let line := strip line in
    if startswith (py "server {") line then
      server_name_problems server_names true [] rest
    else if in_server_block && startswith (py "server_name") line then
      let parts :=
        split_ws (strip (remove_all (py ";")
                           (remove_all (py "server_name") line))) in
      server_name_problems server_names in_server_block
        (current_server_names ++ parts) rest
    else if in_server_block && str_eqb line (py "}") then
      let '(problems, seen) :=
        register_names (py "Дублирование server_name: ") server_names
          current_server_names in
      problems ++ server_name_problems seen false current_server_names rest
    else
      server_name_problems server_names in_server_block current_server_names
        rest
  end.

Definition path_directives : list pystr :=
  [py "root"; py "access_log"; py "error_log"; py "include"].

(** The inner loop of lines 85 to 89, on a stripped line. *)
Fixpoint directive_problems (line : pystr) (directives : list pystr)
  : outcome (list pystr) :=
  match directives with
  | [] => Ret []
  | directive :: rest =>
    here ← (if startswith (directive ++ py " ") line then
              path ← first_item
                       (split_ws (strip (remove_all (py ";")
                          (remove_all (directive ++ py " ") line))));
              Ret (if str_eqb path (py "/path/to/")
                   then [py "Обнаружен путь-заполнитель: " ++ path
                         ++ py " в директиве " ++ directive]
                   else [])
            else Ret []);
    more ← directive_problems line rest;
    Ret (here ++ more)
  end.

(** The loop of lines 83 to 89. *)
Fixpoint path_problems (lines : list pystr) : outcome (list pystr) :=
  match lines with
  | [] => Ret []
  | line :: rest =>
    here ← directive_problems (strip line) path_directives;
    more ← path_problems rest;
    Ret (here ++ more)
  end.

(** Lines 106 to 119, and 196 to 209. *)
Definition report (title : pystr) (problems suggestions : list pystr)
  : pystr :=
  title ++ nl ++ nl
  ++ (if problems is [] then []
      else py "## Обнаруженные проблемы" ++ nl ++ nl
           ++ concat ((fun problem => py "- " ++ problem ++ nl) <$> problems)
           ++ nl)
  ++ (if suggestions is [] then []
      else py "## Рекомендации по улучшению" ++ nl ++ nl
           ++ concat ((fun suggestion => py "- " ++ suggestion ++ nl)
                        <$> suggestions)).

Definition nginx_verdict_ok : pystr :=
  py "Анализ конфигурации NGINX не выявил явных проблем. Конфигурация выглядит правильной.".

(** What the checks of lines 16 to 100 collect. *)
Definition nginx_findings (config_text : pystr)
  : outcome (list pystr * list pystr) :=
  let lines := split_on 10 config_text in
  let problems :=
    brace_problems config_text ++ semicolon_problems lines
    ++ listen_problems [] lines
    ++ server_name_problems [] false [] lines in
  paths ← path_problems lines;
  let tokens_on := contains (py "server_tokens on") config_text in
  let problems :=
    problems ++ paths
    ++ (if tokens_on
        then [py "server_tokens on: рекомендуется отключить для улучшения безопасности"]
        else []) in
  let suggestions :=
    (if tokens_on
     then [py "Добавьте 'server_tokens off;' для скрытия версии NGINX в заголовках ответа"]
     else [])
    ++ (if contains (py "add_header X-Frame-Options") config_text then []
        else [py "Рекомендуется добавить 'add_header X-Frame-Options " ++ dq
              ++ py "SAMEORIGIN" ++ dq
              ++ py ";' для защиты от кликджекинга"])
    ++ (if contains (py "add_header X-Content-Type-Options") config_text
        then []
        else [py "Рекомендуется добавить 'add_header X-Content-Type-Options "
              ++ dq ++ py "nosniff" ++ dq
              ++ py ";' для предотвращения MIME-сниффинга"]) in
  Ret (problems, suggestions).

Definition analyze_nginx_config (config_text : pystr) : outcome pystr :=
  '(problems, suggestions) ← nginx_findings config_text;
  Ret (match problems, suggestions with
       | [], [] => nginx_verdict_ok
       | _, _ => report (py "# Анализ конфигурации NGINX") problems
                   suggestions
       end).

(** *** [analyze_apache_config] *)

(** How many characters at the start of [s] satisfy [f]. *)
Fixpoint leading (f : N -> bool) (s : pystr) : nat :=
  match s with
  | c :: s' => if f c then S (leading f s') else O
  | [] => O
  end.

(** [re.match(r'<VirtualHost\s+([^>]+)>', s)]: group 1 and the length of
    the match.  The white space is taken greedily, then the run of
    characters other than [>]; when that run is empty the white space
    gives back its last character, which then is the group. *)
Definition vhost_at (s : pystr) : option (pystr * nat) :=
  if startswith (py "<VirtualHost") s then
    let r := drop 12 s in
    let n := leading isspace r in
    let after := drop n r in
    let m := leading (fun c => negb (c =? 62)%N) after in
    match n, m with
    | O, _ => None
    | S _, S _ =>
      if startswith (py ">") (drop m after)
      then Some (take m after, (12 + n + m + 1)%nat)
      else None
    | S n', O =>
      match after, n' with
      | _ :: _, S _ => Some (take 1 (drop n' r), (12 + n + 1)%nat)
      | _, _ => None
      end
    end
  else None.

(** [vhost_pattern.findall(s)]: the matches from the left, none
    overlapping another; [skip] counts the characters of the match under
    way. *)
Fixpoint findall_from (skip : nat) (s : pystr) : list pystr :=
  match s with
  | [] => []
  | _ :: s' =>
    match skip with
    | S k => findall_from k s'
    | O =>
      match vhost_at s with
      | Some (group, len) => group :: findall_from (len - 1) s'
      | None => findall_from 0 s'
      end
    end
  end.

Definition findall_vhosts (s : pystr) : list pystr := findall_from 0 s.

(** Lines 132 to 140. *)
Definition vhost_problems (config_text : pystr) : list pystr :=
  (register_names (py "Дублирование адреса VirtualHost: ") []
     (concat (split_ws <$> findall_vhosts config_text))).1.

(** The loop of lines 144 to 157. *)
Definition syntax_problems (lines : list pystr) : list pystr :=
  concat (imap (fun i line =>
    let line := strip line in
    if bool_decide (line = []) || startswith (py "#") line then []
    else
      (if startswith (py "<") line && negb (startswith (py "</") line)
          && negb (contains (py ">") line)
       then [py "Строка " ++ str_int (i + 1) ++ py ": Незакрытый тег: '"
             ++ line ++ py "'"]
       else [])
      ++ (if startswith (py "ServerName") line
             && (length (split_ws line) <? 2)%nat
          then [py "Строка " ++ str_int (i + 1)
                ++ py ": Некорректная директива ServerName: '" ++ line
                ++ py "'"]
          else [])) lines).

(** The loop of lines 161 to 177: the problems, and the tags left open. *)
Fixpoint tag_problems (open_tags : list pystr) (lines : list pystr)
  : outcome (list pystr * list pystr) :=
  match lines with
  | [] => Ret ([], open_tags)
  | line :: rest =>
    let line := strip line in
    if bool_decide (line = []) || startswith (py "#") line then
      tag_problems open_tags rest
    else
      open_tags ←
        (if startswith (py "<") line && negb (startswith (py "</") line)
            && contains (py ">") line
         then
           tag_name ← first_item (split_ws (drop 1 line));
           Ret (open_tags ++ [tag_name])
         else Ret open_tags);
      '(here, open_tags) ←
        (if startswith (py "</") line && contains (py ">") line then
           tag_name ← rstrip_gt <$> first_item (split_ws (drop 2 line));
           if match last open_tags with
              | Some top => str_eqb top tag_name
              | None => false
              end
           then Ret ([], take (length open_tags - 1) open_tags)
           else Ret ([py "Некорректное закрытие тега: " ++ tag_name],
                     open_tags)
         else Ret ([], open_tags));
      '(more, still_open) ← tag_problems open_tags rest;
      Ret (here ++ more, still_open)
  end.

Definition apache_verdict_ok : pystr :=
  py "Анализ конфигурации Apache не выявил явных проблем. Конфигурация выглядит правильной.".

(** What the checks of lines 128 to 190 collect. *)
Definition apache_findings (config_text : pystr)
  : outcome (list pystr * list pystr) :=
  let lines := split_on 10 config_text in
  let problems := vhost_problems config_text ++ syntax_problems lines in
  '(tags, open_tags) ← tag_problems [] lines;
  let problems :=
    problems ++ tags
    ++ (if open_tags is [] then []
        else [py "Незакрытые теги: " ++ join (py ", ") open_tags]) in
  let suggestions :=
    (if contains (py "ServerTokens Full") config_text
        || negb (contains (py "ServerTokens Prod") config_text)
     then [py "Рекомендуется использовать 'ServerTokens Prod' для скрытия информации о версии сервера"]
     else [])
    ++ (if contains (py "ServerSignature On") config_text
        then [py "Рекомендуется использовать 'ServerSignature Off' для отключения подписи сервера"]
        else [])
    ++ (if contains (py "TraceEnable On") config_text
           || negb (contains (py "TraceEnable") config_text)
        then [py "Рекомендуется использовать 'TraceEnable Off' для защиты от атак через метод TRACE"]
        else []) in
  Ret (problems, suggestions).

Definition analyze_apache_config (config_text : pystr) : outcome pystr :=
  '(problems, suggestions) ← apache_findings config_text;
  Ret (match problems, suggestions with
       | [], [] => apache_verdict_ok
       | _, _ => report (py "# Анализ конфигурации Apache") problems
                   suggestions
       end).

(** *** [analyze_config_file] *)

Definition undetermined : pystr :=
  py "Не удалось определить тип конфигурационного файла. Пожалуйста, укажите его явно.".

(** [if not config_type:] with the detection of lines 221 to 227; [None]
    when no type can be told. *)
Definition detect (config_text : pystr) (config_type : option pystr)
  : option pystr :=
  match config_type with
  | Some (c :: t) => Some (c :: t)
  | _ =>
    if contains (py "server {") config_text
       || contains (py "http {") config_text
    then Some (py "nginx")
    else if contains (py "<VirtualHost") config_text
            || contains (py "ServerName") config_text
    then Some (py "apache")
    else None
  end.

Definition analyze_config_file `{rt : Runtime} (config_text : pystr)
    (config_type : option pystr) : outcome pystr :=
  match detect config_text config_type with
  | None => Ret undetermined
  | Some config_type =>
    if str_eqb (str_lower config_type) (py "nginx") then
      analyze_nginx_config config_text
    else if bool_decide (str_lower config_type ∈ [py "apache"; py "httpd"])
    then analyze_apache_config config_text
    else Ret (py "Анализ для конфигурационных файлов типа '" ++ config_type
              ++ py "' пока не поддерживается.")
  end.

End config_analyzer.

(** ** The embedding *)

Section Embedding.

Context `{rt : Runtime}.

(** The state a call runs in: the world behind the network, the requests
    sent so far, and the list objects of the caller, by address. *)
Record state := {
  st_world : world;
  st_calls : list request;
  st_lists : gmap nat (list pystr)
}.

(** A plain function: it returns or raises, and may change the state. *)
Definition M (A : Type) : Type := state -> outcome A * state.

Global Instance M_ret : MRet M := fun A a st => (Ret a, st).
Global Instance M_bind : MBind M :=
  fun A B k m st =>
    match m st with
    | (Ret a, st') => k a st'
    | (Raise e, st') => (Raise e, st')
    end.

(** The body of a generator function, run until it returns or raises: the
    events it yields on the way, then the value of its [return] (the
    [value] of the [StopIteration] that ends the iteration). *)
Definition G (A : Type) : Type := state -> list json * outcome A * state.

Global Instance G_ret : MRet G := fun A a st => ([], Ret a, st).
Global Instance G_bind : MBind G :=
  fun A B k m st =>
    match m st with
    | (ev, Ret a, st') => let '(ev', r, st'') := k a st' in (ev ++ ev', r, st'')
    | (ev, Raise e, st') => (ev, Raise e, st')
    end.

Definition yield (e : json) : G unit := fun st => ([e], Ret tt, st).

Definition run {A} (m : M A) : G A :=
  fun st => let '(r, st') := m st in ([], r, st').

Definition raise_M {A} (e : exn) : M A := fun st => (Raise e, st).

Definition of_outcome {A} (o : outcome A) : M A := fun st => (o, st).

(** [try: body  except Exception as e: handler] around a generator body *)
Definition try_G {A} (body : G A) (handler : exn -> G A) : G A :=
  fun st =>
    match body st with
    | (ev, Ret a, st') => (ev, Ret a, st')
    | (ev, Raise e, st') =>
      let '(ev', r, st'') := handler e st' in (ev ++ ev', r, st'')
    end.

(** [requests.get(...)] or [requests.post(...)]: the world answers, the
    request is on record, and a failed exchange raises. *)
Definition send (rq : request) : M response :=
  fun st =>
    let '(r, w) := http rq (st_world st) in
    let st' := {| st_world := w; st_calls := st_calls st ++ [rq];
                  st_lists := st_lists st |} in
    match r with
    | Answered resp => (Ret resp, st')
    | Failed e => (Raise e, st')
    end.

(** *** [check_connection] *)

(** [try: response = requests.get(..., timeout=2);
         return response.status_code == 200
    except Exception: return False] *)
Definition probe (b : backend) : M bool :=
  fun st =>
    match send (ReqProbe b) st with
    | (Ret resp, st') => (Ret (status_code resp =? 200), st')
    | (Raise _, st') => (Ret false, st')
    end.

Definition credentials_present (b : backend) : bool :=
  match b with
  | OllamaProvider _ => true
  | OpenAIProvider k | AnthropicProvider k | GeminiProvider k
  | HuggingFaceProvider k => key_present k
  | AzureOpenAIProvider k e _ => key_present k && key_present e
  end.

Definition backend_check_connection (b : backend) : M bool :=
  if credentials_present b then probe b else mret false.

Definition check_connection (p : provider) : M bool :=
  match p with
  | Backend b => backend_check_connection b
  | FallbackProvider => mret true
  end.

(** *** [list_models] *)

(** [f"{v}"] *)
Definition fstr (v : pyval) : pystr :=
  match v with
  | VJson (JStr s) => s
  | VJson (JInt n) => py (pretty n)
  | _ => str_value v
  end.

(** [j.lower()]: only a [str] has the method. *)
Definition method_lower (j : json) : outcome pystr :=
  match j with
  | JStr s => Ret (str_lower s)
  | _ => Raise (AttributeError (py "lower") j)
  end.

(** [j.split('/')[-1]] *)
Definition method_split_last (j : json) : outcome json :=
  match j with
  | JStr s => Ret (JStr (after_last_slash s))
  | _ => Raise (AttributeError (py "split") j)
  end.

(** [[item(x) for x in xs if keep(x)]], with [f x] the pair of both: [None]
    when [x] is filtered out. *)
Fixpoint comprehension (f : json -> outcome (option json)) (xs : list json)
  : outcome (list json) :=
  match xs with
  | [] => Ret []
  | x :: xs' =>
    y ← f x;
    ys ← comprehension f xs';
    Ret (match y with Some v => v :: ys | None => ys end)
  end.

Definition openai_model_entry (model : json) : outcome (option json) :=
  id ← getitem_key model (py "id");
  low ← method_lower id;
  if contains (py "gpt") low then
    created ← method_get model (py "created") (JStr []);
    Ret (Some (JObj [(py "name", id); (py "modified_at", created)]))
  else Ret None.

Definition gemini_model_entry (model : json) : outcome (option json) :=
  name ← getitem_key model (py "name");
  low ← method_lower name;
  if contains (py "gemini") low then
    short ← method_split_last name;
    display ← method_get model (py "displayName") name;
    Ret (Some (JObj [(py "name", short); (py "description", display)]))
  else Ret None.

Definition azure_model_entry (deployment : json) : outcome (option json) :=
  id ← getitem_key deployment (py "id");
  model ← method_get deployment (py "model") (JStr (py "Unknown"));
  Ret (Some (JObj [(py "name", id);
                   (py "description",
                    JStr (py "Model: " ++ fstr (VJson model)))])).

Definition anthropic_models : json :=
  JArr [
    JObj [(py "name", JStr (py "claude-3-opus-20240229"));
          (py "description",
           JStr (py "Claude 3 Opus - Most powerful Claude model"))];
    JObj [(py "name", JStr (py "claude-3-sonnet-20240229"));
          (py "description",
           JStr (py "Claude 3 Sonnet - Balanced performance and cost"))];
    JObj [(py "name", JStr (py "claude-3-haiku-20240307"));
          (py "description",
           JStr (py "Claude 3 Haiku - Fastest Claude model"))];
    JObj [(py "name", JStr (py "claude-2.1"));
          (py "description", JStr (py "Claude 2.1 - Legacy model"))]
  ].

Definition huggingface_models : json :=
  JArr [
    JObj [(py "name", JStr (py "mistralai/Mistral-7B-Instruct-v0.2"));
          (py "description", JStr (py "Mistral 7B Instruct"))];
    JObj [(py "name", JStr (py "meta-llama/Llama-2-7b-chat-hf"));
          (py "description", JStr (py "Meta Llama 2 7B Chat"))];
    JObj [(py "name", JStr (py "tiiuae/falcon-7b-instruct"));
          (py "description", JStr (py "Falcon 7B Instruct"))];
    JObj [(py "name", JStr (py "codellama/CodeLlama-7b-instruct-hf"));
          (py "description", JStr (py "CodeLlama 7B Instruct"))];
    JObj [(py "name", JStr (py "google/gemma-7b-it"));
          (py "description", JStr (py "Google Gemma 7B Instruct"))]
  ].

(** What a listing makes of a 200 response. *)
Definition listing_of (b : backend) (resp : response) : outcome json :=
  body ← body_json resp;
  match b with
  | OllamaProvider _ => method_get body (py "models") (JArr [])
  | OpenAIProvider _ =>
    data ← method_get body (py "data") (JArr []);
    items ← py_iter data;
    JArr <$> comprehension openai_model_entry items
  | GeminiProvider _ =>
    data ← method_get body (py "models") (JArr []);
    items ← py_iter data;
    JArr <$> comprehension gemini_model_entry items
  | AzureOpenAIProvider _ _ _ =>
    data ← method_get body (py "data") (JArr []);
    items ← py_iter data;
    JArr <$> comprehension azure_model_entry items
  | AnthropicProvider _ | HuggingFaceProvider _ => Ret (JArr [])
  end.

(** [try: response = requests.get(..., timeout=5)
         if response.status_code == 200: return <listing>
         return []
    except Exception: return []] *)
Definition fetch_models (b : backend) : M json :=
  fun st =>
    match send (ReqModels b) st with
    | (Ret resp, st') =>
      if status_code resp =? 200 then
        match listing_of b resp with
        | Ret models => (Ret models, st')
        | Raise _ => (Ret (JArr []), st')
        end
      else (Ret (JArr []), st')
    | (Raise _, st') => (Ret (JArr []), st')
    end.

Definition backend_list_models (b : backend) : M json :=
  match b with
  | HuggingFaceProvider _ => mret huggingface_models
  | AnthropicProvider k =>
    if key_present k then mret anthropic_models else mret (JArr [])
  | OllamaProvider _ => fetch_models b
  | _ => if credentials_present b then fetch_models b else mret (JArr [])
  end.

Definition list_models (p : provider) : M json :=
  match p with
  | Backend b => backend_list_models b
  | FallbackProvider => mret fallback_models
  end.

(** *** The stream normalizers: one line of each vendor's framing *)

(** [line.decode('utf-8')] *)
Definition decode (line : bytes) : outcome pystr :=
  match utf8_decode line with
  | Some s => Ret s
  | None => Raise UnicodeDecodeError
  end.

(** [try: ... except Exception as e:
       yield json.dumps({"error": f"Error parsing stream: {str(e)}"})]
    around the handling of one line; the loop goes on. *)
Definition except_parse (m : L control) : L control :=
  match m with
  | (ev, Raise e) =>
    (ev ++ [error_event (py "Error parsing stream: " ++ str_exn e)],
     Ret Continue)
  | _ => m
  end.

(** [OllamaProvider], lines 119 to 125: only [json.JSONDecodeError] is
    caught at the line; anything else leaves the loop. *)
Definition ollama_line (line : bytes) : L control :=
  match
    (chunk ← pure (json_loads_bytes line);
     emit chunk;;
     done ← pure (method_get chunk (py "done") (JBool false));
     mret (if truthy done then Break else Continue))
  with
  | (ev, Raise (JSONDecodeError _)) =>
    (ev ++ [error_event (py "Invalid JSON in response")], Ret Continue)
  | r => r
  end.

(** [content += x; yield json.dumps({"response": x, "done": False, ...})] *)
Definition emit_delta (x : json) (model : json) : L unit :=
  s ← pure (concat_str x);
  emit (delta_event s model).

(** [OpenAIProvider], lines 260 to 285. *)
Definition openai_line (model : json) (line : bytes) : L control :=
  except_parse (
    line ← pure (decode line);
    if startswith (py "data: ") line then
      let line := drop 6 line in
      if str_eqb line (py "[DONE]") then
        emit (done_event model);; mret Break
      else
        data ← pure (json_loads line);
        delta ← pure (choices ← getitem_key data (py "choices");
                      first ← getitem_idx choices 0;
                      getitem_key first (py "delta"));
        has ← pure (contains_key (py "content") delta);
        if has : bool then
          content_chunk ← pure (getitem_key delta (py "content"));
          emit_delta content_chunk model;; mret Continue
        else mret Continue
    else mret Continue).

(** [AnthropicProvider], lines 737 to 766. *)
Definition anthropic_line (model : json) (line : bytes) : L control :=
  except_parse (
    line_text ← pure (decode line);
    if startswith (py "data:") line_text then
      let data_str := strip (drop 5 line_text) in
      if str_eqb data_str (py "[DONE]") then
        emit (done_event model);; mret Break
      else
        data_json ← pure (json_loads data_str);
        has ← pure (contains_key (py "content") data_json);
        nonempty ← (if has : bool then
                      pure (content ← getitem_key data_json (py "content");
                            n ← py_len content;
                            Ret (0 <? n)%nat)
                    else mret false);
        (if nonempty : bool then
           content_chunk ← pure (content ← getitem_key data_json (py "content");
                                 first ← getitem_idx content 0;
                                 getitem_key first (py "text"));
           emit_delta content_chunk model
         else mret tt);;
        type ← pure (method_get data_json (py "type") JNull);
        if eq_str (py "message_stop") type then
          emit (done_event model);; mret Break
        else mret Continue
    else mret Continue).

(** [GeminiProvider], lines 895 to 919. *)
Definition gemini_line (model : json) (line : bytes) : L control :=
  except_parse (
    chunk_text ← pure (decode line);
    if startswith (py "data: ") chunk_text then
      let data_str := drop 6 chunk_text in
      if str_eqb data_str (py "[DONE]") then
        emit (done_event model);; mret Break
      else
        data_json ← pure (json_loads data_str);
        has ← pure (contains_key (py "candidates") data_json);
        nonempty ← (if has : bool then
                      pure (cs ← getitem_key data_json (py "candidates");
                            n ← py_len cs;
                            Ret (0 <? n)%nat)
                    else mret false);
        if nonempty : bool then
          candidate ← pure (cs ← getitem_key data_json (py "candidates");
                            getitem_idx cs 0);
          has_content ← pure (contains_key (py "content") candidate);
          has_parts ← (if has_content : bool then
                         pure (content ← getitem_key candidate (py "content");
                               contains_key (py "parts") content)
                       else mret false);
          if has_parts : bool then
            content_part ← pure (content ← getitem_key candidate (py "content");
                                 parts ← getitem_key content (py "parts");
                                 first ← getitem_idx parts 0;
                                 getitem_key first (py "text"));
            emit_delta content_part model;; mret Continue
          else mret Continue
        else mret Continue
    else mret Continue).

(** [AzureOpenAIProvider], lines 1065 to 1091. *)
Definition azure_line (model : json) (line : bytes) : L control :=
  except_parse (
    line_text ← pure (decode line);
    if startswith (py "data:") line_text then
      let line_text := strip (drop 5 line_text) in
      if str_eqb line_text (py "[DONE]") then
        emit (done_event model);; mret Break
      else
        data ← pure (json_loads line_text);
        has ← pure (contains_key (py "choices") data);
        nonempty ← (if has : bool then
                      pure (choices ← getitem_key data (py "choices");
                            n ← py_len choices;
                            Ret (0 <? n)%nat)
                    else mret false);
        if nonempty : bool then
          delta ← pure (choices ← getitem_key data (py "choices");
                        first ← getitem_idx choices 0;
                        method_get first (py "delta") (JObj []));
          has_content ← pure (contains_key (py "content") delta);
          if has_content : bool then
            content_chunk ← pure (getitem_key delta (py "content"));
            emit_delta content_chunk model;; mret Continue
          else mret Continue
        else mret Continue
    else mret Continue).

(** *** [generate_completion] of the six backends *)

(** The message of the [if not self.api_key:] guard (lines 205, 682, 844,
    1010 and 1161).  [OllamaProvider] has no such guard. *)
Definition missing_credentials (b : backend) : pystr :=
  match b with
  | OllamaProvider _ => []
  | OpenAIProvider _ =>
    py "OpenAI API key not provided. Cannot generate completion."
  | AnthropicProvider _ =>
    py "Anthropic API key not provided. Cannot generate completion."
  | GeminiProvider _ =>
    py "Google Gemini API key not provided. Cannot generate completion."
  | AzureOpenAIProvider _ _ _ =>
    py "Azure OpenAI credentials not provided. Cannot generate completion."
  | HuggingFaceProvider _ =>
    py "Hugging Face API key not provided. Cannot generate completion."
  end.

(** The message of the [if response.status_code != 200:] guard of the
    streaming branch. *)
Definition connect_failure (b : backend) (resp : response) : pystr :=
  match b with
  | OllamaProvider _ => py "Failed to connect to Ollama API"
  | OpenAIProvider _ => py "Failed to connect to OpenAI API"
  | AnthropicProvider _ => py "Failed to connect to Anthropic API"
  | GeminiProvider _ => py "Failed to connect to Google Gemini API"
  | AzureOpenAIProvider _ _ _ => py "Failed to connect to Azure OpenAI API"
  | HuggingFaceProvider _ =>
    py "Failed to connect to Hugging Face API: "
    ++ fstr (VJson (JInt (status_code resp)))
  end.

(** Where each vendor keeps the answer in the body of a 200 response. *)
Definition extract_answer (b : backend) (body : json) : outcome json :=
  match b with
  | OllamaProvider _ => method_get body (py "response") (JStr [])
  | OpenAIProvider _ | AzureOpenAIProvider _ _ _ =>
    choices ← getitem_key body (py "choices");
    first ← getitem_idx choices 0;
    message ← getitem_key first (py "message");
    getitem_key message (py "content")
  | AnthropicProvider _ =>
    content ← getitem_key body (py "content");
    first ← getitem_idx content 0;
    getitem_key first (py "text")
  | GeminiProvider _ =>
    candidates ← getitem_key body (py "candidates");
    first ← getitem_idx candidates 0;
    content ← getitem_key first (py "content");
    parts ← getitem_key content (py "parts");
    part ← getitem_idx parts 0;
    getitem_key part (py "text")
  | HuggingFaceProvider _ =>
    first ← getitem_idx body 0;
    method_get first (py "generated_text") (JStr [])
  end.

Definition stream_line (b : backend) (model : json) : bytes -> L control :=
  match b with
  | OllamaProvider _ => ollama_line
  | OpenAIProvider _ => openai_line model
  | AnthropicProvider _ => anthropic_line model
  | GeminiProvider _ => gemini_line model
  | AzureOpenAIProvider _ _ _ => azure_line model
  | HuggingFaceProvider _ => fun _ => mret Continue
  end.

(** [for line in response.iter_lines(): ...] as a step of a generator. *)
Definition iter_lines (resp : response) (handle : bytes -> L control)
  : G unit :=
  fun st =>
    match iter_lines_loop handle (body_lines resp) with
    | (ev, Broke) => (ev, Ret tt, st)
    | (ev, Thrown e) => (ev, Raise e, st)
    | (ev, Exhausted) =>
      match body_lines_end resp with
      | None => (ev, Ret tt, st)
      | Some e => (ev, Raise e, st)
      end
    end.

(** [[x[i:i + chunk_size] for i in range(0, len(x), chunk_size)]] with
    [chunk_size = max(5, len(x) // 10)], on whatever [x] is. *)
Definition py_chunks (x : json) : outcome (list json) :=
  match x with
  | JStr s => Ret (JStr <$> chunks_of (chunk_size (length s)) s)
  | JArr l => Ret (JArr <$> chunks_of (chunk_size (length l)) l)
  | JObj [] => Ret []
  | JObj _ => Raise (TypeError OpSlice (VJson x))
  | _ => Raise (TypeError OpLen (VJson x))
  end.

(** [i == len(chunks) - 1] *)
Definition is_last (i n : nat) : bool :=
  bool_decide (Z.of_nat i = Z.of_nat n - 1).

(** [HuggingFaceProvider], lines 1201 to 1221: the whole answer is fetched,
    then cut into pieces. *)
Definition huggingface_emulation (resp : response) (model : json)
  : G unit :=
  fun st =>
    match
      (response_json ← body_json resp;
       first ← getitem_idx response_json 0;
       full_response ← method_get first (py "generated_text") (JStr []);
       py_chunks full_response)
    with
    | Ret chunks =>
      (imap (fun i chunk =>
               JObj [(py "response", chunk);
                     (py "done", JBool (is_last i (length chunks)));
                     (py "model", model)]) chunks,
       Ret tt, st)
    | Raise e =>
      ([error_event (py "Error parsing response: " ++ str_exn e)],
       Ret tt, st)
    end.

(** The branch [if not stream:] of the [try] block. *)
Definition plain_completion (b : backend) (model : json) (prompt : pystr)
    (temperature : Q) : G pyval :=
  resp ← run (send (ReqGenerate b model prompt temperature false));
  if status_code resp =? 200 then
    answer ← run (of_outcome (body_json resp ≫= extract_answer b));
    mret (VJson answer)
  else mret (VStr []).

(** The streaming branch of the [try] block. *)
Definition stream_completion (b : backend) (model : json) (prompt : pystr)
    (temperature : Q) : G pyval :=
  resp ← run (send (ReqGenerate b model prompt temperature true));
  if negb (status_code resp =? 200) then
    yield (error_event (connect_failure b resp));; mret VNone
  else
    match b with
    | HuggingFaceProvider _ => huggingface_emulation resp model
    | _ => iter_lines resp (stream_line b model)
    end;;
    mret VNone.

(** [except Exception as e:
       if stream: yield json.dumps({"error": str(e)})
       else: return f"Error: {str(e)}"] *)
Definition except_request (stream : bool) (body : G pyval) : G pyval :=
  try_G body (fun e =>
    if stream then yield (error_event (str_exn e));; mret VNone
    else mret (VStr (py "Error: " ++ str_exn e))).

(** The body of [generate_completion] of a backend, as the generator runs
    it.  [GeminiProvider] tests ['/' not in model] before its [try]. *)
Definition backend_body (b : backend) (model : json) (prompt : pystr)
    (temperature : Q) (stream : bool) : G pyval :=
  if negb (credentials_present b) then
    if stream then yield (error_event (missing_credentials b));; mret VNone
    else mret (VStr (missing_credentials b))
  else
    match b with
    | GeminiProvider _ =>
      run (of_outcome (contains_key (py "/") model));; mret tt
    | _ => mret tt
    end;;
    except_request stream
      (if stream then stream_completion b model prompt temperature
       else plain_completion b model prompt temperature).

(** *** [FallbackProvider] *)

Definition fence : pystr := py "```".
Definition quotes : pystr := py "'''".

(** [(?:nginx|apache|conf|config)?]: the first alternative that matches is
    taken. *)
Definition skip_language (s : pystr) : pystr :=
  if startswith (py "nginx") s then drop 5 s
  else if startswith (py "apache") s then drop 6 s
  else if startswith (py "conf") s then drop 4 s
  else if startswith (py "config") s then drop 6 s
  else s.

(** Group 1 of
    [re.search(r'```(?:nginx|apache|conf|config)?\s*([\s\S]*?)```', prompt)]:
    the search starts at the first fence, steps over the language word and
    the white space, and the lazy group stops at the next fence.  The
    characters stepped over are no backticks, so no closing fence is lost
    to them and the first attempt is the match. *)
Definition search_fenced (prompt : pystr) : option pystr :=
  i ← find fence prompt;
  let rest := lstrip (skip_language (drop (i + 3) prompt)) in
  j ← find fence rest;
  Some (take j rest).

(** Group 1 of [re.search(r"'''([\s\S]*?)'''", prompt)] *)
Definition search_quoted (prompt : pystr) : option pystr :=
  i ← find quotes prompt;
  let rest := drop (i + 3) prompt in
  j ← find quotes rest;
  Some (take j rest).

(** The guard of line 351: the prompt asks for a check and names a
    configuration. *)
Definition asks_for_config_check (prompt_lower : pystr) : bool :=
  (contains (py "проверь") prompt_lower
   || contains (py "проанализируй") prompt_lower)
  && (contains (py "конфиг") prompt_lower
      || contains (py "конфигурацию") prompt_lower).

Definition _generate_unix_response (prompt : pystr) : pystr :=
  unix_response.

Definition _generate_network_response (prompt : pystr) : pystr :=
  if contains (py "tor") (str_lower prompt)
     || contains (py "луковичный") (str_lower prompt)
  then tor_response
  else network_response.

Definition _generate_kubernetes_response (prompt : pystr) : pystr :=
  kubernetes_response.

Definition _generate_general_response (prompt : pystr) : pystr :=
  general_response.

(** Lines 372 to 379: the answers by topic. *)
Definition topic_response (prompt prompt_lower : pystr) : pystr :=
  if contains (py "unix") prompt_lower || contains (py "linux") prompt_lower
  then _generate_unix_response prompt
  else if contains (py "vpn") prompt_lower
          || contains (py "tor") prompt_lower
          || contains (py "лукови") prompt_lower
  then _generate_network_response prompt
  else if contains (py "kubernetes") prompt_lower
          || contains (py "k8s") prompt_lower
  then _generate_kubernetes_response prompt
  else _generate_general_response prompt.

(** [AIService] makes its Fallback provider with [FallbackProvider()], so
    that [self.config_analyzer] is the module [config_analyzer] itself: it
    is truthy, and the call of line 369 runs
    [config_analyzer.analyze_config_file], which may raise. *)
Definition _get_fallback_response (prompt : pystr) : outcome pystr :=
  let prompt_lower := str_lower prompt in
  let config_match :=
    if asks_for_config_check prompt_lower then
      match search_fenced prompt with
      | Some m => Some m
      | None => search_quoted prompt
      end
    else None in
  match config_match with
  | Some group =>
    let config_type :=
      if contains (py "nginx") prompt_lower then Some (py "nginx")
      else if contains (py "apache") prompt_lower then Some (py "apache")
      else None in
    config_analyzer.analyze_config_file (strip group) config_type
  | None => Ret (topic_response prompt prompt_lower)
  end.

(** The events of [_stream_fallback], lines 388 to 396. *)
Definition _stream_fallback (response : pystr) : list json :=
  let chunks := chunks_of (chunk_size (length response)) response in
  imap (fun i chunk =>
          JObj [(py "model", JStr (py "fallback"));
                (py "response", JStr chunk);
                (py "done", JBool (is_last i (length chunks)))]) chunks.

(** [FallbackProvider.generate_completion]: a plain function.  The
    response is made first, at the call; with [stream] the call then hands
    back the generator [_stream_fallback] makes. *)
Definition fallback_generate_completion (model : json) (prompt : pystr)
    (temperature : Q) (stream : bool) : outcome pyval :=
  response ← _get_fallback_response prompt;
  Ret (if stream then VGen (GenStreamFallback response) else VStr response).

(** *** [generate_completion] of a provider *)

(** For a backend the call makes the generator object and returns: the
    body waits for the first [next]. *)
Definition generate_completion (p : provider) (model : json) (prompt : pystr)
    (temperature : Q) (stream : bool) : M pyval :=
  match p with
  | Backend b => mret (VGen (GenBackend b model prompt temperature stream))
  | FallbackProvider =>
    of_outcome (fallback_generate_completion model prompt temperature stream)
  end.

(** *** [AIService] *)

(** [d[k]] on a dict of the process *)
Fixpoint lookup_item {A} (k : pystr) (d : list (pystr * A)) : option A :=
  match d with
  | [] => None
  | (k', v) :: rest => if str_eqb k k' then Some v else lookup_item k rest
  end.

Definition subscript {A} (d : list (pystr * A)) (k : pystr) : M A :=
  match lookup_item k d with
  | Some v => mret v
  | None => raise_M (KeyError (JStr k))
  end.

(** [__init__] with [_initialize_providers], lines 1346 to 1391. *)
Definition AIService_init (cfg : settings) : AIService :=
  {| use_fallback := OLLAMA_USE_FALLBACK cfg;
     default_provider := DEFAULT_AI_PROVIDER cfg;
     providers :=
       [(py "ollama", Backend (OllamaProvider (OLLAMA_API_URL cfg)))]
       ++ (if key_present (OPENAI_API_KEY cfg)
           then [(py "openai", Backend (OpenAIProvider (OPENAI_API_KEY cfg)))]
           else [])
       ++ (if key_present (ANTHROPIC_API_KEY cfg)
           then [(py "anthropic",
                  Backend (AnthropicProvider (ANTHROPIC_API_KEY cfg)))]
           else [])
       ++ (if key_present (GEMINI_API_KEY cfg)
           then [(py "gemini", Backend (GeminiProvider (GEMINI_API_KEY cfg)))]
           else [])
       ++ (if key_present (AZURE_OPENAI_API_KEY cfg)
              && key_present (AZURE_OPENAI_ENDPOINT cfg)
           then [(py "azure_openai",
                  Backend (AzureOpenAIProvider (AZURE_OPENAI_API_KEY cfg)
                             (AZURE_OPENAI_ENDPOINT cfg)
                             (AZURE_OPENAI_API_VERSION cfg)))]
           else [])
       ++ (if key_present (HUGGINGFACE_API_KEY cfg)
           then [(py "huggingface",
                  Backend (HuggingFaceProvider (HUGGINGFACE_API_KEY cfg)))]
           else [])
       ++ [(py "fallback", FallbackProvider)] |}.

(** The first two [if]s of [list_models] and of [generate_completion]: an
    absent, empty or unknown name becomes the default one. *)
Definition resolve_name (self : AIService) (provider : option pystr)
  : pystr :=
  let provider :=
    match provider with
    | Some (c :: s) => c :: s
    | _ => default_provider self
    end in
  if bool_decide (is_Some (lookup_item provider (providers self)))
  then provider
  else default_provider self.

(** Lines 1412 to 1438. *)
Definition AIService_list_models (self : AIService)
    (provider : option pystr) : M json :=
  let provider := resolve_name self provider in
  ai_provider ← subscript (providers self) provider;
  reachable ← check_connection ai_provider;
  if negb reachable then
    if use_fallback self then
      fallback ← subscript (providers self) (py "fallback");
      list_models fallback
    else mret (JArr [])
  else
    models ← list_models ai_provider;
    if negb (truthy models) && use_fallback self then
      fallback ← subscript (providers self) (py "fallback");
      list_models fallback
    else mret models.

(** [f"Provider '{provider}' is not available and fallback is disabled."] *)
Definition unavailable (provider : pystr) : pystr :=
  py "Provider '" ++ provider
  ++ py "' is not available and fallback is disabled.".

(** The body of [AIService.generate_completion], lines 1452 to 1474, as the
    generator runs it.  A [return] in it ends the iteration and leaves its
    value in the [StopIteration]; nothing it returns is yielded.  After the
    [yield] of line 1469 control falls through to the last [return]. *)
Definition service_body (self : AIService) (model : json) (prompt : pystr)
    (provider : option pystr) (temperature : Q) (stream : bool) : G pyval :=
  let provider := resolve_name self provider in
  ai_provider ← run (subscript (providers self) provider);
  reachable ← run (check_connection ai_provider);
  if negb reachable then
    if use_fallback self then
      fallback ← run (subscript (providers self) (py "fallback"));
      run (generate_completion fallback model prompt temperature stream)
    else if stream then
      yield (error_event (unavailable provider));;
      run (generate_completion ai_provider model prompt temperature stream)
    else mret (VStr (py "Error: " ++ unavailable provider))
  else
    run (generate_completion ai_provider model prompt temperature stream).

(** [AIService.generate_completion] holds the [yield] of line 1469, so a
    call of it makes a generator object and returns. *)
Definition AIService_generate_completion (self : AIService) (model : json)
    (prompt : pystr) (provider : option pystr) (temperature : Q)
    (stream : bool) : M pyval :=
  mret (VGen (GenService self model prompt provider temperature stream)).

(** *** Running a generator object *)

(** The iteration of a generator to its end, as [for chunk in stream] or
    [list(stream)] drive it. *)
Definition run_gen (g : gen_code) : G pyval :=
  match g with
  | GenBackend b model prompt temperature stream =>
    backend_body b model prompt temperature stream
  | GenStreamFallback response =>
    fun st => (_stream_fallback response, Ret VNone, st)
  | GenService self model prompt provider temperature stream =>
    service_body self model prompt provider temperature stream
  end.

(** *** [AITeam] *)

(** The list objects of the caller live in [st_lists]; a name bound to a
    list holds its address, and two names bound to one list see each
    other's changes. *)
Definition read_list (l : nat) : M (list pystr) :=
  fun st => (Ret (default [] (st_lists st !! l)), st).

Definition new_list (xs : list pystr) : M nat :=
  fun st =>
    let l := fresh (dom (st_lists st)) in
    (Ret l, {| st_world := st_world st; st_calls := st_calls st;
               st_lists := <[l := xs]> (st_lists st) |}).

Fixpoint remove_first (x : pystr) (xs : list pystr) : option (list pystr) :=
  match xs with
  | [] => None
  | y :: ys => if str_eqb x y then Some ys else cons y <$> remove_first x ys
  end.

(** [xs.remove(x)]: the first item equal to [x] goes, in place. *)
Definition list_remove (l : nat) (x : pystr) : M unit :=
  fun st =>
    match remove_first x (default [] (st_lists st !! l)) with
    | Some xs =>
      (Ret tt, {| st_world := st_world st; st_calls := st_calls st;
                  st_lists := <[l := xs]> (st_lists st) |})
    | None => (Raise (BuiltinValueError OpRemove), st)
    end.

(** [self.service.providers] *)
Definition registry (service : AIService) : list (pystr * provider) :=
  providers service.

(** One answer of the fan-out, the dict of lines 1297 to 1301. *)
Record team_answer := {
  ta_provider : pystr;
  ta_model : json;
  ta_response : pyval
}.

(** [[p for p in self.service.providers.keys()
      if self.service.providers[p].check_connection()]] *)
Fixpoint reachable_names (ps : list (pystr * provider)) : M (list pystr) :=
  match ps with
  | [] => mret []
  | (name, p) :: rest =>
    ok ← check_connection p;
    names ← reachable_names rest;
    mret (if ok : bool then name :: names else names)
  end.

(** [provider_models[0]["name"]] *)
Definition first_name (provider_models : json) : outcome json :=
  first ← getitem_idx provider_models 0;
  getitem_key first (py "name").

(** The loop of lines 1274 to 1280.  The [for] keeps an index into the
    list object and reads the list again at every step, while the body
    removes from that same list.  [fuel] bounds the steps; the length of
    the list at the start is enough, see [pick_models_fuel]. *)
Fixpoint pick_models (fuel : nat) (service : AIService) (providers : nat)
    (i : nat) (models : list json) : M (list json) :=
  match fuel with
  | O => mret models
  | S fuel' =>
    ps ← read_list providers;
    match ps !! i with
    | None => mret models
    | Some provider =>
      provider_models ← AIService_list_models service (Some provider);
      if truthy provider_models then
        name ← of_outcome (first_name provider_models);
        pick_models fuel' service providers (S i) (models ++ [name])
      else
        list_remove providers provider;;
        pick_models fuel' service providers (S i) models
    end
  end.

(** Lines 1267 to 1280: the provider list and the model list the call
    works with.  A list the caller passed is used as it is, the same
    object; an absent or empty one is replaced by a new list. *)
Definition resolve_selection (service : AIService) (providers : option nat)
    (models : option (list pystr)) : M (nat * list json) :=
  given ← match providers with
          | Some l => ps ← read_list l; mret (if ps is [] then None else Some l)
          | None => mret None
          end;
  providers ← match given with
              | Some l => mret l
              | None =>
                names ← reachable_names (registry service);
                new_list names
              end;
  models ← match models with
           | Some (m :: ms) => mret (JStr <$> (m :: ms))
           | _ =>
             ps ← read_list providers;
             pick_models (length ps) service providers 0 []
           end;
  mret (providers, models).

(** The loop of lines 1287 to 1301. *)
Fixpoint fan_out (service : AIService) (prompt : pystr) (temperature : Q)
    (models : list json) (i : nat) (ps : list pystr)
  : M (list team_answer) :=
  match ps with
  | [] => mret []
  | provider :: ps' =>
    model ← of_outcome (match models !! i with
                        | Some m => Ret m
                        | None => Raise (IndexError (JArr models))
                        end);
    response ← AIService_generate_completion service model prompt
                 (Some provider) temperature false;
    rest ← fan_out service prompt temperature models (S i) ps';
    mret ({| ta_provider := provider; ta_model := model;
             ta_response := response |} :: rest)
  end.

(** Lines 1304 to 1313. *)
Definition meta_prompt_of (prompt : pystr) (responses : list team_answer)
  : pystr :=
  py "Ты - метаанализатор, который объединяет и улучшает ответы от разных моделей ИИ."
  ++ nl ++ py "Исходный запрос: " ++ prompt ++ nl ++ nl
  ++ py "Ответы от разных моделей:" ++ nl
  ++ concat (imap (fun i resp =>
       nl ++ py "### Модель " ++ fstr (VJson (JInt (Z.of_nat i + 1)))
       ++ py " (" ++ ta_provider resp ++ py "/"
       ++ fstr (VJson (ta_model resp)) ++ py "):" ++ nl
       ++ fstr (ta_response resp) ++ nl) responses)
  ++ nl
  ++ py "Создай единый, согласованный и улучшенный ответ, который использует лучшие части из каждого ответа.".

Definition meta_providers : list pystr :=
  [py "openai"; py "anthropic"; py "azure_openai"; py "gemini";
   py "ollama"; py "huggingface"].

(** The loop of lines 1317 to 1331; [None] when it ends without a
    [return]. *)
Fixpoint synthesize (service : AIService) (meta_prompt : pystr)
    (temperature : Q) (names : list pystr) : M (option pyval) :=
  match names with
  | [] => mret None
  | provider :: rest =>
    usable ← match lookup_item provider (registry service) with
             | Some p => check_connection p
             | None => mret false
             end;
    if usable : bool then
      provider_models ← AIService_list_models service (Some provider);
      if truthy provider_models then
        meta_model ← of_outcome (first_name provider_models);
        meta_response ← AIService_generate_completion service meta_model
                          meta_prompt (Some provider) temperature false;
        mret (Some meta_response)
      else synthesize service meta_prompt temperature rest
    else synthesize service meta_prompt temperature rest
  end.

(** [len(x["response"])] *)
Definition response_len (v : pyval) : outcome nat :=
  match v with
  | VJson j => py_len j
  | VGen _ => Raise (TypeError OpLen v)
  end.

Fixpoint max_from (best : team_answer) (best_len : nat)
    (rest : list team_answer) : outcome team_answer :=
  match rest with
  | [] => Ret best
  | r :: rest' =>
    n ← response_len (ta_response r);
    if (best_len <? n)%nat then max_from r n rest'
    else max_from best best_len rest'
  end.

(** [max(responses, key=lambda x: len(x["response"]))]: the first of the
    longest; an empty list is a [ValueError]. *)
Definition max_by_len (responses : list team_answer) : outcome team_answer :=
  match responses with
  | [] => Raise (BuiltinValueError OpMax)
  | r :: rest =>
    n ← response_len (ta_response r);
    max_from r n rest
  end.

(** What follows the selection, lines 1283 to 1336. *)
Definition collaborate_selected (service : AIService) (prompt : pystr)
    (temperature : Q) (providers : nat) (models : list json) : M pyval :=
  ps ← read_list providers;
  if negb (length ps =? length models)%nat then
    raise_M (ValueError (py "Number of providers must match number of models"))
  else
    responses ← fan_out service prompt temperature models 0 ps;
    let meta_prompt := meta_prompt_of prompt responses in
    meta ← synthesize service meta_prompt temperature meta_providers;
    match meta with
    | Some meta_response => mret meta_response
    | None =>
      best_response ← of_outcome (max_by_len responses);
      mret (ta_response best_response)
    end.

(** [AITeam.collaborate] *)
Definition AITeam_collaborate (service : AIService) (prompt : pystr)
    (providers : option nat) (models : option (list pystr))
    (temperature : Q) : M pyval :=
  '(providers, models) ← resolve_selection service providers models;
  collaborate_selected service prompt temperature providers models.

(** [AIService.collaborate]: the temperature is the default of
    [AITeam.collaborate]. *)
Definition AIService_collaborate (self : AIService) (prompt : pystr)
    (providers : option nat) (models : option (list pystr)) : M pyval :=
  AITeam_collaborate self prompt providers models (7 # 10).

End Embedding.

(** ** Concrete worlds, for the evaluations below *)

Module Scripted.

(** [str.lower] on the Latin and Cyrillic letters the prompts and the
    keywords of the module are written in. *)
Definition lower_char (c : N) : N :=
  if ((65 <=? c) && (c <=? 90))%N then (c + 32)%N
  else if ((1040 <=? c) && (c <=? 1071))%N then (c + 32)%N
  else if ((1024 <=? c) && (c <=? 1039))%N then (c + 80)%N
  else c.

Definition lower (s : pystr) : pystr := lower_char <$> s.

(** The class name of an exception stands for its message. *)
Definition exn_text (e : exn) : pystr :=
  match e with
  | KeyError _ => py "KeyError"
  | IndexError _ => py "list index out of range"
  | TypeError _ _ => py "TypeError"
  | AttributeError attr _ => py "no attribute " ++ attr
  | ValueError msg => msg
  | BuiltinValueError _ => py "ValueError"
  | JSONDecodeError _ => py "Expecting value"
  | UnicodeDecodeError => py "invalid start byte"
  | RequestException detail => detail
  end.

(** A world without memory: [answer] fixes the reply to every request.
    No line of a stream parses. *)
Definition runtime (answer : request -> reply) : Runtime :=
  {| world := unit;
     http := fun rq w => (answer rq, w);
     json_loads := fun s => Raise (JSONDecodeError s);
     json_loads_bytes := fun _ => Raise (JSONDecodeError []);
     str_lower := lower;
     str_exn := exn_text;
     str_value := fun _ => py "<object>" |}.

(** Every request fails: nothing listens. *)
Definition offline : Runtime :=
  runtime (fun _ => Failed (RequestException (py "Connection refused"))).

(** Every request is answered 200 with [body] and no line. *)
Definition answering (body : json) : Runtime :=
  runtime (fun _ => Answered {| status_code := 200; body_json := Ret body;
                                body_lines := []; body_lines_end := None |}).

(** The start of a call: nothing sent, the caller holding [lists]. *)
Definition start (lists : gmap nat (list pystr)) (rt : Runtime)
    (w : @world rt) : @state rt :=
  {| st_world := w; st_calls := []; st_lists := lists |}.

(** The settings of a process with no key in its environment. *)
Definition bare (fallback : bool) : settings :=
  {| OLLAMA_USE_FALLBACK := fallback;
     DEFAULT_AI_PROVIDER := py "ollama";
     OLLAMA_API_URL := py "http://localhost:11434";
     OPENAI_API_KEY := None;
     ANTHROPIC_API_KEY := None;
     GEMINI_API_KEY := None;
     AZURE_OPENAI_API_KEY := None;
     AZURE_OPENAI_ENDPOINT := None;
     AZURE_OPENAI_API_VERSION := py "2023-07-01-preview";
     HUGGINGFACE_API_KEY := None |}.

(** The same with an OpenAI key. *)
Definition with_openai (fallback : bool) : settings :=
  {| OLLAMA_USE_FALLBACK := fallback;
     DEFAULT_AI_PROVIDER := py "ollama";
     OLLAMA_API_URL := py "http://localhost:11434";
     OPENAI_API_KEY := Some (py "sk-test");
     ANTHROPIC_API_KEY := None;
     GEMINI_API_KEY := None;
     AZURE_OPENAI_API_KEY := None;
     AZURE_OPENAI_ENDPOINT := None;
     AZURE_OPENAI_API_VERSION := py "2023-07-01-preview";
     HUGGINGFACE_API_KEY := None |}.

End Scripted.

(** ** The vocabulary of the properties *)

Module Spec.

(** The text an event carries in its [response] field. *)
Definition ev_text (e : json) : pystr :=
  match e with
  | JObj f =>
    match dict_get (py "response") f with
    | Some (JStr s) => s
    | _ => []
    end
  | _ => []
  end.

(** The event [_stream_fallback] yields for a chunk. *)
Definition fallback_event (chunk : pystr) (done : bool) : json :=
  JObj [(py "model", JStr (py "fallback")); (py "response", JStr chunk);
        (py "done", JBool done)].

Definition no_done (evs : list json) : Prop :=
  Forall (fun e => ev_done e = false) evs.

(** An event with [done = true] is the last one: there is at most one, and
    nothing follows it. *)
Definition done_only_last (evs : list json) : Prop :=
  forall pre e post, evs = pre ++ e :: post -> ev_done e = true -> post = [].

Definition done_count (evs : list json) : nat :=
  length (filter (fun e => ev_done e = true) evs).

(** The sequence ends on an event that reports an error. *)
Definition ends_with_error (evs : list json) : Prop :=
  exists e, last evs = Some e /\ ev_error e = true.

(** The invariant of the data model, as the specification words it. *)
Definition stream_invariant (evs : list json) : Prop :=
  (done_count evs = 1%nat \/ ends_with_error evs)
  /\ (done_count evs <= 1)%nat
  /\ done_only_last evs.

(** One pass of a loop body keeps the events in order: a pass that yields
    an event with [done = true] yields it last and breaks the loop. *)
Definition tidy_pass (r : L control) : Prop :=
  match r with
  | (ev, Ret Break) => exists pre e, ev = pre ++ [e] /\ no_done pre
  | (ev, _) => no_done ev
  end.

Definition tidy_loop (r : list json * loop_end) : Prop :=
  match r with
  | (ev, Broke) => exists pre e, ev = pre ++ [e] /\ no_done pre
  | (ev, _) => no_done ev
  end.

(** The events the consumer of
    [p.generate_completion(model, prompt, temperature, stream=True)]
    receives when it iterates the result to its end. *)
Definition stream_events `{rt : Runtime} (p : provider) (model : json)
    (prompt : pystr) (temperature : Q) (st : state) : list json :=
  match generate_completion p model prompt temperature true st with
  | (Ret (VGen g), st') => (run_gen g st').1.1
  | _ => []
  end.

(** A request sent by the body of a [generate_completion]. *)
Definition is_generation (rq : request) : bool :=
  match rq with
  | ReqGenerate _ _ _ _ _ => true
  | _ => false
  end.




(** A step that sends the request of no [generate_completion]. *)
Definition quiet `{rt : Runtime} {A} (m : M A) : Prop :=
  forall st, exists sent,
    st_calls (m st).2 = st_calls st ++ sent
    /\ Forall (fun rq => is_generation rq = false) sent.

(** A step that leaves the list objects as they are. *)
Definition keeps_lists `{rt : Runtime} {A} (m : M A) : Prop :=
  forall st, st_lists (m st).2 = st_lists st.

(** The chunk size the specification words: the ceiling of a tenth of the
    length, and at least 5. *)
Definition ceil_chunk_size (n : nat) : nat := Nat.max 5 ((n + 9) / 10).

(** The streaming emulation with the chunk size of the specification. *)
Definition ceil_stream_fallback (response : pystr) : list json :=
  let chunks := chunks_of (ceil_chunk_size (length response)) response in
  imap (fun i chunk =>
          JObj [(py "model", JStr (py "fallback"));
                (py "response", JStr chunk);
                (py "done", JBool (is_last i (length chunks)))]) chunks.


End Spec.
Export Spec.

(** ** The endpoints of [api/views.py] that use the gateway *)

Module views.

(** What a view hands to the framework: [Response(fields, status=...)]. *)
Inductive view_result :=
| Response (fields : list (pystr * pyval)) (status : Z).

Definition status_of (r : view_result) : Z :=
  match r with Response _ status => status end.

(** The dict of [get_provider_display_name]. *)
Definition display_names : list (pystr * pystr) :=
  [(py "ollama", py "Ollama");
   (py "openai", py "OpenAI");
   (py "anthropic", py "Anthropic Claude");
   (py "gemini", py "Google Gemini");
   (py "azure_openai", py "Azure OpenAI");
   (py "huggingface", py "Hugging Face");
   (py "fallback", py "Локальный ИИ")].

(** The parameters [AIService.collaborate] declares after [self]
    (line 1393 of [ai_providers.py]). *)
Definition AIService_collaborate_parameters : list pystr :=
  [py "prompt"; py "providers"; py "models"].

(** A call [f(k1=..., k2=..., ...)] of a function without [**kwargs]: the
    first keyword that names no parameter makes the call a [TypeError],
    before anything of the body runs. *)
Definition unexpected_keyword (parameters keywords : list pystr)
  : option pystr :=
  head (filter (fun k => k ∉ parameters) keywords).

Section Views.

Context `{rt : Runtime}.

(** [str.capitalize] *)
Variable capitalize : pystr -> pystr.

(** [display_names.get(provider, provider.capitalize())] *)
Definition get_provider_display_name (provider : pystr) : pystr :=
  default (capitalize provider) (lookup_item provider display_names).

(** One pass of the loop of [ai_providers], lines 213 to 230. *)
Definition provider_entry (provider_name : pystr) (p : provider) : M json :=
  reachable ← check_connection p;
  if reachable : bool then
    models ← list_models p;
    default_model ← of_outcome (if truthy models then first_name models
                                else Ret (JStr []));
    models_count ← of_outcome (py_len models);
    mret (JObj [(py "name", JStr provider_name);
                (py "display_name",
                 JStr (get_provider_display_name provider_name));
                (py "available", JBool true);
                (py "default_model", default_model);
                (py "models_count", JInt (Z.of_nat models_count))])
  else
    mret (JObj [(py "name", JStr provider_name);
                (py "display_name",
                 JStr (get_provider_display_name provider_name));
                (py "available", JBool false)]).

Fixpoint provider_entries (items : list (pystr * provider))
  : M (list json) :=
  match items with
  | [] => mret []
  | (provider_name, p) :: rest =>
    entry ← provider_entry provider_name p;
    entries ← provider_entries rest;
    mret (entry :: entries)
  end.

(** [ai_providers]: the list the response carries. *)
Definition ai_providers (ai_service : AIService) : M (list json) :=
  provider_entries (providers ai_service).

(** [ai_team_generate], lines 237 to 256.  [collaborate] stands for the
    body of [AIService.collaborate] on the three arguments it declares,
    and [str_type_error] for the text of the [TypeError] of a call with a
    keyword it does not declare. *)
Definition ai_team_generate
    (collaborate : json -> json -> json -> M pyval)
    (str_type_error : pystr -> pystr) (data : json) : M view_result :=
  prompt ← of_outcome (method_get data (py "prompt") (JStr []));
  providers ← of_outcome (method_get data (py "providers") JNull);
  models ← of_outcome (method_get data (py "models") JNull);
  temperature ← of_outcome (method_get data (py "temperature")
                              (JFloat (7 # 10)));
  if negb (truthy prompt) then
    mret (Response [(py "error", VStr (py "Prompt is required"))] 400)
  else
    match unexpected_keyword AIService_collaborate_parameters
            [py "prompt"; py "providers"; py "models"; py "temperature"]
    with
    | Some keyword =>
      mret (Response [(py "error", VStr (str_type_error keyword))] 500)
    | None =>
      fun st =>
        match collaborate prompt providers models st with
        | (Ret response, st') =>
          (Ret (Response [(py "response", response)] 200), st')
        | (Raise e, st') =>
          (Ret (Response [(py "error", VStr (str_exn e))] 500), st')
        end
    end.

End Views.

(** The [name] field of an entry of [ai_providers]. *)
Definition entry_field (field : pystr) (entry : json) : option json :=
  match entry with
  | JObj fields => dict_get field fields
  | _ => None
  end.

End views.

(** ** What a listing keeps of the models of an endpoint *)

Module Listing.

(** [x[k]] when [x] is a dict that holds a [str] under [k]. *)
Definition str_field (k : pystr) (x : json) : option pystr :=
  match x with
  | JObj fields =>
    match dict_get k fields with
    | Some (JStr s) => Some s
    | _ => None
    end
  | _ => None
  end.

(** [x.get(k, d)] on a dict [x]. *)
Definition field_or (k : pystr) (d : json) (x : json) : json :=
  match x with
  | JObj fields => default d (dict_get k fields)
  | _ => d
  end.

(** The entry for a model of the OpenAI endpoint: kept when its id, in
    lower case, holds "gpt"; its name is the id, its date the creation time
    of the model, the empty string without one. *)
Definition gpt_entry `{rt : Runtime} (x : json) : option json :=
  id ← str_field (py "id") x;
  if contains (py "gpt") (str_lower id)
  then Some (JObj [(py "name", JStr id);
                   (py "modified_at", field_or (py "created") (JStr []) x)])
  else None.

(** The entry for a model of the Gemini endpoint: kept when its path, in
    lower case, holds "gemini"; its name is what follows the last slash of
    the path, its description the display name, the path without one. *)
Definition gemini_entry `{rt : Runtime} (x : json) : option json :=
  path ← str_field (py "name") x;
  if contains (py "gemini") (str_lower path)
  then Some (JObj [(py "name", JStr (after_last_slash path));
                   (py "description",
                    field_or (py "displayName") (JStr path) x)])
  else None.

(** [short] is what follows the last slash of [path]: all of it when it
    holds no slash. *)
Definition follows_last_slash (path short : pystr) : Prop :=
  (47%N ∉ short)
  /\ exists pre, path = pre ++ short /\ (pre = [] \/ last pre = Some 47%N).

End Listing.
Export Listing.

(** ** The framing of the streams *)

Module Framing.

(** The four vendors whose stream is a sequence of [data:] lines closed by
    a [[DONE]] line; every line of theirs is handled inside a
    [try ... except Exception]. *)
Definition is_sse (b : backend) : bool :=
  match b with
  | OpenAIProvider _ | AnthropicProvider _ | GeminiProvider _
  | AzureOpenAIProvider _ _ _ => true
  | OllamaProvider _ | HuggingFaceProvider _ => false
  end.

(** The line that closes such a stream, as [iter_lines] hands it out. *)
Definition done_line : bytes := list_byte_of_string "data: [DONE]".

(** A world like [Scripted.runtime] in which every line and every document
    parses to [doc]. *)
Definition parsing (doc : json) (answer : request -> reply) : Runtime :=
  {| world := unit;
     http := fun rq w => (answer rq, w);
     json_loads := fun _ => Ret doc;
     json_loads_bytes := fun _ => Ret doc;
     str_lower := Scripted.lower;
     str_exn := Scripted.exn_text;
     str_value := fun _ => py "<object>" |}.

(** The reply 200 with [body] and the lines [lines]. *)
Definition ok_reply (body : json) (lines : list bytes) : reply :=
  Answered {| status_code := 200; body_json := Ret body;
              body_lines := lines; body_lines_end := None |}.

End Framing.
Export Framing.

(** ** Sample worlds and texts, for the instances at the end *)

Module Samples.

Import Scripted.

(** A listing of the OpenAI endpoint: one GPT model, one that is none. *)
Definition gpt_listing : response :=
  {| status_code := 200;
     body_json :=
       Ret (JObj [(py "data",
                   JArr [JObj [(py "id", JStr (py "GPT-4o"));
                               (py "created", JInt 1715367049)];
                         JObj [(py "id", JStr (py "whisper-1"))]])]);
     body_lines := []; body_lines_end := None |}.

(** A listing of the Gemini endpoint. *)
Definition gemini_listing : response :=
  {| status_code := 200;
     body_json :=
       Ret (JObj [(py "models",
                   JArr [JObj [(py "name", JStr (py "models/gemini-pro"));
                               (py "displayName", JStr (py "Gemini Pro"))];
                         JObj [(py "name",
                                JStr (py "models/embedding-001"))]])]);
     body_lines := []; body_lines_end := None |}.

(** One chunk of a chat completion. *)
Definition chat_doc : json :=
  JObj [(py "choices",
         JArr [JObj [(py "delta", JObj [(py "content", JStr (py "Hi"))])]])].

Definition chat_line : bytes := list_byte_of_string "data: {}".

Definition chat_reply : response :=
  {| status_code := 200; body_json := Ret JNull;
     body_lines := [chat_line; done_line; chat_line];
     body_lines_end := None |}.

(** A world that streams [chat_reply], every data line parsing to
    [chat_doc]. *)
Definition chatting : Runtime :=
  parsing chat_doc (fun _ => Answered chat_reply).

Definition number_reply : response :=
  {| status_code := 200; body_json := Ret JNull;
     body_lines := [list_byte_of_string "1"; list_byte_of_string "2"];
     body_lines_end := None |}.

(** A world whose stream holds bare numbers. *)
Definition counting : Runtime :=
  parsing (JInt 1) (fun _ => Answered number_reply).


(** A world in which Ollama answers, with one model. *)
Definition serving : Runtime :=
  answering (JObj [(py "models",
                    JArr [JObj [(py "name", JStr (py "llama3"))]])]).

(** A server block whose [root] has no path. *)
Definition bare_root : pystr :=
  py "server {
    listen 80;
    root ;
}".

(** A prompt that asks for a check of such a configuration. *)
Definition bare_root_prompt : pystr :=
  py "проверь конфиг nginx ```
server {
    root ;
}
```".

(** A text the auditor of NGINX finds nothing in. *)
Definition tidy_nginx : pystr :=
  py "add_header X-Frame-Options SAMEORIGIN;
add_header X-Content-Type-Options nosniff;".

(** A text the auditor of Apache finds nothing in. *)
Definition tidy_apache : pystr :=
  py "ServerTokens Prod
TraceEnable Off".

End Samples.

(** ** Chunking *)

Section Chunks.

Context {A : Type}.
Implicit Types (s : list A) (size i n : nat).

Lemma slice_chunk i size s : slice i (i + size) s = take size (drop i s).
Proof. unfold slice. f_equal. lia. Qed.

Lemma chunks_of_length size s :
  length (chunks_of size s) = ((length s + size - 1) / size)%nat.
Proof.
  unfold chunks_of, range_step. by rewrite !length_fmap, length_seq.
Qed.

Lemma chunks_of_lookup size s i :
  (i < length (chunks_of size s))%nat ->
  chunks_of size s !! i = Some (take size (drop (i * size) s)).
Proof.
  rewrite chunks_of_length. intros Hi.
  unfold chunks_of, range_step.
  rewrite !list_lookup_fmap, lookup_seq_lt by done. simpl.
  by rewrite slice_chunk.
Qed.

Lemma concat_chunks_prefix size s n :
  concat ((fun i => slice i (i + size) s)
            <$> ((fun k => (k * size)%nat) <$> seq 0 n))
  = take (n * size) s.
Proof.
  induction n as [|n IH]; [done|].
  rewrite seq_S, !fmap_app, concat_app, IH. simpl.
  rewrite app_nil_r, slice_chunk, take_take_drop. f_equal. lia.
Qed.

Lemma chunks_cover size n :
  (0 < size)%nat -> (n <= (n + size - 1) / size * size)%nat.
Proof.
  intros Hsize.
  pose proof (Nat.div_mod (n + size - 1) size) as Hdiv.
  pose proof (Nat.mod_upper_bound (n + size - 1) size) as Hmod.
  nia.
Qed.

Lemma chunks_tight size n :
  (0 < size)%nat -> (0 < n)%nat ->
  (((n + size - 1) / size - 1) * size < n)%nat.
Proof.
  intros Hsize Hn.
  pose proof (Nat.div_mod (n + size - 1) size) as Hdiv.
  pose proof (Nat.mod_upper_bound (n + size - 1) size) as Hmod.
  nia.
Qed.

(** The chunks, put back together, are the sequence. *)
Lemma chunks_of_concat size s :
  (0 < size)%nat -> concat (chunks_of size s) = s.
Proof.
  intros Hsize. unfold chunks_of, range_step.
  rewrite concat_chunks_prefix. apply take_ge. by apply chunks_cover.
Qed.

(** Every chunk but the last is full. *)
Lemma chunks_of_full size s i c :
  (0 < size)%nat ->
  chunks_of size s !! i = Some c ->
  (S i < length (chunks_of size s))%nat ->
  length c = size.
Proof.
  intros Hsize Hc Hi.
  rewrite chunks_of_lookup in Hc by lia. injection Hc as <-.
  rewrite chunks_of_length in Hi.
  assert (0 < length s)%nat as Hs.
  { destruct s; [|simpl; lia].
    simpl in Hi. rewrite Nat.div_small in Hi; lia. }
  pose proof (chunks_tight size (length s) Hsize Hs).
  rewrite length_take, length_drop. nia.
Qed.

(** The last chunk holds between one item and [size] items. *)
Lemma chunks_of_last size s i c :
  (0 < size)%nat ->
  chunks_of size s !! i = Some c ->
  S i = length (chunks_of size s) ->
  (1 <= length c <= size)%nat.
Proof.
  intros Hsize Hc Hi.
  rewrite chunks_of_lookup in Hc by lia. injection Hc as <-.
  rewrite chunks_of_length in Hi.
  assert (0 < length s)%nat as Hs.
  { destruct s; [|simpl; lia].
    simpl in Hi. rewrite Nat.div_small in Hi; lia. }
  pose proof (chunks_tight size (length s) Hsize Hs).
  rewrite length_take, length_drop. nia.
Qed.

End Chunks.


(** ** The streaming emulation of [FallbackProvider] *)

Lemma ev_text_fallback chunk done : ev_text (fallback_event chunk done) = chunk.
Proof. reflexivity. Qed.

Lemma ev_done_fallback chunk done : ev_done (fallback_event chunk done) = done.
Proof. by destruct done. Qed.

Lemma is_last_spec i n : is_last i n = true <-> S i = n.
Proof. unfold is_last. rewrite bool_decide_eq_true. lia. Qed.

Lemma stream_fallback_texts response :
  ev_text <$> _stream_fallback response
  = chunks_of (chunk_size (length response)) response.
Proof.
  unfold _stream_fallback. cbv zeta.
  generalize (length (chunks_of (chunk_size (length response)) response)).
  intros n. apply list_eq. intros i.
  rewrite list_lookup_fmap, list_lookup_imap.
  by destruct (_ !! i).
Qed.

(** C5, as the code has it: the chunk size is [max(5, len // 10)], a
    tenth of the length rounded down.  The events carry the chunks of the
    response in order and cover it; every event but the last carries a
    full chunk, the last one what is left, and [done] is true on the last
    event and on no other. *)
Theorem stream_fallback_chunks (response : pystr) :
  let size := Nat.max 5 (length response / 10) in
  let evs := _stream_fallback response in
  concat (ev_text <$> evs) = response
  /\ length evs = ((length response + size - 1) / size)%nat
  /\ forall i e, evs !! i = Some e ->
       e = fallback_event (take size (drop (i * size) response))
             (bool_decide (S i = length evs))
       /\ (ev_done e = true <-> S i = length evs)
       /\ (S i < length evs -> length (ev_text e) = size)%nat
       /\ (S i = length evs -> 1 <= length (ev_text e) <= size)%nat.
Proof.
  intros size evs.
  assert (0 < size)%nat as Hsize by (unfold size; lia).
  assert (ev_text <$> evs = chunks_of size response) as Htexts
    by exact (stream_fallback_texts response).
  assert (length evs = length (chunks_of size response)) as Hlen
    by (by rewrite <- Htexts, length_fmap).
  split; [|split].
  - rewrite Htexts. by apply chunks_of_concat.
  - by rewrite Hlen, chunks_of_length.
  - intros i e He.
    assert (chunks_of size response !! i = Some (ev_text e)) as Hchunk
      by (by rewrite <- Htexts, list_lookup_fmap, He).
    assert (i < length (chunks_of size response))%nat as Hi
      by (by eapply lookup_lt_Some).
    assert (ev_text e = take size (drop (i * size) response)) as Htext.
    { pose proof (chunks_of_lookup size response i Hi) as Hslice.
      assert (Some (ev_text e) = Some (take size (drop (i * size) response)))
        as Hsome by (etrans; [symmetry; exact Hchunk | exact Hslice]).
      by injection Hsome. }
    assert (e = fallback_event (ev_text e) (bool_decide (S i = length evs)))
      as Hshape.
    { unfold evs, _stream_fallback in He. cbv zeta in He.
      rewrite list_lookup_imap in He.
      change (chunk_size (length response)) with size in He.
      destruct (_ !! i) as [c|] in He; [|done].
      simpl in He. injection He as <-.
      change (JObj _) with (fallback_event c
        (is_last i (length (chunks_of size response)))).
      rewrite ev_text_fallback, Hlen. f_equal.
      apply eq_true_iff_eq. rewrite is_last_spec, bool_decide_eq_true.
      done. }
    split; [by rewrite Htext in Hshape at 1|].
    split; [|split].
    + rewrite Hshape, ev_done_fallback. by rewrite bool_decide_eq_true.
    + rewrite Hlen. by eapply chunks_of_full.
    + rewrite Hlen. by eapply chunks_of_last.
Qed.

(** ** The order of the events of a stream *)

Lemma no_done_only_last evs : no_done evs -> done_only_last evs.
Proof.
  intros Hno pre e post -> Hdone.
  apply Forall_app in Hno as [_ Hno]. apply Forall_cons in Hno as [He _].
  congruence.
Qed.

Lemma done_only_last_snoc pre e : no_done pre -> done_only_last (pre ++ [e]).
Proof.
  intros Hno pre' e' post Heq Hdone.
  destruct post as [|x post] using rev_ind; [done|]. clear IHpost.
  rewrite app_comm_cons, app_assoc in Heq.
  apply app_inj_tail in Heq as [-> _].
  apply Forall_app in Hno as [_ Hno]. apply Forall_cons in Hno as [He _].
  congruence.
Qed.

Lemma tidy_loop_only_last evs e : tidy_loop (evs, e) -> done_only_last evs.
Proof.
  destruct e; simpl; [apply no_done_only_last| |apply no_done_only_last].
  intros (pre & x & -> & Hno). by apply done_only_last_snoc.
Qed.

Lemma no_done_snoc_error evs msg :
  no_done evs -> no_done (evs ++ [error_event msg]).
Proof.
  intros Hno. apply Forall_app. split; [done|].
  by repeat constructor.
Qed.

Lemma iter_lines_loop_tidy handle ls :
  (forall l, tidy_pass (handle l)) -> tidy_loop (iter_lines_loop handle ls).
Proof.
  intros Hpass. induction ls as [|l ls IH]; simpl; [constructor|].
  destruct l as [|c l]; [done|].
  specialize (Hpass (c :: l)).
  destruct (handle (c :: l)) as [ev [[]|e]]; simpl in *; try done.
  destruct (iter_lines_loop handle ls) as [ev' e']. simpl in *.
  destruct e'.
  - apply Forall_app. by split.
  - destruct IH as (pre & x & -> & Hno).
    exists (ev ++ pre), x. rewrite app_assoc. split; [done|].
    apply Forall_app. by split.
  - apply Forall_app. by split.
Qed.

Section Normalizers.

Context `{rt : Runtime}.

Lemma tidy_bind {A} (m : L A) (k : A -> L control) :
  no_done m.1 ->
  (forall a, m.2 = Ret a -> tidy_pass (k a)) ->
  tidy_pass (m ≫= k).
Proof.
  destruct m as [ev [a|e]]; simpl; intros Hno Hk; [|done].
  specialize (Hk a eq_refl). unfold mbind, L_bind.
  destruct (k a) as [ev' [[]|e']]; simpl in *.
  - apply Forall_app. by split.
  - destruct Hk as (pre & x & -> & Hpre).
    exists (ev ++ pre), x. rewrite app_assoc. split; [done|].
    apply Forall_app. by split.
  - apply Forall_app. by split.
Qed.

Lemma except_parse_tidy m : tidy_pass m -> tidy_pass (except_parse m).
Proof.
  destruct m as [ev [[]|e]]; simpl; try done.
  apply no_done_snoc_error.
Qed.

Lemma emit_delta_no_done x model : no_done (emit_delta x model).1.
Proof.
  unfold emit_delta, pure, emit, mbind, L_bind.
  destruct (concat_str x); simpl; by repeat constructor.
Qed.

Lemma break_on_done model : tidy_pass (emit (done_event model);; mret Break).
Proof.
  unfold emit, mbind, mret, L_bind, L_ret. simpl.
  exists [], (done_event model). by split; [|constructor].
Qed.

Lemma no_done_bind {A B} (m : L A) (k : A -> L B) :
  no_done m.1 -> (forall a, no_done (k a).1) -> no_done (m ≫= k).1.
Proof.
  destruct m as [ev [a|e]]; simpl; intros Hno Hk; [|done].
  specialize (Hk a). unfold mbind, L_bind.
  destruct (k a) as [ev' r]. simpl in *. apply Forall_app. by split.
Qed.

Ltac tidy_side :=
  repeat first
    [ apply emit_delta_no_done
    | by constructor
    | apply no_done_bind; [|intros ?]
    | match goal with
      | |- no_done (if ?b then _ else _).1 => destruct b
      end ].

Ltac tidy :=
  repeat first
    [ apply break_on_done
    | apply except_parse_tidy
    | apply tidy_bind; [ tidy_side | intros ? _ ]
    | match goal with
      | |- tidy_pass (if ?b then _ else _) => destruct b
      | |- tidy_pass (let _ := _ in _) => cbv zeta
      | |- tidy_pass (mret _) => by constructor
      end ].

Lemma openai_line_tidy model line : tidy_pass (openai_line model line).
Proof. unfold openai_line. tidy. Qed.

Lemma anthropic_line_tidy model line : tidy_pass (anthropic_line model line).
Proof. unfold anthropic_line. tidy. Qed.

Lemma gemini_line_tidy model line : tidy_pass (gemini_line model line).
Proof. unfold gemini_line. tidy. Qed.

Lemma azure_line_tidy model line : tidy_pass (azure_line model line).
Proof. unfold azure_line. tidy. Qed.

(** A chunk of the local server with [done] true makes the loop stop. *)
Lemma ollama_line_tidy line : tidy_pass (ollama_line line).
Proof.
  unfold ollama_line, pure, emit, mbind, mret, L_bind, L_ret.
  destruct (json_loads_bytes line) as [chunk|e]; simpl.
  - destruct chunk as [| | | | | |f]; simpl; try by repeat constructor.
    destruct (dict_get (py "done") f) as [d|] eqn:Hd; simpl.
    + destruct (truthy d) eqn:Ht; simpl.
      * exists [], (JObj f). by split; [|constructor].
      * repeat constructor. simpl. rewrite Hd.
        by destruct d as [|[]| | | | |].
    + repeat constructor. simpl. by rewrite Hd.
  - destruct e; simpl; by repeat constructor.
Qed.

Lemma stream_line_tidy b model line : tidy_pass (stream_line b model line).
Proof.
  destruct b; simpl.
  - apply ollama_line_tidy.
  - apply openai_line_tidy.
  - apply anthropic_line_tidy.
  - apply gemini_line_tidy.
  - apply azure_line_tidy.
  - by constructor.
Qed.

End Normalizers.

Lemma done_only_last_count evs : done_only_last evs -> (done_count evs <= 1)%nat.
Proof.
  unfold done_count. induction evs as [|e evs IH]; intros Hlast; [simpl; lia|].
  rewrite filter_cons. destruct (decide (ev_done e = true)) as [He|He].
  - rewrite (Hlast [] e evs eq_refl He). simpl. lia.
  - apply IH. intros pre x post -> Hx.
    by apply (Hlast (e :: pre) x post).
Qed.

Lemma imap_done_only_last {A} (f : nat -> A -> json) (l : list A) :
  (forall i x, ev_done (f i x) = true -> S i = length l) ->
  done_only_last (imap f l).
Proof.
  intros Hf pre e post Heq Hdone.
  assert (imap f l !! length pre = Some e) as Hlook
    by (rewrite Heq; apply list_lookup_middle; done).
  rewrite list_lookup_imap in Hlook.
  destruct (l !! length pre) as [x|]; [|done].
  simpl in Hlook. injection Hlook as <-.
  apply Hf in Hdone.
  apply (f_equal length) in Heq.
  rewrite length_imap, length_app in Heq. simpl in Heq.
  destruct post; [done|simpl in Heq; lia].
Qed.

Lemma stream_fallback_done_only_last response :
  done_only_last (_stream_fallback response).
Proof.
  apply imap_done_only_last. intros i x Hdone.
  change (JObj _) with (fallback_event x
    (is_last i (length (chunks_of (chunk_size (length response)) response))))
    in Hdone.
  rewrite ev_done_fallback in Hdone. by apply is_last_spec.
Qed.

Lemma triple_eta {A B C} (x : A * B * C) :
  (let '(a, b, c) := x in (a, b, c)) = x.
Proof. by destruct x as [[??]?]. Qed.

Section StreamOrder.

Context `{rt : Runtime}.

Lemma huggingface_emulation_done_only_last resp model st :
  done_only_last (huggingface_emulation resp model st).1.1.
Proof.
  unfold huggingface_emulation.
  destruct (_ ≫= _) as [chunks|e]; simpl.
  - apply imap_done_only_last. intros i x Hdone.
    apply is_last_spec. simpl in Hdone.
    by destruct (is_last i (length chunks)).
  - apply no_done_only_last. by repeat constructor.
Qed.

Lemma huggingface_emulation_returns resp model st :
  exists ev, huggingface_emulation resp model st = (ev, Ret tt, st).
Proof.
  unfold huggingface_emulation. destruct (_ ≫= _); eauto.
Qed.

Lemma iter_lines_tidy resp h st :
  (forall l, tidy_pass (h l)) ->
  match iter_lines resp h st with
  | (ev, Ret _, _) => done_only_last ev
  | (ev, Raise _, _) => no_done ev
  end.
Proof.
  intros Hh. unfold iter_lines.
  pose proof (iter_lines_loop_tidy h (body_lines resp) Hh) as Htidy.
  destruct (iter_lines_loop h (body_lines resp)) as [ev [| |e]]; simpl in *.
  - destruct (body_lines_end resp); [done|by apply no_done_only_last].
  - by apply (tidy_loop_only_last ev Broke).
  - done.
Qed.

Lemma then_none_tidy (m : G unit) st :
  match m st with
  | (ev, Ret _, _) => done_only_last ev
  | (ev, Raise _, _) => no_done ev
  end ->
  match (m;; mret VNone) st with
  | (ev, Ret _, _) => done_only_last ev
  | (ev, Raise _, _) => no_done ev
  end.
Proof.
  unfold mbind, mret, G_bind, G_ret.
  destruct (m st) as [[ev [u|e]] st']; simpl; [|done].
  by rewrite app_nil_r.
Qed.

(** The streaming branch: what it yields when it runs to its end is in
    order, and what it yields before it raises holds no [done]. *)
Lemma stream_completion_tidy b model prompt temperature st :
  match stream_completion b model prompt temperature st with
  | (ev, Ret _, _) => done_only_last ev
  | (ev, Raise _, _) => no_done ev
  end.
Proof.
  unfold stream_completion.
  unfold mbind at 1. unfold G_bind, run.
  destruct (send _ st) as [[resp|e] st1]; simpl; [|constructor].
  destruct (status_code resp =? 200); simpl;
    [|apply no_done_only_last; by repeat constructor].
  pose proof (fun b => iter_lines_tidy resp (stream_line b model) st1
                         (stream_line_tidy b model)) as Hiter.
  assert (match (huggingface_emulation resp model;; mret VNone) st1 with
          | (ev, Ret _, _) => done_only_last ev
          | (ev, Raise _, _) => no_done ev
          end) as Hhf.
  { apply then_none_tidy.
    pose proof (huggingface_emulation_done_only_last resp model st1) as Hhf.
    destruct (huggingface_emulation_returns resp model st1) as [ev Hev].
    by rewrite Hev in *. }
  destruct b; rewrite triple_eta;
    first [ exact Hhf | apply then_none_tidy, Hiter ].
Qed.

End StreamOrder.

Section StreamContract.

Context `{rt : Runtime}.

Lemma backend_stream_done_only_last b model prompt temperature st :
  done_only_last (backend_body b model prompt temperature true st).1.1.
Proof.
  unfold backend_body.
  destruct (credentials_present b); simpl;
    [|apply no_done_only_last; by repeat constructor].
  assert (done_only_last
            (except_request true
               (stream_completion b model prompt temperature) st).1.1)
    as Hbody.
  { unfold except_request, try_G.
    pose proof (stream_completion_tidy b model prompt temperature st) as Ht.
    destruct (stream_completion b model prompt temperature st)
      as [[ev [v|e]] st1]; simpl; [done|].
    apply no_done_only_last. by apply no_done_snoc_error. }
  unfold mbind, mret, G_bind, G_ret, run, of_outcome.
  destruct b; simpl; rewrite ?triple_eta; try exact Hbody.
  destruct (contains_key (py "/") model); simpl; rewrite ?triple_eta;
    [exact Hbody|].
  apply no_done_only_last. constructor.
Qed.

(** C2, as the code has it: in the events of a streaming call to any
    provider, an event with [done = true] is the last one, so at most one
    event has it and none follows it. *)
Theorem stream_done_only_last (p : provider) (model : json) (prompt : pystr)
    (temperature : Q) (st : state) :
  done_only_last (stream_events p model prompt temperature st)
  /\ (done_count (stream_events p model prompt temperature st) <= 1)%nat.
Proof.
  assert (done_only_last (stream_events p model prompt temperature st))
    as Hlast.
  { unfold stream_events. destruct p as [b|]; simpl.
    - apply backend_stream_done_only_last.
    - unfold of_outcome, fallback_generate_completion, mbind, outcome_bind.
      destruct (_get_fallback_response prompt) as [response|e]; simpl.
      + apply stream_fallback_done_only_last.
      + apply no_done_only_last. constructor. }
  split; [done|]. by apply done_only_last_count.
Qed.

End StreamContract.

(** ** The non-streaming path *)

Lemma init_fallback cfg :
  lookup_item (py "fallback") (providers (AIService_init cfg))
  = Some FallbackProvider.
Proof.
  unfold AIService_init. simpl.
  destruct (key_present (OPENAI_API_KEY cfg)),
    (key_present (ANTHROPIC_API_KEY cfg)),
    (key_present (GEMINI_API_KEY cfg)),
    (key_present (AZURE_OPENAI_API_KEY cfg)),
    (key_present (AZURE_OPENAI_ENDPOINT cfg)),
    (key_present (HUGGINGFACE_API_KEY cfg)); reflexivity.
Qed.


Section NonStreaming.

Context `{rt : Runtime}.



Lemma check_connection_returns p st :
  exists reachable st', check_connection p st = (Ret reachable, st').
Proof.
  destruct p as [b|]; simpl; [|by eexists _, _].
  unfold backend_check_connection.
  destruct (credentials_present b); [|by eexists _, _].
  unfold probe. destruct (send (ReqProbe b) st) as [[resp|e] st'];
    by eexists _, _.
Qed.




(** A prompt that asks for a check of a configuration and holds no fenced
    block is answered by topic, like any other prompt. *)
Lemma unfenced_config_prompt_topic prompt :
  asks_for_config_check (str_lower prompt) = true ->
  search_fenced prompt = None ->
  search_quoted prompt = None ->
  _get_fallback_response prompt
  = Ret (topic_response prompt (str_lower prompt)).
Proof.
  intros Hask Hfenced Hquoted. unfold _get_fallback_response. cbv zeta.
  by rewrite Hask, Hfenced, Hquoted.
Qed.

Lemma topic_response_canned prompt prompt_lower :
  topic_response prompt prompt_lower
  ∈ [unix_response; tor_response; network_response; kubernetes_response;
     general_response].
Proof.
  unfold topic_response, _generate_unix_response,
    _generate_network_response, _generate_kubernetes_response,
    _generate_general_response.
  repeat match goal with
         | |- context [if ?c then _ else _] => destruct c
         end;
    rewrite !elem_of_cons; tauto.
Qed.

End NonStreaming.

(** None of the canned answers is the message that asks for a fence. *)
Lemma canned_answers_not_fence_message :
  Forall (fun r => r <> ollama_fence_message)
    [unix_response; tor_response; network_response; kubernetes_response;
     general_response].
Proof.
  repeat constructor; intros Heq; apply (f_equal length) in Heq;
    by vm_compute in Heq.
Qed.

(** ** Requests sent by the selection of [collaborate] *)

Section Quiet.

Context `{rt : Runtime}.

Lemma quiet_ret {A} (a : A) : quiet (mret a).
Proof. intros st. exists []. by rewrite app_nil_r. Qed.

Lemma quiet_bind {A B} (m : M A) (k : A -> M B) :
  quiet m -> (forall a, quiet (k a)) -> quiet (m ≫= k).
Proof.
  intros Hm Hk st. unfold mbind, M_bind.
  destruct (Hm st) as (sent & Hsent & Hno).
  destruct (m st) as [[a|e] st1]; simpl in *; [|by exists sent].
  destruct (Hk a st1) as (sent' & Hsent' & Hno').
  exists (sent ++ sent'). rewrite Hsent', Hsent, app_assoc.
  split; [done|]. apply Forall_app. by split.
Qed.

Lemma quiet_send rq : is_generation rq = false -> quiet (send rq).
Proof.
  intros Hrq st. exists [rq]. unfold send.
  destruct (http rq (st_world st)) as [[e|resp] w]; simpl;
    (split; [done|by repeat constructor]).
Qed.

Lemma quiet_state {A} (m : M A) :
  (forall st, st_calls (m st).2 = st_calls st) -> quiet m.
Proof. intros Hm st. exists []. by rewrite app_nil_r, Hm. Qed.

Lemma quiet_probe b : quiet (probe b).
Proof.
  intros st. unfold probe.
  destruct (quiet_send (ReqProbe b) eq_refl st) as (sent & Hsent & Hno).
  destruct (send (ReqProbe b) st) as [[resp|e] st']; by exists sent.
Qed.

Lemma quiet_fetch_models b : quiet (fetch_models b).
Proof.
  intros st. unfold fetch_models.
  destruct (quiet_send (ReqModels b) eq_refl st) as (sent & Hsent & Hno).
  destruct (send (ReqModels b) st) as [[resp|e] st']; [|by exists sent].
  destruct (status_code resp =? 200); [|by exists sent].
  destruct (listing_of b resp); by exists sent.
Qed.

Lemma quiet_check_connection p : quiet (check_connection p).
Proof.
  destruct p as [b|]; simpl; [|apply quiet_ret].
  unfold backend_check_connection.
  destruct (credentials_present b); [apply quiet_probe|apply quiet_ret].
Qed.

Lemma quiet_list_models p : quiet (list_models p).
Proof.
  destruct p as [b|]; simpl; [|apply quiet_ret].
  destruct b; simpl;
    repeat match goal with
           | |- quiet (if ?c then _ else _) => destruct c
           end;
    first [ apply quiet_fetch_models | apply quiet_ret ].
Qed.

Lemma quiet_subscript {A} (d : list (pystr * A)) k : quiet (subscript d k).
Proof.
  unfold subscript. destruct (lookup_item k d); [apply quiet_ret|].
  by apply quiet_state.
Qed.

Ltac quiet :=
  repeat first
    [ assumption
    | apply quiet_ret
    | apply quiet_subscript
    | apply quiet_check_connection
    | apply quiet_list_models
    | apply quiet_bind; [|intros ?]
    | by apply quiet_state
    | match goal with
      | |- quiet (if ?c then _ else _) => destruct c
      | |- quiet (match ?x with _ => _ end) => destruct x
      | |- quiet (let _ := _ in _) => cbv zeta
      end ].

Lemma quiet_AIService_list_models self provider :
  quiet (AIService_list_models self provider).
Proof. unfold AIService_list_models. quiet. Qed.

Lemma quiet_list_remove l x : quiet (list_remove l x).
Proof.
  apply quiet_state. intros st. unfold list_remove.
  by destruct (remove_first x _).
Qed.

Lemma quiet_reachable_names ps : quiet (reachable_names ps).
Proof. induction ps as [|[name p] ps IH]; simpl; quiet. Qed.

Lemma quiet_pick_models fuel service l i models :
  quiet (pick_models fuel service l i models).
Proof.
  revert i models. induction fuel as [|fuel IH]; intros i models; simpl;
    [apply quiet_ret|].
  apply quiet_bind; [by apply quiet_state|]. intros ps.
  destruct (ps !! i) as [provider|]; [|apply quiet_ret].
  apply quiet_bind; [apply quiet_AIService_list_models|]. intros pm.
  destruct (truthy pm).
  - apply quiet_bind; [by apply quiet_state|]. intros name. apply IH.
  - apply quiet_bind; [apply quiet_list_remove|]. intros _. apply IH.
Qed.

Lemma quiet_resolve_selection service providers models :
  quiet (resolve_selection service providers models).
Proof.
  unfold resolve_selection.
  apply quiet_bind; [quiet|]. intros given.
  apply quiet_bind.
  { destruct given; [apply quiet_ret|].
    apply quiet_bind; [apply quiet_reachable_names|]. intros names.
    by apply quiet_state. }
  intros l. apply quiet_bind; [|intros ?; apply quiet_ret].
  destruct models as [[|m ms]|]; try apply quiet_ret;
    (apply quiet_bind; [by apply quiet_state|]; intros ps;
     apply quiet_pick_models).
Qed.

End Quiet.

(** ** The loop over a list that shrinks *)

Lemma remove_first_length x xs ys :
  remove_first x xs = Some ys -> length xs = S (length ys).
Proof.
  revert ys. induction xs as [|y xs IH]; intros ys; simpl; [done|].
  destruct (str_eqb x y); [by intros [= ->]|].
  destruct (remove_first x xs) as [zs|]; simpl; [|done].
  intros [= <-]. simpl. f_equal. by apply IH.
Qed.

Section Lists.

Context `{rt : Runtime}.

Lemma keeps_ret {A} (a : A) : keeps_lists (mret a).
Proof. done. Qed.

Lemma keeps_bind {A B} (m : M A) (k : A -> M B) :
  keeps_lists m -> (forall a, keeps_lists (k a)) -> keeps_lists (m ≫= k).
Proof.
  intros Hm Hk st. unfold mbind, M_bind. specialize (Hm st).
  destruct (m st) as [[a|e] st1]; simpl in *; [|done].
  by rewrite Hk.
Qed.

Lemma keeps_send rq : keeps_lists (send rq).
Proof.
  intros st. unfold send.
  by destruct (http rq (st_world st)) as [[e|resp] w].
Qed.

Lemma keeps_check_connection p : keeps_lists (check_connection p).
Proof.
  destruct p as [b|]; simpl; [|done].
  unfold backend_check_connection.
  destruct (credentials_present b); [|done].
  intros st. unfold probe. pose proof (keeps_send (ReqProbe b) st).
  by destruct (send (ReqProbe b) st) as [[resp|e] st'].
Qed.

Lemma keeps_fetch_models b : keeps_lists (fetch_models b).
Proof.
  intros st. unfold fetch_models. pose proof (keeps_send (ReqModels b) st).
  destruct (send (ReqModels b) st) as [[resp|e] st']; [|done].
  destruct (status_code resp =? 200); [|done].
  by destruct (listing_of b resp).
Qed.

Lemma keeps_list_models p : keeps_lists (list_models p).
Proof.
  destruct p as [b|]; simpl; [|done].
  destruct b; simpl;
    repeat match goal with
           | |- keeps_lists (if ?c then _ else _) => destruct c
           end;
    first [ apply keeps_fetch_models | done ].
Qed.

Lemma keeps_subscript {A} (d : list (pystr * A)) k :
  keeps_lists (subscript d k).
Proof. unfold subscript. by destruct (lookup_item k d). Qed.

Lemma keeps_AIService_list_models self provider :
  keeps_lists (AIService_list_models self provider).
Proof.
  unfold AIService_list_models.
  repeat first
    [ apply keeps_subscript
    | apply keeps_check_connection
    | apply keeps_list_models
    | apply keeps_bind; [|intros ?]
    | match goal with
      | |- keeps_lists (if ?c then _ else _) => destruct c
      | |- keeps_lists (let _ := _ in _) => cbv zeta
      | |- keeps_lists (mret _) => apply keeps_ret
      end ].
Qed.

(** The loop of [pick_models] ends within as many steps as the list has
    items past the index: more fuel changes nothing. *)
Lemma pick_models_fuel service l fuel fuel' i models st :
  (length (default [] (st_lists st !! l)) - i <= fuel)%nat ->
  (fuel <= fuel')%nat ->
  pick_models fuel service l i models st
  = pick_models fuel' service l i models st.
Proof.
  revert fuel' i models st.
  induction fuel as [|fuel IH]; intros fuel' i models st Hlen Hfuel.
  - destruct fuel' as [|fuel']; [done|]. simpl.
    unfold mbind, M_bind, read_list.
    by rewrite (lookup_ge_None_2 _ i) by lia.
  - destruct fuel' as [|fuel']; [lia|]. simpl.
    unfold mbind, M_bind, read_list.
    destruct (default [] (st_lists st !! l) !! i) as [provider|] eqn:Hi;
      [|done].
    pose proof (keeps_AIService_list_models service (Some provider) st)
      as Hkeep.
    destruct (AIService_list_models service (Some provider) st)
      as [[pm|e] st1]; simpl in *; [|done].
    destruct (truthy pm).
    + unfold of_outcome. destruct (first_name pm); [|done].
      apply IH; [rewrite Hkeep|]; lia.
    + unfold list_remove. rewrite Hkeep.
      destruct (remove_first provider (default [] (st_lists st !! l)))
        as [xs|] eqn:Hrm; [|done].
      apply remove_first_length in Hrm.
      apply IH; [|lia]. simpl. rewrite lookup_insert_eq. simpl. lia.
Qed.

(** X23: with two providers listed and the first without models, the
    second is never asked: the removal moves it under the index the loop
    has passed. *)
Lemma pruning_two_providers service l a b st pm st1 :
  st_lists st !! l = Some [a; b] ->
  AIService_list_models service (Some a) st = (Ret pm, st1) ->
  truthy pm = false ->
  pick_models 2 service l 0 [] st
  = (Ret [], {| st_world := st_world st1; st_calls := st_calls st1;
                st_lists := <[l := [b]]> (st_lists st1) |}).
Proof.
  intros Hl Hlist Hpm.
  pose proof (keeps_AIService_list_models service (Some a) st) as Hkeep.
  rewrite Hlist in Hkeep. simpl in Hkeep.
  cbn [pick_models]. unfold mbind, M_bind, read_list.
  rewrite Hl. simpl. rewrite Hlist, Hpm.
  unfold list_remove. rewrite Hkeep, Hl. simpl.
  unfold str_eqb. rewrite bool_decide_eq_true_2 by done.
  simpl. by rewrite lookup_insert_eq.
Qed.

(** C8: when the provider list and the model list differ in length after
    the selection, [collaborate] raises its [ValueError] in the state the
    selection left, and no request for a completion has been sent. *)
Theorem collaborate_length_mismatch (service : AIService) (prompt : pystr)
    (providers : option nat) (models : option (list pystr))
    (temperature : Q) (st : state) (l : nat) (ms : list json)
    (st1 : state) :
  resolve_selection service providers models st = (Ret (l, ms), st1) ->
  length (default [] (st_lists st1 !! l)) <> length ms ->
  AITeam_collaborate service prompt providers models temperature st
  = (Raise (ValueError
              (py "Number of providers must match number of models")), st1)
  /\ exists sent,
       st_calls st1 = st_calls st ++ sent
       /\ Forall (fun rq => is_generation rq = false) sent.
Proof.
  intros Hsel Hlen. split.
  - unfold AITeam_collaborate, mbind, M_bind. rewrite Hsel.
    unfold collaborate_selected, mbind, M_bind, read_list. simpl.
    apply Nat.eqb_neq in Hlen. by rewrite Hlen.
  - destruct (quiet_resolve_selection service providers models st)
      as (sent & Hsent & Hno).
    rewrite Hsel in Hsent. by exists sent.
Qed.




End Lists.

(** ** Evaluations at concrete inputs *)

Import Scripted.


(** C2, the input that refutes it: the Hugging Face backend answers 200
    with an empty [generated_text].  The stream has no event at all: none
    with [done = true], and no error event to end on. *)
Lemma empty_answer_stream_has_no_done :
  let rt := answering (JArr [JObj [(py "generated_text", JStr [])]]) in
  let evs :=
    stream_events (rt := rt)
      (Backend (HuggingFaceProvider (Some (py "hf-test"))))
      (JStr (py "google/gemma-7b-it")) (py "hi") (7 # 10)
      (start ∅ rt tt) in
  evs = [] /\ ~ stream_invariant evs.
Proof.
  cbv zeta. split; [by vm_compute|].
  intros [[Hone|(e & Hlast & _)] _].
  - by vm_compute in Hone.
  - by vm_compute in Hlast.
Qed.

(** C3, at the failing input: fallback off, nothing reachable, the caller
    lists [ollama] and [openai] and no models.  Both listings are empty.
    The loop removes [ollama], which moves [openai] to the index the
    iterator has just left, and ends: [openai] stays in the list with no
    model, and the length check raises. *)
Theorem pruning_skips_the_next_provider :
  let service := AIService_init (with_openai false) in
  let st := start {[ 0%nat := [py "ollama"; py "openai"] ]} offline tt in
  let selection :=
    resolve_selection (rt := offline) service (Some 0%nat) None st in
  (AIService_list_models (rt := offline) service (Some (py "ollama")) st).1
  = Ret (JArr [])
  /\ (AIService_list_models (rt := offline) service (Some (py "openai")) st).1
     = Ret (JArr [])
  /\ selection.1 = Ret (0%nat, [])
  /\ st_lists selection.2 !! 0%nat = Some [py "openai"]
  /\ (AITeam_collaborate (rt := offline) service (py "hi") (Some 0%nat) None
        (7 # 10) st).1
     = Raise (ValueError
                (py "Number of providers must match number of models")).
Proof. cbv zeta. repeat split; by vm_compute. Qed.

(** The same loop leaves a provider that has models without one: with
    [ollama] unreachable and the fallback off, [fallback] is skipped. *)
Lemma pruning_skips_a_provider_with_models :
  let service := AIService_init (bare false) in
  let st := start {[ 0%nat := [py "ollama"; py "fallback"] ]} offline tt in
  let selection :=
    resolve_selection (rt := offline) service (Some 0%nat) None st in
  (AIService_list_models (rt := offline) service (Some (py "fallback")) st).1
  = Ret fallback_models
  /\ selection.1 = Ret (0%nat, [])
  /\ st_lists selection.2 !! 0%nat = Some [py "fallback"].
Proof. cbv zeta. repeat split; by vm_compute. Qed.

(** C4, at the failing input: the prompt asks for a check of a
    configuration and holds no fenced block.  [FallbackProvider] answers
    with the general menu, which is not the message of the sibling path in
    [ollama.py] and names no fence. *)
Theorem unfenced_config_prompt_gets_the_menu :
  let prompt := py "проверь конфиг nginx" in
  asks_for_config_check (lower prompt) = true
  /\ search_fenced prompt = None
  /\ search_quoted prompt = None
  /\ fallback_generate_completion (rt := offline)
       (JStr (py "fallback-analyzer")) prompt (7 # 10) false
     = Ret (VStr general_response)
  /\ general_response <> ollama_fence_message
  /\ contains fence general_response = false.
Proof.
  cbv zeta. repeat split; by vm_compute.
Qed.

(** C5, the input that refutes it: the answer to the prompt [linux] has
    599 characters.  The code cuts it into 11 chunks of 59 characters, a
    tenth rounded down; the ceiling gives 10 chunks of 60. *)
Lemma fallback_chunks_round_down :
  let response := unix_response in
  _get_fallback_response (rt := offline) (py "linux") = Ret response
  /\ length response = 599%nat
  /\ length <$> (ev_text <$> _stream_fallback response) !! 0%nat
     = Some 59%nat
  /\ length <$> (ev_text <$> ceil_stream_fallback response) !! 0%nat
     = Some 60%nat
  /\ _stream_fallback response <> ceil_stream_fallback response.
Proof.
  cbv zeta. repeat split; by vm_compute.
Qed.

(** C6, at the failing input: fallback on, [ollama] unreachable.
    [list_models] does return the catalogue of the Fallback provider.
    [generate_completion] of the gateway returns a generator object, not
    the output of the Fallback provider: that output is the value of the
    [return] which ends the iteration, and the iteration yields nothing,
    with [stream=True] as well, where the Fallback provider's own stream
    has 11 events. *)
Theorem gateway_fallback_output_is_not_returned :
  let service := AIService_init (bare true) in
  let st := start ∅ offline tt in
  let model := JStr (py "llama3") in
  let prompt := py "linux" in
  let g stream :=
    GenService service model prompt (Some (py "ollama")) (7 # 10) stream in
  (check_connection (rt := offline)
     (Backend (OllamaProvider (py "http://localhost:11434"))) st).1
  = Ret false
  /\ (AIService_list_models (rt := offline) service (Some (py "ollama")) st).1
     = Ret fallback_models
  /\ fallback_generate_completion (rt := offline) model prompt (7 # 10) false
     = Ret (VStr unix_response)
  /\ fallback_generate_completion (rt := offline) model prompt (7 # 10) true
     = Ret (VGen (GenStreamFallback unix_response))
  /\ (AIService_generate_completion (rt := offline) service model prompt
        (Some (py "ollama")) (7 # 10) false st).1
     = Ret (VGen (g false))
  /\ VGen (g false) <> VStr unix_response
  /\ (run_gen (rt := offline) (g false) st).1
     = ([], Ret (VStr unix_response))
  /\ (AIService_generate_completion (rt := offline) service model prompt
        (Some (py "ollama")) (7 # 10) true st).1
     = Ret (VGen (g true))
  /\ (run_gen (rt := offline) (g true) st).1
     = ([], Ret (VGen (GenStreamFallback unix_response)))
  /\ length (_stream_fallback unix_response) = 11%nat.
Proof. cbv zeta. repeat split; by vm_compute. Qed.

(** C7, at the failing input: fallback off, [ollama] unreachable,
    [stream=False].  The gateway returns a generator object, not a string;
    the error string is the value of the [return] which ends an iteration
    that yields nothing.  With [stream=True] the iteration yields the one
    error event. *)
Theorem gateway_unavailable_error_is_not_returned :
  let service := AIService_init (bare false) in
  let st := start ∅ offline tt in
  let model := JStr (py "llama3") in
  let g stream :=
    GenService service model (py "hi") (Some (py "ollama")) (7 # 10) stream in
  let message :=
    py "Provider 'ollama' is not available and fallback is disabled." in
  (check_connection (rt := offline)
     (Backend (OllamaProvider (py "http://localhost:11434"))) st).1
  = Ret false
  /\ (AIService_generate_completion (rt := offline) service model (py "hi")
        (Some (py "ollama")) (7 # 10) false st).1
     = Ret (VGen (g false))
  /\ is_str (VGen (g false)) = false
  /\ (run_gen (rt := offline) (g false) st).1
     = ([], Ret (VStr (py "Error: " ++ message)))
  /\ (run_gen (rt := offline) (g true) st).1.1 = [error_event message].
Proof. cbv zeta. repeat split; by vm_compute. Qed.

(** C9, at the failing input: only [ollama] and [fallback] are registered,
    nothing is reachable but [fallback], and the caller asks [fallback] with
    the model [fallback-unix].  No synthesizer of the priority list is
    reachable.  The one collected answer is the generator object the
    gateway returned, so [len] of it raises [TypeError] inside [max], and
    [collaborate] raises instead of returning the answer text, which that
    generator would leave if it were run. *)
Theorem longest_answer_is_not_returned :
  let service := AIService_init (bare true) in
  let st := start {[ 0%nat := [py "fallback"] ]} offline tt in
  let g :=
    GenService service (JStr (py "fallback-unix")) (py "linux")
      (Some (py "fallback")) (7 # 10) false in
  (fan_out (rt := offline) service (py "linux") (7 # 10)
     [JStr (py "fallback-unix")] 0 [py "fallback"] st).1
  = Ret [{| ta_provider := py "fallback";
            ta_model := JStr (py "fallback-unix");
            ta_response := VGen g |}]
  /\ (synthesize (rt := offline) service (py "linux") (7 # 10)
        meta_providers st).1 = Ret None
  /\ (AITeam_collaborate (rt := offline) service (py "linux") (Some 0%nat)
        (Some [py "fallback-unix"]) (7 # 10) st).1
     = Raise (TypeError OpLen (VGen g))
  /\ (run_gen (rt := offline) g st).1 = ([], Ret (VStr unix_response)).
Proof. cbv zeta. repeat split; by vm_compute. Qed.

(** C10: there is a call of [collaborate] with a provider list, without
    models, and with a listed provider whose listing is empty, after which
    the caller's list is not what it was: the provider has been removed
    from that very list. *)
Theorem collaborate_mutates_the_callers_list :
  exists (rt : Runtime) (service : AIService) (st : @state rt) (l : nat)
         (given : list pystr) (prompt : pystr) (temperature : Q),
    st_lists st !! l = Some given
    /\ given <> []
    /\ (exists p, p ∈ given
                  /\ (AIService_list_models service (Some p) st).1
                     = Ret (JArr []))
    /\ st_lists (AITeam_collaborate service prompt (Some l) None
                   temperature st).2 !! l
       = Some []
    /\ Some [] <> Some given.
Proof.
  exists offline, (AIService_init (bare false)),
    (start {[ 0%nat := [py "ollama"] ]} offline tt), 0%nat, [py "ollama"],
    (py "hi"), (7 # 10).
  split; [by vm_compute|]. split; [done|]. split.
  - exists (py "ollama"). split; [by apply list_elem_of_singleton|].
    by vm_compute.
  - split; [by vm_compute|done].
Qed.

(** The scenario of the specification for C8: two providers, one model. *)
Lemma collaborate_length_mismatch_witness :
  let service := AIService_init (with_openai true) in
  let st := start {[ 0%nat := [py "ollama"; py "openai"] ]} offline tt in
  AITeam_collaborate (rt := offline) service (py "hi") (Some 0%nat)
    (Some [py "m1"]) (7 # 10) st
  = (Raise (ValueError
              (py "Number of providers must match number of models")), st)
  /\ exists sent,
       st_calls st = st_calls st ++ sent
       /\ Forall (fun rq => is_generation rq = false) sent.
Proof.
  cbv zeta.
  apply (collaborate_length_mismatch (rt := offline)
           (AIService_init (with_openai true)) (py "hi") (Some 0%nat)
           (Some [py "m1"]) (7 # 10)
           (start {[ 0%nat := [py "ollama"; py "openai"] ]} offline tt)
           0%nat [JStr (py "m1")]
           (start {[ 0%nat := [py "ollama"; py "openai"] ]} offline tt)).
  - reflexivity.
  - vm_compute. lia.
Defined.

(** ** Connectivity probes and model listings *)

Section Probes.

Context `{rt : Runtime}.

(** X1: [check_connection] of every provider returns a boolean and never
    raises.  [FallbackProvider] is always reachable; a backend without its
    credential is unreachable and sends nothing; a backend with it sends
    exactly one probe and is reachable exactly when the probe is answered
    with status 200. *)
Theorem check_connection_verdict (p : provider) (st : state) :
  exists reachable st',
    check_connection p st = (Ret reachable, st')
    /\ match p with
       | FallbackProvider => reachable = true /\ st' = st
       | Backend b =>
         if credentials_present b then
           st_calls st' = st_calls st ++ [ReqProbe b]
           /\ (reachable = true <->
               exists resp,
                 (http (ReqProbe b) (st_world st)).1 = Answered resp
                 /\ status_code resp = 200)
         else reachable = false /\ st' = st
       end.
Proof.
  destruct p as [b|]; simpl; [|by eexists _, _].
  unfold backend_check_connection.
  destruct (credentials_present b); [|by eexists _, _].
  unfold probe, send.
  destruct (http (ReqProbe b) (st_world st)) as [[e|resp] w]; simpl;
    eexists _, _; (split; [reflexivity|]); (split; [done|]).
  - split; [done|]. by intros (resp & ? & _).
  - rewrite Z.eqb_eq. split.
    + intros Hok. by exists resp.
    + by intros (resp' & [= <-] & Hok).
Qed.

(** A listing made by a comprehension is a list. *)
Lemma listing_of_list b resp listing :
  (if b is OllamaProvider _ then False else True) ->
  listing_of b resp = Ret listing -> exists items, listing = JArr items.
Proof.
  intros Hb. unfold listing_of, mbind, outcome_bind, fmap, outcome_fmap.
  destruct (body_json resp) as [body|e]; [|done].
  destruct b; try done; try (intros [= <-]; by eexists);
    (destruct (method_get body _ _) as [data|e]; [|done];
     destruct (py_iter data) as [xs|e]; [|done];
     destruct (comprehension _ xs) as [ys|e]; [|done];
     intros [= <-]; by eexists).
Qed.

(** X2: [list_models] of every provider returns and never raises.  The
    catalogues of [FallbackProvider] and [HuggingFaceProvider] are fixed
    (the latter is handed out without a key too), that of
    [AnthropicProvider] is fixed when the key is there and empty when not,
    and none of the three sends a request.  The other backends send one
    request when the credential is there, none when it is not, and answer
    the empty list when the request fails, the status is not 200 or
    reading the body raises.  On a 200 answer [OllamaProvider] hands back
    whatever the body holds under [models], a list or not (the empty list
    when it holds no such key, or is no dict); OpenAI, Gemini and Azure
    answer a list in every case. *)
Theorem list_models_failure_is_empty (p : provider) (st : state) :
  exists models st',
    list_models p st = (Ret models, st')
    /\ match p with
       | FallbackProvider => models = fallback_models /\ st' = st
       | Backend (HuggingFaceProvider _) =>
         models = huggingface_models /\ st' = st
       | Backend (AnthropicProvider k) =>
         models = (if key_present k then anthropic_models else JArr [])
         /\ st' = st
       | Backend b =>
         if credentials_present b then
           st_calls st' = st_calls st ++ [ReqModels b]
           /\ match (http (ReqModels b) (st_world st)).1 with
              | Failed _ => models = JArr []
              | Answered resp =>
                if status_code resp =? 200 then
                  match listing_of b resp with
                  | Ret listing => models = listing
                  | Raise _ => models = JArr []
                  end
                  /\ match b, body_json resp with
                     | OllamaProvider _, Ret (JObj fields) =>
                       models
                       = default (JArr []) (dict_get (py "models") fields)
                     | OllamaProvider _, _ => models = JArr []
                     | _, Raise _ => models = JArr []
                     | _, Ret _ => exists items, models = JArr items
                     end
                else models = JArr []
              end
         else models = JArr [] /\ st' = st
       end.
Proof.
  assert (forall b, exists models st',
            fetch_models b st = (Ret models, st')
            /\ st_calls st' = st_calls st ++ [ReqModels b]
            /\ match (http (ReqModels b) (st_world st)).1 with
               | Failed _ => models = JArr []
               | Answered resp =>
                 if status_code resp =? 200 then
                   match listing_of b resp with
                   | Ret listing => models = listing
                   | Raise _ => models = JArr []
                   end
                   /\ match b, body_json resp with
                      | OllamaProvider _, Ret (JObj fields) =>
                        models
                        = default (JArr []) (dict_get (py "models") fields)
                      | OllamaProvider _, _ => models = JArr []
                      | _, Raise _ => models = JArr []
                      | _, Ret _ => exists items, models = JArr items
                      end
                 else models = JArr []
               end) as Hfetch.
  { intros b. unfold fetch_models, send.
    destruct (http (ReqModels b) (st_world st)) as [[e|resp] w]; simpl;
      [by eexists _, _|].
    destruct (status_code resp =? 200); [|by eexists _, _].
    pose proof (listing_of_list b resp) as Hlist.
    destruct (listing_of b resp) as [listing|e] eqn:Hlisting;
      eexists _, _; (split; [reflexivity|]); (split; [done|]);
      (split; [done|]); revert Hlisting;
      unfold listing_of, mbind, outcome_bind;
      destruct (body_json resp) as [body|e']; simpl;
      destruct b; try done; intros Hlisting;
      try (by apply Hlist);
      try (by eexists);
      destruct body; simpl in Hlisting; congruence. }
  destruct p as [b|]; simpl; [|by eexists _, _].
  destruct b as [url|k|k|k|k e v|k]; simpl.
  - apply Hfetch.
  - destruct (key_present k); [apply Hfetch|by eexists _, _].
  - destruct (key_present k); by eexists _, _.
  - destruct (key_present k); [apply Hfetch|by eexists _, _].
  - destruct (key_present k && key_present e); [apply Hfetch|by eexists _, _].
  - by eexists _, _.
Qed.

(** The listing of [OllamaProvider] is not looked at: where the endpoint
    answers [{"models": null}], [list_models] returns [None]. *)
Lemma ollama_listing_unchecked url (resp : response) (st : state) :
  (http (ReqModels (OllamaProvider url)) (st_world st)).1 = Answered resp ->
  status_code resp = 200 ->
  body_json resp = Ret (JObj [(py "models", JNull)]) ->
  (list_models (Backend (OllamaProvider url)) st).1 = Ret JNull.
Proof.
  intros Hreply Hstatus Hbody. simpl. unfold fetch_models, send.
  destruct (http _ _) as [r w]. simpl in Hreply. subst r. simpl.
  rewrite Hstatus. simpl. unfold listing_of. by rewrite Hbody.
Qed.

Lemma comprehension_Forall (f : json -> outcome (option json))
    (P : json -> Prop) xs ys :
  (forall x y, f x = Ret (Some y) -> P y) ->
  comprehension f xs = Ret ys -> Forall P ys.
Proof.
  intros Hf. revert ys. induction xs as [|x xs IH]; intros ys; simpl.
  - intros [= <-]. constructor.
  - unfold mbind, outcome_bind.
    destruct (f x) as [y|e] eqn:Hx; [|done].
    destruct (comprehension f xs) as [zs|e]; [|done].
    intros [= <-]. destruct y as [y|]; [|by apply IH].
    constructor; [by eapply Hf|by apply IH].
Qed.

Lemma after_last_slash_no_slash s : 47%N ∉ after_last_slash s.
Proof.
  unfold after_last_slash.
  assert (forall acc, 47%N ∉ acc ->
            47%N ∉ fold_left (fun acc c => if (c =? 47)%N then []
                                           else acc ++ [c]) s acc) as Hgen.
  { induction s as [|c s IH]; intros acc Hacc; simpl; [done|].
    apply IH. destruct (c =? 47)%N eqn:Hc; [apply not_elem_of_nil|].
    apply N.eqb_neq in Hc. rewrite elem_of_app, list_elem_of_singleton.
    intros [?|?]; [done|]. by apply Hc. }
  apply Hgen, not_elem_of_nil.
Qed.

Lemma contains_char_false (c : N) (s : pystr) :
  c ∉ s -> contains [c] s = false.
Proof.
  induction s as [|d s IH]; intros Hc; [done|].
  apply not_elem_of_cons in Hc as [Hd Hs]. simpl.
  rewrite (IH Hs). apply N.eqb_neq in Hd. by rewrite Hd.
Qed.

(** What a comprehension returns, when the item of each element is known. *)
Lemma comprehension_omap (f : json -> outcome (option json))
    (g : json -> option json) (P : json -> Prop) xs ys :
  (forall x y, f x = Ret y -> P x /\ y = g x) ->
  comprehension f xs = Ret ys -> Forall P xs /\ ys = omap g xs.
Proof.
  intros Hf. revert ys. induction xs as [|x xs IH]; intros ys; simpl.
  - by intros [= <-].
  - unfold mbind, outcome_bind.
    destruct (f x) as [y|e] eqn:Hx; [|done].
    destruct (comprehension f xs) as [zs|e]; [|done].
    destruct (Hf _ _ Hx) as [HP ->]. destruct (IH _ eq_refl) as [HPs ->].
    intros [= <-]. split; [by constructor|]. by destruct (g x).
Qed.

Lemma after_last_slash_follows path :
  follows_last_slash path (after_last_slash path).
Proof.
  split; [apply after_last_slash_no_slash|]. unfold after_last_slash.
  assert (forall p acc, p = [] \/ last p = Some 47%N ->
            exists pre,
              p ++ acc ++ path
              = pre ++ fold_left (fun acc c => if (c =? 47)%N then []
                                               else acc ++ [c]) path acc
              /\ (pre = [] \/ last pre = Some 47%N)) as Hgen.
  { induction path as [|c s IH]; intros p acc Hp; simpl.
    - exists p. by rewrite app_nil_r.
    - destruct (c =? 47)%N eqn:Hc.
      + apply N.eqb_eq in Hc as ->.
        destruct (IH (p ++ acc ++ [47%N]) []) as (pre & Hpre & Hlast).
        { right. by rewrite !app_assoc, last_snoc. }
        exists pre. split; [|done]. rewrite <- Hpre.
        by rewrite <- !app_assoc.
      + destruct (IH p (acc ++ [c]) Hp) as (pre & Hpre & Hlast).
        exists pre. split; [|done]. rewrite <- Hpre.
        by rewrite <- !app_assoc. }
  destruct (Hgen [] [] (or_introl eq_refl)) as (pre & Hpre & Hlast).
  by exists pre.
Qed.

(** X3: what [OpenAIProvider.list_models] makes of a 200 answer, when it
    reads it at all: the body is a dict, every item under [data] is a dict
    with a [str] under [id], and the listing holds, in the order of the
    endpoint, one entry for each item whose id, in lower case, holds "gpt"
    and none for the others; the entry is the id and the creation time of
    that very item (the empty string when the item has none). *)
Theorem openai_listing_only_gpt (k : option pystr) (resp : response)
    (models : json) :
  listing_of (OpenAIProvider k) resp = Ret models ->
  exists fields xs,
    body_json resp = Ret (JObj fields)
    /\ py_iter (default (JArr []) (dict_get (py "data") fields)) = Ret xs
    /\ Forall (fun x => is_Some (str_field (py "id") x)) xs
    /\ models = JArr (omap gpt_entry xs).
Proof.
  unfold listing_of, mbind, outcome_bind, fmap, outcome_fmap.
  destruct (body_json resp) as [body|e]; [|done].
  destruct body as [| | | | | |fields]; try done. cbn [method_get].
  destruct (py_iter _) as [xs|e] eqn:Hiter; [|done].
  destruct (comprehension openai_model_entry xs) as [ys|e] eqn:Hys; [|done].
  intros [= <-]. exists fields, xs. split; [done|]. split; [done|].
  eapply comprehension_omap in Hys as [Hxs ->]; [done|].
  intros x y. unfold openai_model_entry, gpt_entry, str_field, field_or.
  unfold mbind, outcome_bind, option_bind.
  destruct x as [| | | | | |item]; try done. cbn [getitem_key method_get].
  destruct (dict_get (py "id") item) as [id|]; [|done].
  destruct id as [| | | |s| |]; try done. cbn [method_lower option_bind].
  destruct (contains (py "gpt") (str_lower s)); by intros [= <-].
Qed.

(** X4: what [GeminiProvider.list_models] makes of a 200 answer, when it
    reads it at all: the body is a dict, every item under [models] is a
    dict with a [str] path under [name], and the listing holds, in the
    order of the endpoint, one entry for each item whose path, in lower
    case, holds "gemini" and none for the others; the entry is named by
    what follows the last slash of the path of that very item (by the whole
    path when it holds no slash) and described by its display name (by the
    path when the item has none).  No name of the listing holds a slash. *)
Theorem gemini_listing_short_names (k : option pystr) (resp : response)
    (models : json) :
  listing_of (GeminiProvider k) resp = Ret models ->
  exists fields xs,
    body_json resp = Ret (JObj fields)
    /\ py_iter (default (JArr []) (dict_get (py "models") fields)) = Ret xs
    /\ Forall (fun x => is_Some (str_field (py "name") x)) xs
    /\ models = JArr (omap gemini_entry xs)
    /\ (forall path, follows_last_slash path (after_last_slash path))
    /\ Forall (fun m => exists short description,
                 m = JObj [(py "name", JStr short);
                           (py "description", description)]
                 /\ contains (py "/") short = false) (omap gemini_entry xs).
Proof.
  unfold listing_of, mbind, outcome_bind, fmap, outcome_fmap.
  destruct (body_json resp) as [body|e]; [|done].
  destruct body as [| | | | | |fields]; try done. cbn [method_get].
  destruct (py_iter _) as [xs|e] eqn:Hiter; [|done].
  destruct (comprehension gemini_model_entry xs) as [ys|e] eqn:Hys; [|done].
  intros [= <-]. exists fields, xs. split; [done|]. split; [done|].
  eapply comprehension_omap in Hys as [Hxs ->].
  - split; [done|]. split; [done|].
    split; [apply after_last_slash_follows|].
    apply Forall_forall. intros m [x [_ Hm]]%list_elem_of_omap.
    revert Hm. unfold gemini_entry, mbind, option_bind.
    destruct (str_field (py "name") x) as [path|]; [|done].
    destruct (contains (py "gemini") (str_lower path)); [|done].
    intros [= <-]. eexists _, _. split; [done|].
    apply (contains_char_false 47), after_last_slash_no_slash.
  - intros x y. unfold gemini_model_entry, gemini_entry, str_field, field_or.
    unfold mbind, outcome_bind, option_bind.
    destruct x as [| | | | | |item]; try done. cbn [getitem_key method_get].
    destruct (dict_get (py "name") item) as [name|]; [|done].
    destruct name as [| | | |s| |]; try done.
    cbn [method_lower method_split_last option_bind].
    destruct (contains (py "gemini") (str_lower s)); by intros [= <-].
Qed.

End Probes.

(** ** The registry of the gateway *)

(** X5: the registry [_initialize_providers] builds.  Its names are
    distinct; "ollama" is always the first and "fallback" the last of them;
    a backend is registered only with its credential, and the only entry
    that holds the [FallbackProvider] is "fallback". *)
Theorem registry_invariant (cfg : settings) :
  let reg := providers (AIService_init cfg) in
  NoDup reg.*1
  /\ head reg.*1 = Some (py "ollama")
  /\ last reg.*1 = Some (py "fallback")
  /\ (forall name b, (name, Backend b) ∈ reg -> credentials_present b = true)
  /\ (forall name, (name, FallbackProvider) ∈ reg -> name = py "fallback").
Proof.
  cbv zeta. unfold AIService_init. cbn [providers].
  destruct (key_present (OPENAI_API_KEY cfg)) eqn:Hopenai,
    (key_present (ANTHROPIC_API_KEY cfg)) eqn:Hanthropic,
    (key_present (GEMINI_API_KEY cfg)) eqn:Hgemini,
    (key_present (AZURE_OPENAI_API_KEY cfg)) eqn:Hazure,
    (key_present (AZURE_OPENAI_ENDPOINT cfg)) eqn:Hendpoint,
    (key_present (HUGGINGFACE_API_KEY cfg)) eqn:Hhf;
    cbn [andb app fmap list_fmap fst];
    (split; [apply (bool_decide_unpack _); by vm_compute|]);
    (split; [reflexivity|]); (split; [reflexivity|]);
    match goal with
    | |- (forall name b, _ ∈ ?reg -> _) /\ _ =>
      assert (Forall (fun entry =>
                        match entry.2 with
                        | Backend b => credentials_present b = true
                        | FallbackProvider => entry.1 = py "fallback"
                        end) reg) as Hreg
        by (repeat constructor; simpl;
            by rewrite ?Hopenai, ?Hanthropic, ?Hgemini, ?Hazure, ?Hendpoint,
              ?Hhf)
    end;
    rewrite Forall_forall in Hreg;
    (split; [intros name b Hin|intros name Hin]; exact (Hreg _ Hin)).
Qed.

Section Gateway.

Context `{rt : Runtime}.

Lemma listing_truthy_with_fallback self provider st models st' :
  use_fallback self = true ->
  lookup_item (py "fallback") (providers self) = Some FallbackProvider ->
  AIService_list_models self provider st = (Ret models, st') ->
  truthy models = true.
Proof.
  intros Hon Hfallback. unfold AIService_list_models.
  generalize (resolve_name self provider). intros name.
  unfold mbind, M_bind, subscript, mret, M_ret, raise_M.
  destruct (lookup_item name (providers self)) as [p|]; [|done].
  destruct (check_connection p st) as [[reachable|e] st1]; [|done].
  rewrite Hon, Hfallback. destruct reachable; simpl.
  - destruct (list_models p st1) as [[listing|e] st2]; [|done].
    destruct (truthy listing) eqn:Hlisting; simpl.
    + by intros [= <- <-].
    + by intros [= <- <-].
  - by intros [= <- <-].
Qed.

(** X6: with [OLLAMA_USE_FALLBACK] on, a listing the gateway returns is
    never empty, whatever provider name was asked for: the provider the
    name resolves to is probed; when the probe fails the catalogue of the
    Fallback provider is handed out and the provider is not asked for its
    models; when it succeeds the provider is asked, and its listing is
    handed out as it is unless it is empty (or falsy), in which case the
    catalogue of the Fallback provider is handed out in its place. *)
Theorem gateway_listing_never_empty (cfg : settings)
    (provider : option pystr) (st : state) (models : json) (st' : state) :
  OLLAMA_USE_FALLBACK cfg = true ->
  AIService_list_models (AIService_init cfg) provider st = (Ret models, st') ->
  let self := AIService_init cfg in
  truthy models = true
  /\ exists p reachable st1,
       lookup_item (resolve_name self provider) (providers self) = Some p
       /\ check_connection p st = (Ret reachable, st1)
       /\ if reachable
          then exists listing,
                 list_models p st1 = (Ret listing, st')
                 /\ models
                    = (if truthy listing then listing else fallback_models)
          else models = fallback_models /\ st' = st1.
Proof.
  intros Hon Hrun self.
  split; [by eapply listing_truthy_with_fallback, Hrun;
            [|apply init_fallback]|].
  revert Hrun. unfold AIService_list_models. fold self.
  generalize (resolve_name self provider). intros name.
  unfold mbind, M_bind, subscript, mret, M_ret, raise_M.
  destruct (lookup_item name (providers self)) as [p|] eqn:Hp; [|done].
  destruct (check_connection p st) as [[reachable|e] st1] eqn:Hprobe;
    [|done].
  replace (use_fallback self) with true by done.
  unfold self at 1 2. rewrite init_fallback.
  intros Hrun. exists p, reachable, st1. split; [done|]. split; [done|].
  destruct reachable; simpl in *.
  - destruct (list_models p st1) as [[listing|e] st2]; [|done].
    exists listing. destruct (truthy listing); simpl in *.
    + by injection Hrun as <- <-.
    + by injection Hrun as <- <-.
  - by injection Hrun as <- <-.
Qed.

Lemma resolve_name_unknown self name :
  lookup_item name (providers self) = None ->
  resolve_name self (Some name) = resolve_name self None.
Proof.
  intros Hname. unfold resolve_name.
  destruct name as [|c name]; [done|].
  rewrite Hname. simpl.
  by destruct (bool_decide _).
Qed.

(** X7: a provider name the registry does not hold is treated as no name
    at all: the listing and the body of [generate_completion] do for it
    exactly what they do for the default provider. *)
Theorem unknown_provider_is_default (self : AIService) (name : pystr)
    (model : json) (prompt : pystr) (temperature : Q) (stream : bool)
    (st : state) :
  lookup_item name (providers self) = None ->
  AIService_list_models self (Some name) st
  = AIService_list_models self None st
  /\ run_gen (GenService self model prompt (Some name) temperature stream) st
     = run_gen (GenService self model prompt None temperature stream) st.
Proof.
  intros Hname.
  unfold AIService_list_models, run_gen, service_body.
  by rewrite (resolve_name_unknown self name Hname).
Qed.

Lemma pick_models_aligned service l fuel i models st ms st' :
  (forall p st0 pm st1,
     AIService_list_models service (Some p) st0 = (Ret pm, st1) ->
     truthy pm = true) ->
  (length (default [] (st_lists st !! l)) - i <= fuel)%nat ->
  pick_models fuel service l i models st = (Ret ms, st') ->
  st_lists st' = st_lists st
  /\ length ms
     = (length models + (length (default [] (st_lists st !! l)) - i))%nat.
Proof.
  intros Htruthy. revert i models st.
  induction fuel as [|fuel IH]; intros i models st Hfuel; simpl.
  - intros [= <- <-]. split; [done|lia].
  - unfold mbind, M_bind, read_list.
    destruct (default [] (st_lists st !! l) !! i) as [provider|] eqn:Hi.
    + apply lookup_lt_Some in Hi.
      pose proof (keeps_AIService_list_models service (Some provider) st)
        as Hkeep.
      destruct (AIService_list_models service (Some provider) st)
        as [[pm|e] st1] eqn:Hpm; simpl in Hkeep; [|done].
      rewrite (Htruthy _ _ _ _ Hpm).
      unfold of_outcome. destruct (first_name pm) as [name|e]; [|done].
      intros Hrest. apply IH in Hrest; rewrite Hkeep in *; [|lia].
      destruct Hrest as [-> ->]. split; [done|].
      rewrite length_app. simpl. lia.
    + apply lookup_ge_None in Hi. intros [= <- <-]. split; [done|lia].
Qed.

(** X8: with [OLLAMA_USE_FALLBACK] on and no model list given, the
    selection of [collaborate] never prunes: when it returns, the provider
    list it works with is as long as the model list it picked (so the
    length check that follows passes), and a list the caller passed is the
    one it works with, left as it was. *)
Theorem fallback_keeps_selection_aligned (cfg : settings)
    (providers : option nat) (st : state) (l : nat) (ms : list json)
    (st' : state) :
  OLLAMA_USE_FALLBACK cfg = true ->
  resolve_selection (AIService_init cfg) providers None st
  = (Ret (l, ms), st') ->
  length (default [] (st_lists st' !! l)) = length ms
  /\ forall given,
       providers = Some given ->
       default [] (st_lists st !! given) <> [] ->
       l = given /\ st_lists st' = st_lists st.
Proof.
  intros Hon.
  assert (forall p st0 pm st1,
            AIService_list_models (AIService_init cfg) (Some p) st0
            = (Ret pm, st1) -> truthy pm = true) as Htruthy.
  { intros p st0 pm st1.
    by apply listing_truthy_with_fallback; [|apply init_fallback]. }
  generalize dependent (AIService_init cfg). intros service Htruthy.
  assert (forall l0 st0 ms0 st2,
            pick_models (length (default [] (st_lists st0 !! l0))) service
              l0 0 [] st0 = (Ret ms0, st2) ->
            length (default [] (st_lists st2 !! l0)) = length ms0
            /\ st_lists st2 = st_lists st0) as Hpick.
  { intros l0 st0 ms0 st2 Hrun.
    apply pick_models_aligned in Hrun as [Hlists ->]; [|done|lia].
    rewrite Hlists. simpl. split; [lia|done]. }
  unfold resolve_selection, mbind, M_bind, read_list, mret, M_ret, new_list.
  destruct providers as [given|]; simpl;
    [destruct (default [] (st_lists st !! given)) as [|p ps] eqn:Hgiven|];
    simpl.
  - destruct (reachable_names (registry service) st) as [[names|e] st1];
      [|done].
    destruct (pick_models _ _ _ _ _ _) as [[models|e] st2] eqn:Hrun; [|done].
    intros [= <- <- <-]. apply Hpick in Hrun as [-> _].
    split; [done|]. by intros ? [= <-].
  - destruct (pick_models _ _ _ _ _ _) as [[models|e] st2] eqn:Hrun; [|done].
    intros [= <- <- <-]. apply Hpick in Hrun as [-> ->].
    split; [done|]. by intros ? [= <-].
  - destruct (reachable_names (registry service) st) as [[names|e] st1];
      [|done].
    destruct (pick_models _ _ _ _ _ _) as [[models|e] st2] eqn:Hrun; [|done].
    intros [= <- <- <-]. by apply Hpick in Hrun as [-> _].
Qed.

Lemma reachable_names_spec ps st :
  exists names st',
    reachable_names ps st = (Ret names, st')
    /\ names `sublist_of` ps.*1
    /\ forall name, (name, FallbackProvider) ∈ ps -> name ∈ names.
Proof.
  revert st. induction ps as [|[name p] ps IH]; intros st; simpl.
  - eexists _, _. split; [reflexivity|]. split; [done|].
    intros name Hin. by apply elem_of_nil in Hin.
  - unfold mbind, M_bind, mret, M_ret.
    destruct (check_connection_returns p st) as (ok & st1 & Hok).
    rewrite Hok.
    destruct (IH st1) as (names & st2 & -> & Hsub & Hfb).
    eexists _, _. split; [reflexivity|]. split.
    + destruct ok; [by apply sublist_skip|by apply sublist_cons].
    + intros name' [[= -> <-]|Hin]%elem_of_cons.
      * simpl in Hok. injection Hok as <- _. apply list_elem_of_here.
      * destruct ok; [apply list_elem_of_further|]; by apply Hfb.
Qed.

Lemma lookup_item_elem_of {A} k (d : list (pystr * A)) v :
  lookup_item k d = Some v -> (k, v) ∈ d.
Proof.
  induction d as [|[k' v'] d IH]; simpl; [done|].
  unfold str_eqb. case_bool_decide as Hk.
  - intros [= <-]. subst. apply list_elem_of_here.
  - intros Hd. by apply list_elem_of_further, IH.
Qed.

(** X9: when [collaborate] is given no provider list, the providers it
    selects are registered names in the order of the registry, the probes
    never raise, and "fallback" is always among them: the selection is
    never empty. *)
Theorem default_selection_has_fallback (cfg : settings) (st : state) :
  exists names st',
    reachable_names (registry (AIService_init cfg)) st = (Ret names, st')
    /\ names `sublist_of` (providers (AIService_init cfg)).*1
    /\ py "fallback" ∈ names.
Proof.
  destruct (reachable_names_spec (registry (AIService_init cfg)) st)
    as (names & st' & Hrun & Hsub & Hfb).
  exists names, st'. split; [done|]. split; [done|].
  apply Hfb, lookup_item_elem_of, init_fallback.
Qed.

End Gateway.

(** ** The streams of the backends *)




Section Streams.

Context `{rt : Runtime}.

Lemma except_parse_returns m : exists ev c, except_parse m = (ev, Ret c).
Proof. destruct m as [ev [c|e]]; simpl; by eexists _, _. Qed.

Lemma sse_line_returns b model line :
  is_sse b = true -> exists ev c, stream_line b model line = (ev, Ret c).
Proof. destruct b; try done; intros _; apply except_parse_returns. Qed.

Lemma sse_loop_never_thrown b model ls :
  is_sse b = true ->
  exists evs, iter_lines_loop (stream_line b model) ls = (evs, Exhausted)
              \/ iter_lines_loop (stream_line b model) ls = (evs, Broke).
Proof.
  intros Hb. induction ls as [|l ls [evs IH]]; simpl; [by eexists; left|].
  destruct l as [|c l]; [by exists evs|].
  destruct (sse_line_returns b model (c :: l) Hb) as (ev & ctl & ->).
  destruct ctl; [|by eexists; right].
  destruct IH as [-> | ->]; eexists; [by left|by right].
Qed.

(** What the streaming branch does with a reply 200 whose transfer runs to
    its end. *)
Lemma stream_events_of_lines b (model : pystr) prompt temperature st resp w :
  (if b is HuggingFaceProvider _ then False else True) ->
  credentials_present b = true ->
  http (ReqGenerate b (JStr model) prompt temperature true) (st_world st)
  = (Answered resp, w) ->
  status_code resp = 200 ->
  stream_events (Backend b) (JStr model) prompt temperature st
  = match iter_lines_loop (stream_line b (JStr model)) (body_lines resp) with
    | (evs, Thrown e) => evs ++ [error_event (str_exn e)]
    | (evs, Broke) => evs
    | (evs, Exhausted) =>
      match body_lines_end resp with
      | Some e => evs ++ [error_event (str_exn e)]
      | None => evs
      end
    end.
Proof.
  intros Hb Hcred Hreply Hstatus.
  unfold stream_events, generate_completion, run_gen, backend_body.
  cbn [mret M_ret]. rewrite Hcred. cbn [negb].
  assert ((except_request true
             (stream_completion b (JStr model) prompt temperature) st).1.1
          = match iter_lines_loop (stream_line b (JStr model))
                    (body_lines resp) with
            | (evs, Thrown e) => evs ++ [error_event (str_exn e)]
            | (evs, Broke) => evs
            | (evs, Exhausted) =>
              match body_lines_end resp with
              | Some e => evs ++ [error_event (str_exn e)]
              | None => evs
              end
            end) as Hbody.
  { unfold except_request, try_G, stream_completion.
    unfold mbind at 1. unfold G_bind, run, send. rewrite Hreply.
    apply Z.eqb_eq in Hstatus. rewrite Hstatus. cbn [negb].
    unfold mbind, G_bind, mret, G_ret, iter_lines, yield.
    destruct b; try done;
      (destruct (iter_lines_loop _ _) as [evs [| |e]]; simpl;
       [destruct (body_lines_end resp); simpl|..];
       by rewrite ?app_nil_r). }
  unfold mbind, mret, G_bind, G_ret, run, of_outcome.
  destruct b; simpl; rewrite ?triple_eta; exact Hbody.
Qed.

(** X10: in the streams of OpenAI, Anthropic, Gemini and Azure no line
    can end the stream with an exception: whatever a line holds (bytes that
    are no UTF-8, a document that does not parse or is not of the expected
    shape), its handler catches the failure and the loop goes on.  For a
    reply 200 whose transfer runs to its end, the events the consumer
    receives are exactly those of the loop over the lines, which ends at
    the last line or at a [break]. *)
Theorem sse_lines_never_abort (b : backend) (model prompt : pystr)
    (temperature : Q) (st : state) (resp : response) (w : world) :
  is_sse b = true ->
  credentials_present b = true ->
  http (ReqGenerate b (JStr model) prompt temperature true) (st_world st)
  = (Answered resp, w) ->
  status_code resp = 200 ->
  body_lines_end resp = None ->
  exists how,
    (how = Exhausted \/ how = Broke)
    /\ iter_lines_loop (stream_line b (JStr model)) (body_lines resp)
       = (stream_events (Backend b) (JStr model) prompt temperature st, how).
Proof.
  intros Hb Hcred Hreply Hstatus Hend.
  rewrite (stream_events_of_lines b model prompt temperature st resp w)
    by (done || by destruct b).
  rewrite Hend.
  destruct (sse_loop_never_thrown b (JStr model) (body_lines resp) Hb)
    as [evs [-> | ->]]; eexists; (split; [|reflexivity]); auto.
Qed.

Lemma iter_lines_loop_app handle pre evs ls :
  iter_lines_loop handle pre = (evs, Exhausted) ->
  iter_lines_loop handle (pre ++ ls)
  = let '(ev, how) := iter_lines_loop handle ls in (evs ++ ev, how).
Proof.
  revert evs. induction pre as [|l pre IH]; intros evs; simpl.
  - intros [= <-]. by destruct (iter_lines_loop handle ls).
  - destruct l as [|c l]; [apply IH|].
    destruct (handle (c :: l)) as [ev [[]|e]]; [|done..].
    destruct (iter_lines_loop handle pre) as [ev' how] eqn:Hpre.
    intros [= <- ->]. rewrite (IH ev' eq_refl).
    destruct (iter_lines_loop handle ls). by rewrite app_assoc.
Qed.

(** X11: the line [data: [DONE]] closes the stream of OpenAI, Anthropic,
    Gemini and Azure: when the lines before it have been handled without a
    [break], it yields the event with [done = true] for the model asked
    for, and no line after it is looked at. *)
Theorem done_line_ends_sse_stream (b : backend) (model : json)
    (pre post : list bytes) (evs : list json) :
  is_sse b = true ->
  iter_lines_loop (stream_line b model) pre = (evs, Exhausted) ->
  iter_lines_loop (stream_line b model) (pre ++ done_line :: post)
  = (evs ++ [done_event model], Broke).
Proof.
  intros Hb Hpre. rewrite (iter_lines_loop_app _ _ _ _ Hpre).
  assert (stream_line b model done_line = ([done_event model], Ret Break))
    as Hdone by (by destruct b).
  change (iter_lines_loop (stream_line b model) (done_line :: post))
    with (match stream_line b model done_line with
          | (ev, Ret Continue) =>
            let '(ev', e) := iter_lines_loop (stream_line b model) post in
            (ev ++ ev', e)
          | (ev, Ret Break) => (ev, Broke)
          | (ev, Raise e) => (ev, Thrown e)
          end).
  by rewrite Hdone.
Qed.

(** X12: [OllamaProvider] catches only a JSON decoding error at a line.  A
    line that parses to something other than an object is forwarded to the
    consumer as it is, the [.get] on it raises, and the stream ends there
    with one error event: the lines after it are dropped. *)
Theorem ollama_non_object_line_aborts (url model prompt : pystr)
    (temperature : Q) (st : state) (resp : response) (w : world)
    (line : bytes) (rest : list bytes) (chunk : json) :
  http (ReqGenerate (OllamaProvider url) (JStr model) prompt temperature true)
    (st_world st) = (Answered resp, w) ->
  status_code resp = 200 ->
  body_lines resp = line :: rest ->
  line <> [] ->
  json_loads_bytes line = Ret chunk ->
  (if chunk is JObj _ then False else True) ->
  stream_events (Backend (OllamaProvider url)) (JStr model) prompt
    temperature st
  = [chunk; error_event (str_exn (AttributeError (py "get") chunk))].
Proof.
  intros Hreply Hstatus Hlines Hline Hloads Hchunk.
  rewrite (stream_events_of_lines _ model prompt temperature st resp w)
    by done.
  rewrite Hlines. simpl. destruct line as [|c line]; [done|].
  unfold ollama_line, pure, emit. rewrite Hloads.
  unfold mbind, L_bind.
  by destruct chunk.
Qed.

(** X13: a streaming call that cannot reach its backend yields exactly one
    event, an error event: the fixed message about the credential when it
    is missing (and then nothing is sent), the text of the exception when
    the request raises, and the vendor's connection message when the
    status is not 200. *)
Theorem stream_failure_is_one_error_event (b : backend)
    (model prompt : pystr) (temperature : Q) (st : state) :
  let rq := ReqGenerate b (JStr model) prompt temperature true in
  let evs := stream_events (Backend b) (JStr model) prompt temperature st in
  if credentials_present b then
    match (http rq (st_world st)).1 with
    | Failed e => evs = [error_event (str_exn e)]
    | Answered resp =>
      if status_code resp =? 200 then True
      else evs = [error_event (connect_failure b resp)]
    end
  else
    evs = [error_event (missing_credentials b)]
    /\ st_calls
         (run_gen (GenBackend b (JStr model) prompt temperature true) st).2
       = st_calls st.
Proof.
  cbv zeta.
  unfold stream_events, generate_completion, run_gen, backend_body.
  cbn [mret M_ret].
  destruct (credentials_present b) eqn:Hcred; cbn [negb]; [|done].
  assert (match (http (ReqGenerate b (JStr model) prompt temperature true)
                   (st_world st)).1 with
          | Failed e =>
            (except_request true
               (stream_completion b (JStr model) prompt temperature) st).1.1
            = [error_event (str_exn e)]
          | Answered resp =>
            if status_code resp =? 200 then True
            else (except_request true
                    (stream_completion b (JStr model) prompt temperature)
                    st).1.1
                 = [error_event (connect_failure b resp)]
          end) as Hbody.
  { destruct (http _ (st_world st)) as [[e|resp] w] eqn:Hreply; cbn [fst];
      [|destruct (status_code resp =? 200) eqn:Hstatus; [done|]];
      unfold except_request, try_G, stream_completion;
      unfold mbind at 1; unfold G_bind, run, send; rewrite Hreply;
      [done|].
    by rewrite Hstatus. }
  unfold mbind, mret, G_bind, G_ret, run, of_outcome.
  destruct b; simpl; rewrite ?triple_eta; exact Hbody.
Qed.


End Streams.

(** ** The configuration a prompt carries *)

Lemma startswith_prefix needle hay :
  startswith needle hay = true -> hay = needle ++ drop (length needle) hay.
Proof.
  revert hay. induction needle as [|c needle IH]; intros hay; [done|].
  destruct hay as [|d hay]; simpl; [done|].
  intros [Hc Hrest]%andb_prop. apply N.eqb_eq in Hc as ->.
  f_equal. by apply IH.
Qed.







(** The search does find the block of a prompt that fences one. *)
Lemma fenced_block_is_found :
  search_fenced (py "проверь конфигурацию nginx ```nginx
server { listen 80 }```")
  = Some (py "server { listen 80 }").
Proof. by vm_compute. Qed.

(** ** The auditor of configurations *)

Section Auditor.

Import config_analyzer.

Lemma directive_problems_raise line directives e :
  directive_problems line directives = Raise e -> e = IndexError (JArr []).
Proof.
  induction directives as [|directive rest IH]; simpl; [done|].
  unfold mbind, outcome_bind.
  destruct (startswith (directive ++ py " ") line).
  - destruct (split_ws _) as [|path parts]; simpl; [by intros [= <-]|].
    destruct (directive_problems line rest); [done|].
    intros [= <-]. by apply IH.
  - destruct (directive_problems line rest); [done|].
    intros [= <-]. by apply IH.
Qed.

Lemma path_problems_raise lines line :
  line ∈ lines ->
  directive_problems (strip line) path_directives
  = Raise (IndexError (JArr [])) ->
  path_problems lines = Raise (IndexError (JArr [])).
Proof.
  intros Hin Hline. induction lines as [|l lines IH]; cbn [path_problems].
  - by apply elem_of_nil in Hin.
  - unfold mbind, outcome_bind.
    destruct (directive_problems (strip l) path_directives) as [here|e]
      eqn:Hl.
    + apply elem_of_cons in Hin as [->|Hin]; [congruence|].
      by rewrite (IH Hin).
    + by rewrite (directive_problems_raise _ _ _ Hl).
Qed.

Lemma bare_directive_raises (config_text directive line : pystr) :
  directive ∈ path_directives ->
  line ∈ split_on 10 config_text ->
  strip line = directive ++ py " ;" ->
  analyze_nginx_config config_text = Raise (IndexError (JArr [])).
Proof.
  intros Hdirective Hline Hstrip.
  unfold analyze_nginx_config, nginx_findings. cbv zeta.
  rewrite (path_problems_raise _ line Hline); [done|].
  rewrite Hstrip. unfold path_directives in Hdirective.
  repeat (apply elem_of_cons in Hdirective as [->|Hdirective];
          [by vm_compute|]).
  by apply elem_of_nil in Hdirective.
Qed.

Lemma path_problems_raise_kind lines e :
  path_problems lines = Raise e -> e = IndexError (JArr []).
Proof.
  induction lines as [|line lines IH]; cbn [path_problems]; [done|].
  unfold mbind, outcome_bind.
  destruct (directive_problems (strip line) path_directives) as [here|e']
    eqn:Hline.
  - destruct (path_problems lines); [done|]. intros [= <-]. by apply IH.
  - intros [= <-]. by eapply directive_problems_raise.
Qed.

Lemma analyze_nginx_raise_kind config_text e :
  analyze_nginx_config config_text = Raise e -> e = IndexError (JArr []).
Proof.
  unfold analyze_nginx_config, nginx_findings. cbv zeta.
  unfold mbind, outcome_bind.
  destruct (path_problems _) as [paths|e'] eqn:Hpaths; [done|].
  intros [= <-]. by eapply path_problems_raise_kind.
Qed.

(** X16: [analyze_nginx_config] raises [IndexError] on a configuration in
    which [root], [access_log], [error_log] or [include] is followed by a
    semicolon and no path (a line such as [root ;]): the path is taken with
    [split()[0]] outside any [try].  So does [analyze_config_file] when it
    takes the text for an NGINX configuration. *)
Theorem nginx_directive_without_path_raises `{rt : Runtime}
    (config_text directive line : pystr) :
  directive ∈ path_directives ->
  line ∈ split_on 10 config_text ->
  strip line = directive ++ py " ;" ->
  analyze_nginx_config config_text = Raise (IndexError (JArr []))
  /\ forall config_type kind,
       detect config_text config_type = Some kind ->
       str_lower kind = py "nginx" ->
       config_analyzer.analyze_config_file config_text config_type
       = Raise (IndexError (JArr [])).
Proof.
  intros Hdirective Hline Hstrip.
  pose proof (bare_directive_raises _ _ _ Hdirective Hline Hstrip) as Hraise.
  split; [done|]. intros config_type kind Hkind Hlower.
  unfold config_analyzer.analyze_config_file. rewrite Hkind, Hlower.
  unfold str_eqb. by rewrite bool_decide_eq_true_2.
Qed.

Lemma report_head title problems suggestions c :
  head title = Some c -> head (report title problems suggestions) = Some c.
Proof. unfold report. by destruct title. Qed.

(** X17: [analyze_nginx_config] answers that the configuration looks
    right only when nothing at all was found: the braces are balanced in
    number, both security headers are declared, [server_tokens on] does
    not occur and no line is flagged.  A text without the two [add_header]
    directives, the empty one included, never gets that verdict. *)
Theorem nginx_verdict_ok_conditions (config_text : pystr) :
  analyze_nginx_config config_text = Ret nginx_verdict_ok ->
  nginx_findings config_text = Ret ([], [])
  /\ count_char 123 config_text = count_char 125 config_text
  /\ contains (py "add_header X-Frame-Options") config_text = true
  /\ contains (py "add_header X-Content-Type-Options") config_text = true
  /\ contains (py "server_tokens on") config_text = false
  /\ semicolon_problems (split_on 10 config_text) = [].
Proof.
  unfold analyze_nginx_config. unfold mbind at 1. unfold outcome_bind.
  destruct (nginx_findings config_text) as [[problems suggestions]|e]
    eqn:Hfound; [|done].
  intros [= Hverdict].
  assert (problems = [] /\ suggestions = []) as [-> ->].
  { destruct problems, suggestions; try done;
      apply (f_equal head) in Hverdict;
      by rewrite (report_head _ _ _ 35%N) in Hverdict. }
  split; [done|].
  revert Hfound. unfold nginx_findings. cbv zeta.
  unfold mbind, outcome_bind.
  destruct (path_problems _) as [paths|e]; [|done].
  intros [= Hproblems Hsuggestions].
  apply app_eq_nil in Hproblems as [Hproblems _].
  apply app_eq_nil in Hproblems as [Hbraces Hproblems].
  apply app_eq_nil in Hproblems as [Hsemicolons _].
  apply app_eq_nil in Hsuggestions as [Htokens Hsuggestions].
  apply app_eq_nil in Hsuggestions as [Hframe Hcontent].
  unfold brace_problems in Hbraces. cbv zeta in Hbraces.
  destruct (_ =? _)%nat eqn:Hcount in Hbraces; [|done].
  apply Nat.eqb_eq in Hcount.
  destruct (contains (py "server_tokens on") config_text); [done|].
  destruct (contains (py "add_header X-Frame-Options") config_text); [|done].
  by destruct (contains (py "add_header X-Content-Type-Options") config_text).
Qed.

Lemma split_ws_from_word word s : word <> [] -> split_ws_from word s <> [].
Proof.
  revert word. induction s as [|c s IH]; intros word Hword; simpl.
  - by destruct word.
  - destruct (isspace c); [by destruct word|].
    apply IH. by destruct word.
Qed.

Lemma split_ws_from_nonempty word s c :
  c ∈ s -> isspace c = false -> split_ws_from word s <> [].
Proof.
  intros Hc Hspace. revert word.
  induction s as [|d s IH]; intros word; [by apply elem_of_nil in Hc|].
  simpl. destruct (isspace d) eqn:Hd.
  - apply elem_of_cons in Hc as [->|Hc]; [congruence|].
    destruct word; [by apply IH|done].
  - apply split_ws_from_word. by destruct word.
Qed.

Lemma contains_char_elem_of (c : N) (s : pystr) :
  contains [c] s = true -> c ∈ s.
Proof.
  induction s as [|d s IH]; simpl; [done|].
  destruct (c =? d)%N eqn:Hc.
  - apply N.eqb_eq in Hc as ->. intros _. apply list_elem_of_here.
  - simpl. intros Hs. by apply list_elem_of_further, IH.
Qed.

(** What follows the mark of a tag line holds its [>]. *)
Lemma tag_name_exists (mark line : pystr) :
  bool_decide (62%N ∈ mark) = false ->
  startswith mark line = true ->
  contains (py ">") line = true ->
  exists tag_name parts,
    split_ws (drop (length mark) line) = tag_name :: parts.
Proof.
  intros Hmark%bool_decide_eq_false Hstart Hgt.
  apply contains_char_elem_of in Hgt.
  rewrite (startswith_prefix _ _ Hstart), elem_of_app in Hgt.
  destruct Hgt as [Hgt|Hgt]; [done|].
  pose proof (split_ws_from_nonempty [] _ 62%N Hgt eq_refl) as Hparts.
  unfold split_ws. destruct (split_ws_from _ _); [done|by eexists _, _].
Qed.

Lemma tag_problems_returns open_tags lines :
  exists problems still_open,
    tag_problems open_tags lines = Ret (problems, still_open).
Proof.
  revert open_tags. induction lines as [|line lines IH]; intros open_tags;
    cbn [tag_problems]; [by eexists _, _|]. cbv zeta.
  destruct (_ || _); [apply IH|].
  unfold mbind, outcome_bind, fmap, outcome_fmap.
  assert (exists tags,
            (if startswith (py "<") (strip line)
                && negb (startswith (py "</") (strip line))
                && contains (py ">") (strip line)
             then match first_item (split_ws (drop 1 (strip line))) with
                  | Ret tag_name => Ret (open_tags ++ [tag_name])
                  | Raise e => Raise e
                  end
             else Ret open_tags) = Ret tags) as [tags ->].
  { destruct (startswith (py "<") (strip line)) eqn:Hopen; [|by eexists].
    destruct (negb _); [|by eexists].
    destruct (contains (py ">") (strip line)) eqn:Hgt; [|by eexists].
    destruct (tag_name_exists (py "<") (strip line))
      as (tag_name & parts & Hparts); [by vm_compute|done..|].
    change (length (py "<")) with 1%nat in Hparts. rewrite Hparts.
    by eexists. }
  destruct (startswith (py "</") (strip line)) eqn:Hclose; cbn [andb];
    [destruct (contains (py ">") (strip line)) eqn:Hgt|].
  - destruct (tag_name_exists (py "</") (strip line))
      as (tag_name & parts & Hparts); [by vm_compute|done..|].
    change (length (py "</")) with 2%nat in Hparts. rewrite Hparts.
    cbn [first_item].
    destruct (IH (take (length tags - 1) tags)) as (more & still_open & Hpop).
    destruct (IH tags) as (more' & still_open' & Hkeep).
    destruct (last tags) as [top|]; [destruct (str_eqb top _)|];
      rewrite ?Hpop, ?Hkeep; by eexists _, _.
  - destruct (IH tags) as (more & still_open & ->). by eexists _, _.
  - destruct (IH tags) as (more & still_open & ->). by eexists _, _.
Qed.

(** X18: unlike the auditor of NGINX, [analyze_apache_config] returns a
    report for every text, and it answers that the configuration looks
    right only when the text declares [ServerTokens Prod] and a
    [TraceEnable] that is not [On], holds neither [ServerTokens Full] nor
    [ServerSignature On], and no problem was found.  The empty text is
    never given that verdict. *)
Theorem apache_analysis_returns (config_text : pystr) :
  exists result,
    analyze_apache_config config_text = Ret result
    /\ (result = apache_verdict_ok ->
        apache_findings config_text = Ret ([], [])
        /\ contains (py "ServerTokens Prod") config_text = true
        /\ contains (py "ServerTokens Full") config_text = false
        /\ contains (py "ServerSignature On") config_text = false
        /\ contains (py "TraceEnable") config_text = true
        /\ contains (py "TraceEnable On") config_text = false).
Proof.
  unfold analyze_apache_config. unfold mbind at 1. unfold outcome_bind.
  destruct (apache_findings config_text) as [[problems suggestions]|e]
    eqn:Hfound.
  - eexists. split; [reflexivity|]. intros Hverdict.
    assert (problems = [] /\ suggestions = []) as [-> ->].
    { destruct problems, suggestions; try done;
        apply (f_equal head) in Hverdict;
        by rewrite (report_head _ _ _ 35%N) in Hverdict. }
    split; [done|].
    revert Hfound. unfold apache_findings. cbv zeta.
    unfold mbind, outcome_bind.
    destruct (tag_problems [] _) as [[tags still_open]|e]; [|done].
    intros [= _ Hsuggestions].
    apply app_eq_nil in Hsuggestions as [Htokens Hsuggestions].
    apply app_eq_nil in Hsuggestions as [Hsignature Htrace].
    destruct (contains (py "ServerTokens Full") config_text); [done|].
    destruct (contains (py "ServerTokens Prod") config_text); [|done].
    destruct (contains (py "ServerSignature On") config_text); [done|].
    destruct (contains (py "TraceEnable On") config_text); [done|].
    by destruct (contains (py "TraceEnable") config_text).
  - exfalso. revert Hfound. unfold apache_findings. cbv zeta.
    unfold mbind, outcome_bind.
    by destruct (tag_problems_returns [] (split_on 10 config_text))
      as (tags & still_open & ->).
Qed.

Lemma analyze_apache_returns config_text :
  exists result, analyze_apache_config config_text = Ret result.
Proof.
  unfold analyze_apache_config, apache_findings. cbv zeta.
  unfold mbind, outcome_bind.
  destruct (tag_problems_returns [] (split_on 10 config_text))
    as (tags & still_open & ->).
  by eexists.
Qed.

(** The only exception of the auditor is the [IndexError] of
    [analyze_nginx_config]. *)
Lemma analyze_config_file_raise `{rt : Runtime} config_text config_type e :
  config_analyzer.analyze_config_file config_text config_type = Raise e ->
  e = IndexError (JArr [])
  /\ analyze_nginx_config config_text = Raise e.
Proof.
  unfold config_analyzer.analyze_config_file.
  destruct (detect _ _) as [kind|]; [|done].
  destruct (str_eqb _ _).
  - intros Hnginx.
    pose proof (analyze_nginx_raise_kind _ _ Hnginx) as ->. by split.
  - destruct (bool_decide _); [|done].
    by destruct (analyze_apache_returns config_text) as [r ->].
Qed.

Lemma fallback_response_raise `{rt : Runtime} prompt e :
  _get_fallback_response prompt = Raise e ->
  e = IndexError (JArr [])
  /\ asks_for_config_check (str_lower prompt) = true
  /\ exists group,
       (search_fenced prompt = Some group
        \/ (search_fenced prompt = None
            /\ search_quoted prompt = Some group))
       /\ analyze_nginx_config (strip group) = Raise e.
Proof.
  unfold _get_fallback_response. cbv zeta.
  destruct (asks_for_config_check (str_lower prompt)); [|done].
  destruct (search_fenced prompt) as [group|] eqn:Hfenced.
  - intros [-> Hraise]%analyze_config_file_raise.
    split; [done|]. split; [done|]. exists group. split; [by left|done].
  - destruct (search_quoted prompt) as [group|] eqn:Hquoted; [|done].
    intros [-> Hraise]%analyze_config_file_raise.
    split; [done|]. split; [done|]. exists group. split; [by right|done].
Qed.

(** X24: the Fallback provider of the gateway can raise.  A prompt that
    asks for a check of an NGINX configuration and fences a text with a
    line such as [root ;] makes [generate_completion] raise the
    [IndexError] of the auditor, with [stream] or without: nothing between
    the provider and the auditor catches it. *)
Theorem shipped_fallback_raises `{rt : Runtime} (model : json)
    (prompt : pystr) (temperature : Q) (stream : bool)
    (group directive line : pystr) :
  asks_for_config_check (str_lower prompt) = true ->
  search_fenced prompt = Some group ->
  contains (py "nginx") (str_lower prompt) = true ->
  str_lower (py "nginx") = py "nginx" ->
  directive ∈ path_directives ->
  line ∈ split_on 10 (strip group) ->
  strip line = directive ++ py " ;" ->
  fallback_generate_completion model prompt temperature stream
  = Raise (IndexError (JArr []))
  /\ forall st,
       generate_completion FallbackProvider model prompt temperature stream
         st
       = (Raise (IndexError (JArr [])), st).
Proof.
  intros Hasks Hfenced Hnginx Hlower Hdirective Hline Hstrip.
  assert (fallback_generate_completion model prompt temperature stream
          = Raise (IndexError (JArr []))) as Hraise.
  { unfold fallback_generate_completion, _get_fallback_response.
    cbv zeta. rewrite Hasks, Hfenced, Hnginx.
    unfold config_analyzer.analyze_config_file.
    assert (detect (strip group) (Some (py "nginx")) = Some (py "nginx"))
      as -> by reflexivity.
    rewrite Hlower. unfold str_eqb. rewrite bool_decide_eq_true_2 by done.
    by rewrite (bare_directive_raises _ _ _ Hdirective Hline Hstrip). }
  split; [done|]. intros st. cbn [generate_completion]. unfold of_outcome.
  by rewrite Hraise.
Qed.

(** X25: and that is the only way it fails.  [_get_fallback_response] of
    the gateway's Fallback provider returns a string for every prompt,
    except when the prompt asks for a check of a configuration, a block is
    found in it and the auditor of NGINX raises on the block; the
    exception then is the [IndexError] of the auditor.  A prompt that does
    not ask for a check, or holds no block, gets its answer by topic. *)
Theorem shipped_fallback_outcome `{rt : Runtime} (prompt : pystr) :
  match _get_fallback_response prompt with
  | Ret response =>
    asks_for_config_check (str_lower prompt) = false
    \/ (search_fenced prompt = None /\ search_quoted prompt = None) ->
    response = topic_response prompt (str_lower prompt)
  | Raise e =>
    e = IndexError (JArr [])
    /\ asks_for_config_check (str_lower prompt) = true
    /\ exists group,
         (search_fenced prompt = Some group
          \/ (search_fenced prompt = None
              /\ search_quoted prompt = Some group))
         /\ analyze_nginx_config (strip group) = Raise e
  end.
Proof.
  destruct (_get_fallback_response prompt) as [response|e] eqn:Hrun;
    [|by apply fallback_response_raise].
  revert Hrun. unfold _get_fallback_response. cbv zeta.
  destruct (asks_for_config_check (str_lower prompt));
    [|by intros [= <-] _].
  destruct (search_fenced prompt) as [group|]; [by intros _ [?|[? _]]|].
  destruct (search_quoted prompt) as [group|]; [by intros _ [?|[_ ?]]|].
  by intros [= <-] _.
Qed.

(** A word: no white space in it, and no [>]. *)
Lemma split_on_word sep (word rest : pystr) :
  sep ∉ word -> split_on sep (word ++ sep :: rest) = word :: split_on sep rest.
Proof.
  induction word as [|c word IH]; intros Hword; simpl.
  - by rewrite N.eqb_refl.
  - apply not_elem_of_cons in Hword as [Hc Hword].
    apply not_eq_sym, N.eqb_neq in Hc. by rewrite Hc, (IH Hword).
Qed.

Lemma split_on_last sep (word : pystr) :
  sep ∉ word -> split_on sep word = [word].
Proof.
  induction word as [|c word IH]; intros Hword; simpl; [done|].
  apply not_elem_of_cons in Hword as [Hc Hword].
  apply not_eq_sym, N.eqb_neq in Hc. by rewrite Hc, (IH Hword).
Qed.

Lemma lstrip_word c (s : pystr) : isspace c = false -> lstrip (c :: s) = c :: s.
Proof. intros Hc. simpl. by rewrite Hc. Qed.

Lemma strip_word c (s : pystr) d :
  isspace c = false -> isspace d = false ->
  strip (c :: s ++ [d]) = c :: s ++ [d].
Proof.
  intros Hc Hd. unfold strip, rstrip. rewrite (lstrip_word _ _ Hc).
  change (c :: s ++ [d]) with ((c :: s) ++ [d]).
  rewrite reverse_snoc, (lstrip_word _ _ Hd), <- reverse_snoc.
  apply reverse_involutive.
Qed.

Lemma split_ws_from_no_space word (s : pystr) :
  Forall (fun c => isspace c = false) s ->
  word ++ s <> [] ->
  split_ws_from word s = [word ++ s].
Proof.
  intros Hs. revert word. induction Hs as [|c s Hc _ IH]; intros word Hne.
  - rewrite app_nil_r in *. simpl. by destruct word.
  - simpl. rewrite Hc, IH, <- app_assoc; [done|].
    rewrite <- app_assoc. by destruct word.
Qed.

Lemma contains_char_last (c : N) (s : pystr) : contains [c] (s ++ [c]) = true.
Proof.
  induction s as [|d s IH]; simpl; [by rewrite N.eqb_refl|].
  rewrite IH. apply orb_true_r.
Qed.

Lemma rstrip_gt_word (t : pystr) :
  62%N ∉ t -> rstrip_gt (t ++ [62%N]) = t.
Proof.
  intros Ht. unfold rstrip_gt. rewrite reverse_snoc. simpl.
  assert (lstrip_gt (reverse t) = reverse t) as ->.
  { destruct (reverse t) as [|c r] eqn:Hr; [done|]. simpl.
    destruct (c =? 62)%N eqn:Hc; [|done].
    apply N.eqb_eq in Hc as ->. exfalso. apply Ht.
    apply elem_of_reverse. rewrite Hr. apply list_elem_of_here. }
  apply reverse_involutive.
Qed.

(** X29: the stack of tags of [analyze_apache_config] never matches an
    opening tag that has no argument.  Its name is taken with
    [line[1:].split()[0]], which keeps the closing [>], while the name of
    the closing tag is stripped of it: a block [<t>] ... [</t>] is
    reported both as closed wrongly and as left open. *)
Theorem apache_bare_tag_never_matches (t : pystr) :
  t <> [] ->
  Forall (fun c => isspace c = false /\ c <> 62%N) t ->
  head t <> Some 47%N ->
  tag_problems []
    (split_on 10 (py "<" ++ t ++ py ">" ++ nl ++ py "</" ++ t ++ py ">"))
  = Ret ([py "Некорректное закрытие тега: " ++ t], [t ++ py ">"]).
Proof.
  intros Hne Ht Hslash.
  assert (Forall (fun c => isspace c = false) t) as Hspace
    by (eapply Forall_impl; [exact Ht|]; by intros c [? _]).
  assert (62%N ∉ t) as Hgt.
  { intros Hin. rewrite Forall_forall in Ht. by destruct (Ht _ Hin). }
  assert (10%N ∉ t) as Hnl.
  { intros Hin. rewrite Forall_forall in Hspace. by specialize (Hspace _ Hin). }
  change (py "<") with [60%N]. change (py ">") with [62%N].
  change (py "</") with [60%N; 47%N]. change nl with [10%N].
  assert (split_on 10 ([60%N] ++ t ++ [62%N] ++ [10%N]
                       ++ [60%N; 47%N] ++ t ++ [62%N])
          = [60%N :: t ++ [62%N]; 60%N :: 47%N :: t ++ [62%N]]) as ->.
  { change ([60%N] ++ t ++ [62%N] ++ [10%N] ++ [60%N; 47%N] ++ t ++ [62%N])
      with (60%N :: (t ++ [62%N] ++ 10%N :: 60%N :: 47%N :: (t ++ [62%N]))).
    rewrite (app_assoc t [62%N]).
    change (60%N :: (t ++ [62%N]) ++ 10%N :: 60%N :: 47%N :: t ++ [62%N])
      with ((60%N :: t ++ [62%N]) ++ 10%N :: 60%N :: 47%N :: t ++ [62%N]).
    rewrite split_on_word, split_on_last; [done|..];
      rewrite ?not_elem_of_cons, ?not_elem_of_app, ?not_elem_of_cons;
      repeat split; try done; apply not_elem_of_nil. }
  destruct t as [|c t]; [done|].
  apply Forall_cons in Hspace as [Hc Hspace'].
  assert (c <> 47%N) as Hc47 by (intros ->; by apply Hslash).
  assert (contains [62%N] (60%N :: (c :: t) ++ [62%N]) = true) as Hopen_gt
    by apply (contains_char_last 62 (60%N :: c :: t)).
  assert (contains [62%N] (60%N :: 47%N :: (c :: t) ++ [62%N]) = true)
    as Hclose_gt by apply (contains_char_last 62 (60%N :: 47%N :: c :: t)).
  cbn [tag_problems]. cbv zeta.
  assert (strip (60%N :: (c :: t) ++ [62%N]) = 60%N :: (c :: t) ++ [62%N])
    as -> by exact (strip_word 60 (c :: t) 62 eq_refl eq_refl).
  assert (strip (60%N :: 47%N :: (c :: t) ++ [62%N])
          = 60%N :: 47%N :: (c :: t) ++ [62%N])
    as -> by exact (strip_word 60 (47%N :: c :: t) 62 eq_refl eq_refl).
  change (py "#") with [35%N]. change (py "<") with [60%N].
  change (py "</") with [60%N; 47%N]. change (py ">") with [62%N].
  rewrite Hopen_gt, Hclose_gt.
  apply N.eqb_neq in Hc47.
  assert (startswith [60%N; 47%N] (60%N :: (c :: t) ++ [62%N]) = false)
    as Hnot_close.
  { cbn [startswith app]. rewrite N.eqb_refl. cbn [andb].
    by rewrite N.eqb_sym, Hc47. }
  rewrite Hnot_close.
  cbn [startswith bool_decide decide_rel orb andb negb N.eqb Pos.eqb drop].
  rewrite !bool_decide_eq_false_2 by done. cbn [orb]. rewrite !drop_0.
  assert (split_ws ((c :: t) ++ [62%N]) = [(c :: t) ++ [62%N]]) as ->.
  { unfold split_ws. rewrite split_ws_from_no_space; [done| |done].
    apply Forall_app. split; [by constructor|by repeat constructor]. }
  unfold mbind, outcome_bind, fmap, outcome_fmap. cbn [first_item app].
  assert (rstrip_gt (c :: t ++ [62%N]) = c :: t) as ->
    by exact (rstrip_gt_word (c :: t) Hgt).
  cbn [last]. unfold str_eqb. rewrite bool_decide_eq_false_2; [done|].
  intros Heq. apply (f_equal length) in Heq.
  simpl in Heq. rewrite length_app in Heq. simpl in Heq. lia.
Qed.

End Auditor.

(** ** The non-streaming path, all providers *)


(** ** The endpoints *)

Section Endpoints.

Import views.

Context `{rt : Runtime}.

Lemma init_last cfg :
  last (providers (AIService_init cfg))
  = Some (py "fallback", FallbackProvider).
Proof.
  unfold AIService_init. cbn [providers].
  destruct (key_present (OPENAI_API_KEY cfg)),
    (key_present (ANTHROPIC_API_KEY cfg)),
    (key_present (GEMINI_API_KEY cfg)),
    (key_present (AZURE_OPENAI_API_KEY cfg)),
    (key_present (AZURE_OPENAI_ENDPOINT cfg)),
    (key_present (HUGGINGFACE_API_KEY cfg)); reflexivity.
Qed.

Lemma init_names_shown cfg name :
  name ∈ (providers (AIService_init cfg)).*1 ->
  is_Some (lookup_item name display_names).
Proof.
  unfold AIService_init. cbn [providers].
  destruct (key_present (OPENAI_API_KEY cfg)),
    (key_present (ANTHROPIC_API_KEY cfg)),
    (key_present (GEMINI_API_KEY cfg)),
    (key_present (AZURE_OPENAI_API_KEY cfg)),
    (key_present (AZURE_OPENAI_ENDPOINT cfg)),
    (key_present (HUGGINGFACE_API_KEY cfg));
    cbn [andb app fmap list_fmap fst]; intros Hin;
    repeat (apply elem_of_cons in Hin as [->|Hin]; [by eexists|]);
    by apply elem_of_nil in Hin.
Qed.

Lemma provider_entry_fields capitalize name p st entry st' :
  provider_entry capitalize name p st = (Ret entry, st') ->
  entry_field (py "name") entry = Some (JStr name)
  /\ entry_field (py "display_name") entry
     = Some (JStr (get_provider_display_name capitalize name)).
Proof.
  unfold provider_entry, mbind, M_bind, of_outcome, mret, M_ret.
  destruct (check_connection p st) as [[[]|e] st1]; [| |done].
  - destruct (list_models p st1) as [[models|e] st2]; [|done].
    destruct (if truthy models then _ else _) as [default_model|e]; [|done].
    destruct (py_len models) as [n|e]; [|done].
    by intros [= <- <-].
  - by intros [= <- <-].
Qed.

Lemma provider_entries_fields capitalize items st entries st' :
  provider_entries capitalize items st = (Ret entries, st') ->
  Forall2 (fun item entry =>
             entry_field (py "name") entry = Some (JStr item.1)
             /\ entry_field (py "display_name") entry
                = Some (JStr (get_provider_display_name capitalize item.1)))
    items entries.
Proof.
  revert st entries. induction items as [|[name p] items IH];
    intros st entries; simpl.
  - intros [= <- <-]. constructor.
  - unfold mbind, M_bind, mret, M_ret.
    destruct (provider_entry capitalize name p st) as [[entry|e] st1]
      eqn:Hentry; [|done].
    destruct (provider_entries capitalize items st1) as [[rest|e] st2]
      eqn:Hrest; [|done].
    intros [= <- <-]. constructor; [|by eapply IH].
    by eapply provider_entry_fields.
Qed.

Lemma provider_entries_last capitalize front name st entries st' :
  provider_entries capitalize (front ++ [(name, FallbackProvider)]) st
  = (Ret entries, st') ->
  last entries
  = Some (JObj [(py "name", JStr name);
                (py "display_name",
                 JStr (get_provider_display_name capitalize name));
                (py "available", JBool true);
                (py "default_model", JStr (py "fallback-unix"));
                (py "models_count", JInt 4)]).
Proof.
  revert st entries. induction front as [|[name' p] front IH];
    intros st entries.
  - intros [= <- <-]. reflexivity.
  - cbn [app provider_entries]. unfold mbind, M_bind, mret, M_ret.
    destruct (provider_entry capitalize name' p st) as [[entry|e] st1];
      [|done].
    destruct (provider_entries capitalize _ st1) as [[rest|e] st2] eqn:Hrest;
      [|done].
    intros [= <- <-]. apply IH in Hrest.
    destruct rest; [done|]. by rewrite last_cons, Hrest.
Qed.

(** X19: when the view [ai_providers] returns, its list has one entry per
    registered provider, in the order of the registry; every entry carries
    the name and the display name the table of
    [get_provider_display_name] holds for it (no registered name falls
    back on [capitalize]); and the last entry is that of the Fallback
    provider, available with four models and [fallback-unix] as the
    default one, whatever the network does. *)
Theorem ai_providers_lists_registry (capitalize : pystr -> pystr)
    (cfg : settings) (st : state) (entries : list json) (st' : state) :
  ai_providers capitalize (AIService_init cfg) st = (Ret entries, st') ->
  Forall2 (fun item entry =>
             entry_field (py "name") entry = Some (JStr item.1)
             /\ exists shown,
                  lookup_item item.1 display_names = Some shown
                  /\ entry_field (py "display_name") entry
                     = Some (JStr shown))
    (providers (AIService_init cfg)) entries
  /\ last entries
     = Some (JObj [(py "name", JStr (py "fallback"));
                   (py "display_name", JStr (py "Локальный ИИ"));
                   (py "available", JBool true);
                   (py "default_model", JStr (py "fallback-unix"));
                   (py "models_count", JInt 4)]).
Proof.
  unfold ai_providers. intros Hrun. split.
  - pose proof (provider_entries_fields _ _ _ _ _ Hrun) as Hfields.
    pose proof (init_names_shown cfg) as Hshown.
    clear Hrun. revert Hshown Hfields.
    generalize (providers (AIService_init cfg)) as items.
    intros items Hshown Hfields. revert Hshown.
    induction Hfields as [|item entry items entries' [Hname Hdisplay] _ IH];
      intros Hshown; constructor.
    + split; [done|].
      destruct (Hshown item.1) as [shown Hitem];
        [rewrite fmap_cons; apply list_elem_of_here|].
      exists shown. split; [done|].
      rewrite Hdisplay. unfold get_provider_display_name.
      by rewrite Hitem.
    + apply IH. intros name Hin. apply Hshown.
      rewrite fmap_cons. by apply list_elem_of_further.
  - pose proof (init_last cfg) as Hlast.
    apply last_Some in Hlast as [front Hfront].
    rewrite Hfront in Hrun.
    by rewrite (provider_entries_last _ _ _ _ _ _ Hrun).
Qed.

(** X20: the view [ai_team_generate] never answers 200.  It calls
    [ai_service.collaborate] with the keyword [temperature], which
    [AIService.collaborate] does not declare: for a request with a prompt
    the call is a [TypeError] before the body runs and the view answers
    500 with its text; without a prompt it answers 400.  No request is
    sent and nothing [collaborate] would do happens. *)
Theorem team_endpoint_never_succeeds
    (collaborate : json -> json -> json -> M pyval)
    (str_type_error : pystr -> pystr) (fields : list (pystr * json))
    (st : state) :
  ai_team_generate collaborate str_type_error (JObj fields) st
  = (Ret (if truthy (default (JStr []) (dict_get (py "prompt") fields))
          then Response [(py "error",
                          VStr (str_type_error (py "temperature")))] 500
          else Response [(py "error", VStr (py "Prompt is required"))] 400),
     st).
Proof.
  unfold ai_team_generate, mbind, M_bind, of_outcome, mret, M_ret.
  cbn [method_get].
  by destruct (truthy (default (JStr []) (dict_get (py "prompt") fields))).
Qed.

End Endpoints.

(** ** What [collaborate] asks of the backends *)

Section Team.

Context `{rt : Runtime}.

Lemma quiet_of_outcome {A} (o : outcome A) : quiet (of_outcome o).
Proof. by apply quiet_state. Qed.

Lemma quiet_fan_out service prompt temperature models i ps :
  quiet (fan_out service prompt temperature models i ps).
Proof.
  revert i. induction ps as [|provider ps IH]; intros i; simpl;
    [apply quiet_ret|].
  apply quiet_bind; [apply quiet_of_outcome|]. intros model.
  apply quiet_bind; [apply quiet_ret|]. intros response.
  apply quiet_bind; [apply IH|]. intros rest. apply quiet_ret.
Qed.

Lemma quiet_synthesize service meta_prompt temperature names :
  quiet (synthesize service meta_prompt temperature names).
Proof.
  induction names as [|name names IH]; simpl; [apply quiet_ret|].
  apply quiet_bind.
  { destruct (lookup_item name (registry service));
      [apply quiet_check_connection|apply quiet_ret]. }
  intros [|]; [|apply IH].
  apply quiet_bind; [apply quiet_AIService_list_models|]. intros pm.
  destruct (truthy pm); [|apply IH].
  apply quiet_bind; [apply quiet_of_outcome|]. intros meta_model.
  apply quiet_bind; [apply quiet_ret|]. intros meta_response.
  apply quiet_ret.
Qed.

(** X26: the requests of [collaborate].  From its first line to its
    return or its exception it sends only the requests of
    [check_connection] and of [list_models]; the request of no
    [generate_completion] is among them, since the calls of
    [AIService.generate_completion] in the fan-out and in the synthesis
    make generator objects that nothing iterates.  (The probe of
    [AnthropicProvider] is itself a short message to [/messages]: such
    probes are sent.) *)
Theorem collaborate_sends_probes_and_listings_only (service : AIService)
    (prompt : pystr) (providers : option nat) (models : option (list pystr))
    (temperature : Q) (st : state) :
  exists sent,
    st_calls (AITeam_collaborate service prompt providers models temperature
                st).2
    = st_calls st ++ sent
    /\ Forall (fun rq => exists b, rq = ReqProbe b \/ rq = ReqModels b) sent.
Proof.
  assert (quiet (AITeam_collaborate service prompt providers models
                   temperature)) as Hquiet.
  { unfold AITeam_collaborate.
    apply quiet_bind; [apply quiet_resolve_selection|]. intros [l ms].
    unfold collaborate_selected.
    apply quiet_bind; [by apply quiet_state|]. intros ps.
    destruct (negb _); [by apply quiet_state|].
    apply quiet_bind; [apply quiet_fan_out|]. intros responses. cbv zeta.
    apply quiet_bind; [apply quiet_synthesize|]. intros [meta|];
      [apply quiet_ret|].
    apply quiet_bind; [apply quiet_of_outcome|]. intros best.
    apply quiet_ret. }
  destruct (Hquiet st) as (sent & Hsent & Hkinds).
  exists sent. split; [done|].
  eapply Forall_impl; [exact Hkinds|].
  intros [b|b|b model prompt' t stream]; simpl; [by eexists; left|
    by eexists; right|done].
Qed.

Lemma synthesize_some service meta_prompt temperature names st v st' :
  synthesize service meta_prompt temperature names st = (Ret (Some v), st') ->
  exists name p model,
    name ∈ names
    /\ lookup_item name (registry service) = Some p
    /\ v = VGen (GenService service model meta_prompt (Some name)
                   temperature false).
Proof.
  revert st. induction names as [|name names IH]; intros st; simpl; [done|].
  unfold mbind, M_bind, of_outcome, AIService_generate_completion, mret,
    M_ret.
  destruct (lookup_item name (registry service)) as [p|] eqn:Hp.
  - destruct (check_connection p st) as [[[]|e] st1]; [| |done].
    + destruct (AIService_list_models service (Some name) st1)
        as [[pm|e] st2]; [|done].
      destruct (truthy pm).
      * destruct (first_name pm) as [model|e]; [|done].
        intros [= <- <-]. exists name, p, model.
        split; [apply list_elem_of_here|done].
      * intros Hrest. destruct (IH _ Hrest) as (n & q & model & Hn & Hq).
        exists n, q, model. split; [by apply list_elem_of_further|done].
    + intros Hrest. destruct (IH _ Hrest) as (n & q & model & Hn & Hq).
      exists n, q, model. split; [by apply list_elem_of_further|done].
  - intros Hrest. destruct (IH _ Hrest) as (n & q & model & Hn & Hq).
    exists n, q, model. split; [by apply list_elem_of_further|done].
Qed.

Lemma init_entries cfg :
  Forall (fun entry =>
            match entry.2 with
            | Backend b => credentials_present b = true
            | FallbackProvider => entry.1 = py "fallback"
            end) (providers (AIService_init cfg)).
Proof.
  unfold AIService_init. cbn [providers].
  destruct (key_present (OPENAI_API_KEY cfg)) eqn:Hopenai,
    (key_present (ANTHROPIC_API_KEY cfg)) eqn:Hanthropic,
    (key_present (GEMINI_API_KEY cfg)) eqn:Hgemini,
    (key_present (AZURE_OPENAI_API_KEY cfg)) eqn:Hazure,
    (key_present (AZURE_OPENAI_ENDPOINT cfg)) eqn:Hendpoint,
    (key_present (HUGGINGFACE_API_KEY cfg)) eqn:Hhf;
    cbn [andb app]; repeat constructor; simpl;
    by rewrite ?Hopenai, ?Hanthropic, ?Hgemini, ?Hazure, ?Hendpoint, ?Hhf.
Qed.

(** X27: the synthesizer of [collaborate] is always a backend with its
    credential, taken from the fixed list (openai, anthropic, azure_openai,
    gemini, ollama, huggingface): the Fallback provider is never asked to
    synthesize, and what the synthesis leaves is the generator object of
    the call to that backend through the gateway. *)
Theorem synthesizer_is_a_backend (cfg : settings) (meta_prompt : pystr)
    (temperature : Q) (st : state) (v : pyval) (st' : state) :
  synthesize (AIService_init cfg) meta_prompt temperature meta_providers st
  = (Ret (Some v), st') ->
  exists name b model,
    name ∈ meta_providers
    /\ lookup_item name (providers (AIService_init cfg)) = Some (Backend b)
    /\ credentials_present b = true
    /\ v = VGen (GenService (AIService_init cfg) model meta_prompt
                   (Some name) temperature false).
Proof.
  intros Hrun.
  destruct (synthesize_some _ _ _ _ _ _ _ Hrun)
    as (name & p & model & Hname & Hp & ->).
  pose proof (init_entries cfg) as Hreg. rewrite Forall_forall in Hreg.
  specialize (Hreg _ (lookup_item_elem_of _ _ _ Hp)). simpl in Hreg.
  destruct p as [b|].
  - by exists name, b, model.
  - exfalso. subst name. unfold meta_providers in Hname.
    repeat (apply elem_of_cons in Hname as [Hname|Hname];
            [by vm_compute in Hname|]).
    by apply elem_of_nil in Hname.
Qed.

Lemma list_models_returns p st :
  exists models st', list_models p st = (Ret models, st').
Proof.
  assert (forall b, exists models st',
            fetch_models b st = (Ret models, st')) as Hfetch.
  { intros b. unfold fetch_models.
    destruct (send (ReqModels b) st) as [[resp|e] st']; [|by eexists _, _].
    destruct (status_code resp =? 200); [|by eexists _, _].
    destruct (listing_of b resp); by eexists _, _. }
  destruct p as [b|]; simpl; [|by eexists _, _].
  destruct b; simpl;
    repeat match goal with
           | |- context [if ?c then _ else _] => destruct c
           end;
    first [ apply Hfetch | by eexists _, _ ].
Qed.

(** X28: [AIService.list_models] returns for every provider name and
    every answer of the network, unless the name it resolves is not
    registered; that happens only for the default name (the setting
    [DEFAULT_AI_PROVIDER] naming a provider without its key, or no
    provider), and the call then raises [KeyError] before anything is
    sent. *)
Theorem gateway_listing_total (cfg : settings) (provider : option pystr)
    (st : state) :
  let self := AIService_init cfg in
  let name := resolve_name self provider in
  match lookup_item name (providers self) with
  | Some _ =>
    exists models st',
      AIService_list_models self provider st = (Ret models, st')
  | None =>
    name = DEFAULT_AI_PROVIDER cfg
    /\ AIService_list_models self provider st
       = (Raise (KeyError (JStr name)), st)
  end.
Proof.
  cbv zeta. pose proof (init_fallback cfg) as Hfallback.
  assert (default_provider (AIService_init cfg) = DEFAULT_AI_PROVIDER cfg)
    as Hdefault by reflexivity.
  generalize dependent (AIService_init cfg). intros self Hfallback Hdefault.
  destruct (lookup_item (resolve_name self provider) (providers self))
    as [p|] eqn:Hp.
  - unfold AIService_list_models, mbind, M_bind, subscript, mret, M_ret.
    rewrite Hp, Hfallback.
    destruct (check_connection_returns p st) as (reachable & st1 & ->).
    destruct (list_models_returns p st1) as (models & st2 & Hmodels).
    destruct reachable; simpl.
    + rewrite Hmodels.
      destruct (negb (truthy models) && use_fallback self); by eexists _, _.
    + destruct (use_fallback self); by eexists _, _.
  - split.
    + rewrite <- Hdefault. revert Hp. unfold resolve_name.
      destruct (bool_decide _) eqn:Hregistered; [|done].
      apply bool_decide_eq_true in Hregistered as [q Hq]. congruence.
    + unfold AIService_list_models, mbind, M_bind, subscript, raise_M.
      by rewrite Hp.
Qed.

End Team.

(** ** Instances *)

Import Samples.

(** X3 at a listing with one GPT model and one other. *)
Lemma openai_listing_only_gpt_witness :
  listing_of (rt := offline) (OpenAIProvider None) gpt_listing
  = Ret (JArr [JObj [(py "name", JStr (py "GPT-4o"));
                     (py "modified_at", JInt 1715367049)]])
  /\ exists fields xs,
       body_json gpt_listing = Ret (JObj fields)
       /\ py_iter (default (JArr []) (dict_get (py "data") fields)) = Ret xs
       /\ Forall (fun x => is_Some (str_field (py "id") x)) xs
       /\ JArr [JObj [(py "name", JStr (py "GPT-4o"));
                      (py "modified_at", JInt 1715367049)]]
          = JArr (omap (gpt_entry (rt := offline)) xs).
Proof.
  split; [by vm_compute|].
  apply (openai_listing_only_gpt (rt := offline) None gpt_listing).
  by vm_compute.
Defined.

(** X4 at a listing of two models, one of them a Gemini model. *)
Lemma gemini_listing_short_names_witness :
  listing_of (rt := offline) (GeminiProvider None) gemini_listing
  = Ret (JArr [JObj [(py "name", JStr (py "gemini-pro"));
                     (py "description", JStr (py "Gemini Pro"))]])
  /\ exists fields xs,
       body_json gemini_listing = Ret (JObj fields)
       /\ py_iter (default (JArr []) (dict_get (py "models") fields))
          = Ret xs
       /\ Forall (fun x => is_Some (str_field (py "name") x)) xs
       /\ JArr [JObj [(py "name", JStr (py "gemini-pro"));
                      (py "description", JStr (py "Gemini Pro"))]]
          = JArr (omap (gemini_entry (rt := offline)) xs)
       /\ (forall path, follows_last_slash path (after_last_slash path))
       /\ Forall (fun m => exists short description,
                    m = JObj [(py "name", JStr short);
                              (py "description", description)]
                    /\ contains (py "/") short = false)
            (omap (gemini_entry (rt := offline)) xs).
Proof.
  split; [by vm_compute|].
  apply (gemini_listing_short_names (rt := offline) None gemini_listing).
  by vm_compute.
Defined.

(** X6 at a service without keys, with nothing listening. *)
Lemma gateway_listing_never_empty_witness :
  let st := start ∅ offline tt in
  let self := AIService_init (bare true) in
  let ran := AIService_list_models (rt := offline) self
               (Some (py "ollama")) st in
  OLLAMA_USE_FALLBACK (bare true) = true
  /\ ran.1 = Ret fallback_models
  /\ truthy fallback_models = true
  /\ exists p reachable st1,
       lookup_item (resolve_name self (Some (py "ollama"))) (providers self)
       = Some p
       /\ check_connection (rt := offline) p st = (Ret reachable, st1)
       /\ if reachable
          then exists listing,
                 list_models (rt := offline) p st1 = (Ret listing, ran.2)
                 /\ fallback_models
                    = (if truthy listing then listing else fallback_models)
          else fallback_models = fallback_models /\ ran.2 = st1.
Proof.
  cbv zeta. split; [reflexivity|]. split; [by vm_compute|].
  apply (gateway_listing_never_empty (rt := offline) (bare true)
           (Some (py "ollama")) (start ∅ offline tt) fallback_models
           (AIService_list_models (rt := offline) (AIService_init (bare true))
              (Some (py "ollama")) (start ∅ offline tt)).2).
  - reflexivity.
  - by vm_compute.
Defined.

(** X7 at a name no provider is registered under. *)
Lemma unknown_provider_is_default_witness :
  let self := AIService_init (bare true) in
  let st := start ∅ offline tt in
  lookup_item (py "mistral") (providers self) = None
  /\ AIService_list_models (rt := offline) self (Some (py "mistral")) st
     = AIService_list_models self None st
  /\ run_gen (rt := offline)
       (GenService self (JStr (py "m")) (py "hi") (Some (py "mistral"))
          (7 # 10) true) st
     = run_gen (GenService self (JStr (py "m")) (py "hi") None (7 # 10) true)
         st.
Proof.
  cbv zeta. split; [by vm_compute|].
  apply (unknown_provider_is_default (rt := offline)
           (AIService_init (bare true)) (py "mistral") (JStr (py "m"))
           (py "hi") (7 # 10) true (start ∅ offline tt)).
  by vm_compute.
Defined.

(** X8 at a call with the list [["ollama", "fallback"]], with nothing
    listening: both providers stay in the list, each with the first model
    of the Fallback catalogue. *)
Lemma fallback_keeps_selection_aligned_witness :
  let st := start {[ 0%nat := [py "ollama"; py "fallback"] ]} offline tt in
  let ms := [JStr (py "fallback-unix"); JStr (py "fallback-unix")] in
  let r := resolve_selection (rt := offline) (AIService_init (bare true))
             (Some 0%nat) None st in
  r.1 = Ret (0%nat, ms)
  /\ default [] (st_lists r.2 !! 0%nat) = [py "ollama"; py "fallback"]
  /\ length (default [] (st_lists r.2 !! 0%nat)) = length ms
  /\ forall given,
       Some 0%nat = Some given ->
       default [] (st_lists st !! given) <> [] ->
       0%nat = given /\ st_lists r.2 = st_lists st.
Proof.
  cbv zeta. split; [by vm_compute|]. split; [by vm_compute|].
  apply (fallback_keeps_selection_aligned (rt := offline) (bare true)
           (Some 0%nat)
           (start {[ 0%nat := [py "ollama"; py "fallback"] ]} offline tt)
           0%nat [JStr (py "fallback-unix"); JStr (py "fallback-unix")]).
  - reflexivity.
  - by vm_compute.
Defined.

(** X10 at a stream of OpenAI: a data line, the closing line, and a line
    after it. *)
Lemma sse_lines_never_abort_witness :
  let b := OpenAIProvider (Some (py "sk-test")) in
  let st := start ∅ chatting tt in
  stream_events (rt := chatting) (Backend b) (JStr (py "gpt-4")) (py "hi")
    (7 # 10) st
  = [delta_event (py "Hi") (JStr (py "gpt-4"));
     done_event (JStr (py "gpt-4"))]
  /\ exists how,
       (how = Exhausted \/ how = Broke)
       /\ iter_lines_loop (stream_line (rt := chatting) b (JStr (py "gpt-4")))
            (body_lines chat_reply)
          = (stream_events (rt := chatting) (Backend b) (JStr (py "gpt-4"))
               (py "hi") (7 # 10) st, how).
Proof.
  cbv zeta. split; [by vm_compute|].
  apply (sse_lines_never_abort (rt := chatting)
           (OpenAIProvider (Some (py "sk-test"))) (py "gpt-4") (py "hi")
           (7 # 10) (start ∅ chatting tt) chat_reply tt);
    reflexivity.
Defined.

(** X11 at the same lines. *)
Lemma done_line_ends_sse_stream_witness :
  let b := OpenAIProvider (Some (py "sk-test")) in
  let model := JStr (py "gpt-4") in
  iter_lines_loop (stream_line (rt := chatting) b model) [chat_line]
  = ([delta_event (py "Hi") model], Exhausted)
  /\ iter_lines_loop (stream_line (rt := chatting) b model)
       ([chat_line] ++ done_line :: [chat_line])
     = ([delta_event (py "Hi") model] ++ [done_event model], Broke).
Proof.
  cbv zeta. split; [by vm_compute|].
  apply (done_line_ends_sse_stream (rt := chatting)
           (OpenAIProvider (Some (py "sk-test"))) (JStr (py "gpt-4"))
           [chat_line] [chat_line] [delta_event (py "Hi") (JStr (py "gpt-4"))]).
  - reflexivity.
  - by vm_compute.
Defined.

(** X12 at a stream of Ollama whose lines are the numbers 1 and 2. *)
Lemma ollama_non_object_line_aborts_witness :
  stream_events (rt := counting)
    (Backend (OllamaProvider (py "http://localhost:11434")))
    (JStr (py "llama3")) (py "hi") (7 # 10) (start ∅ counting tt)
  = [JInt 1;
     error_event (str_exn (Runtime := counting)
                    (AttributeError (py "get") (JInt 1)))].
Proof.
  apply (ollama_non_object_line_aborts (rt := counting)
           (py "http://localhost:11434") (py "llama3") (py "hi") (7 # 10)
           (start ∅ counting tt) number_reply tt
           (list_byte_of_string "1") [list_byte_of_string "2"] (JInt 1));
    first [reflexivity | done | exact I].
Defined.


(** X16 at a server block whose [root] has no path. *)
Lemma nginx_directive_without_path_raises_witness :
  config_analyzer.analyze_nginx_config bare_root
  = Raise (IndexError (JArr []))
  /\ forall config_type kind,
       config_analyzer.detect bare_root config_type = Some kind ->
       str_lower (Runtime := offline) kind = py "nginx" ->
       config_analyzer.analyze_config_file (rt := offline) bare_root
         config_type
       = Raise (IndexError (JArr [])).
Proof.
  apply (nginx_directive_without_path_raises (rt := offline) bare_root
           (py "root") (py "    root ;")).
  - apply (bool_decide_unpack _). by vm_compute.
  - apply (bool_decide_unpack _). by vm_compute.
  - by vm_compute.
Defined.

(** X17 at a text that declares both headers. *)
Lemma nginx_verdict_ok_conditions_witness :
  config_analyzer.analyze_nginx_config tidy_nginx
  = Ret config_analyzer.nginx_verdict_ok
  /\ config_analyzer.nginx_findings tidy_nginx = Ret ([], [])
  /\ config_analyzer.count_char 123 tidy_nginx
     = config_analyzer.count_char 125 tidy_nginx
  /\ contains (py "add_header X-Frame-Options") tidy_nginx = true
  /\ contains (py "add_header X-Content-Type-Options") tidy_nginx = true
  /\ contains (py "server_tokens on") tidy_nginx = false
  /\ config_analyzer.semicolon_problems
       (config_analyzer.split_on 10 tidy_nginx) = [].
Proof.
  split; [by vm_compute|].
  apply (nginx_verdict_ok_conditions tidy_nginx). by vm_compute.
Defined.

(** The verdict of X18 is within reach. *)
Lemma apache_verdict_ok_reached :
  config_analyzer.analyze_apache_config tidy_apache
  = Ret config_analyzer.apache_verdict_ok.
Proof. by vm_compute. Qed.

(** X19 at a service without keys, with nothing listening. *)
Lemma ai_providers_lists_registry_witness :
  let entries :=
    [JObj [(py "name", JStr (py "ollama"));
           (py "display_name", JStr (py "Ollama"));
           (py "available", JBool false)];
     JObj [(py "name", JStr (py "fallback"));
           (py "display_name", JStr (py "Локальный ИИ"));
           (py "available", JBool true);
           (py "default_model", JStr (py "fallback-unix"));
           (py "models_count", JInt 4)]] in
  (views.ai_providers (rt := offline) (fun s => s) (AIService_init (bare true))
     (start ∅ offline tt)).1 = Ret entries
  /\ Forall2 (fun item entry =>
                views.entry_field (py "name") entry = Some (JStr item.1)
                /\ exists shown,
                     lookup_item item.1 views.display_names = Some shown
                     /\ views.entry_field (py "display_name") entry
                        = Some (JStr shown))
       (providers (AIService_init (bare true))) entries
  /\ last entries
     = Some (JObj [(py "name", JStr (py "fallback"));
                   (py "display_name", JStr (py "Локальный ИИ"));
                   (py "available", JBool true);
                   (py "default_model", JStr (py "fallback-unix"));
                   (py "models_count", JInt 4)]).
Proof.
  cbv zeta. split; [by vm_compute|].
  apply (ai_providers_lists_registry (rt := offline) (fun s => s) (bare true)
           (start ∅ offline tt) _
           (views.ai_providers (rt := offline) (fun s => s)
              (AIService_init (bare true)) (start ∅ offline tt)).2).
  by vm_compute.
Defined.


(** X23 at two providers without models, with fallback off: the second
    is left in the list. *)
Lemma pruning_two_providers_witness :
  let service := AIService_init (with_openai false) in
  let st := start {[ 0%nat := [py "ollama"; py "openai"] ]} offline tt in
  let st1 := (AIService_list_models (rt := offline) service
                (Some (py "ollama")) st).2 in
  pick_models (rt := offline) 2 service 0 0 [] st
  = (Ret [], {| st_world := st_world st1; st_calls := st_calls st1;
                st_lists := <[0%nat := [py "openai"]]> (st_lists st1) |}).
Proof.
  cbv zeta.
  apply (pruning_two_providers (rt := offline)
           (AIService_init (with_openai false)) 0%nat (py "ollama")
           (py "openai")
           (start {[ 0%nat := [py "ollama"; py "openai"] ]} offline tt)
           (JArr [])).
  - by vm_compute.
  - by vm_compute.
  - reflexivity.
Defined.

(** X24 at a prompt that fences a server block whose [root] has no
    path. *)
Lemma shipped_fallback_raises_witness :
  fallback_generate_completion (rt := offline)
    (JStr (py "fallback-analyzer")) bare_root_prompt (7 # 10) false
  = Raise (IndexError (JArr []))
  /\ forall st,
       generate_completion (rt := offline) FallbackProvider
         (JStr (py "fallback-analyzer")) bare_root_prompt (7 # 10) false st
       = (Raise (IndexError (JArr [])), st).
Proof.
  apply (shipped_fallback_raises (rt := offline)
           (JStr (py "fallback-analyzer")) bare_root_prompt (7 # 10) false
           (py "server {
    root ;
}
") (py "root") (py "    root ;")).
  - by vm_compute.
  - by vm_compute.
  - by vm_compute.
  - by vm_compute.
  - apply (bool_decide_unpack _). by vm_compute.
  - apply (bool_decide_unpack _). by vm_compute.
  - by vm_compute.
Defined.

(** X27 in a world where Ollama answers: it is the synthesizer. *)
Lemma synthesizer_is_a_backend_witness :
  let service := AIService_init (bare true) in
  let r := synthesize (rt := serving) service (py "merge") (7 # 10)
             meta_providers (start ∅ serving tt) in
  r.1 = Ret (Some (VGen (GenService service (JStr (py "llama3"))
                           (py "merge") (Some (py "ollama")) (7 # 10)
                           false)))
  /\ exists name b model,
       name ∈ meta_providers
       /\ lookup_item name (providers service) = Some (Backend b)
       /\ credentials_present b = true
       /\ VGen (GenService service (JStr (py "llama3")) (py "merge")
                  (Some (py "ollama")) (7 # 10) false)
          = VGen (GenService service model (py "merge") (Some name) (7 # 10)
                    false).
Proof.
  cbv zeta. split; [by vm_compute|].
  apply (synthesizer_is_a_backend (rt := serving) (bare true) (py "merge")
           (7 # 10) (start ∅ serving tt) _
           (synthesize (rt := serving) (AIService_init (bare true))
              (py "merge") (7 # 10) meta_providers
              (start ∅ serving tt)).2).
  by vm_compute.
Defined.

(** X29 at the block [<RequireAll>] ... [</RequireAll>]. *)
Lemma apache_bare_tag_never_matches_witness :
  config_analyzer.tag_problems []
    (config_analyzer.split_on 10
       (py "<" ++ py "RequireAll" ++ py ">" ++ nl
        ++ py "</" ++ py "RequireAll" ++ py ">"))
  = Ret ([py "Некорректное закрытие тега: " ++ py "RequireAll"],
         [py "RequireAll" ++ py ">"]).
Proof.
  apply (apache_bare_tag_never_matches (py "RequireAll")).
  - by vm_compute.
  - apply (bool_decide_unpack _). by vm_compute.
  - by vm_compute.
Defined.
